(** * dashboard-paj: the PAJ dashboard (src/dashboard.py)

    A shallow embedding of the loader, the filter pass, the aggregations,
    the upload callback and the PDF export of [dashboard.py], and the
    properties the specification states about them.

    Conventions of the embedding.
    - A pandas frame that went through the loader is a list of [Row]s, one
      field per required column; a blank cell (NaN, NaT) is [None].
    - What pandas, plotly, weasyprint and the file system compute is not in
      the repository: it is taken through the record [World].
    - [print] and [raise] are the two effects of the program; they live in
      the monad [M] (a log of printed lines and a result or an exception).
    - [dcc.Store] keeps the frame as JSON; [to_json]/[read_json] are taken
      as inverse to each other, so the store holds the frame itself. *)

From Stdlib Require Import ZArith List String Ascii Bool Arith Lia.
From Stdlib Require Import Permutation Sorted DecimalString.
Import ListNotations.
Local Open Scope string_scope.

(* ================================================================== *)
(** * Values of the frames *)

Module Pandas.

(** A [pandas.Timestamp], by its calendar fields. *)
Record Timestamp : Type := mkTimestamp {
  year : Z; month : Z; day : Z;
  hour : Z; minute : Z; second : Z; nanosecond : Z
}.

Definition lex (c1 c2 : comparison) : comparison :=
  match c1 with Eq => c2 | _ => c1 end.

(** Chronological comparison of two timestamps. *)
Definition ts_compare (a b : Timestamp) : comparison :=
  lex (year a ?= year b)%Z
 (lex (month a ?= month b)%Z
 (lex (day a ?= day b)%Z
 (lex (hour a ?= hour b)%Z
 (lex (minute a ?= minute b)%Z
 (lex (second a ?= second b)%Z
      (nanosecond a ?= nanosecond b)%Z))))).

Definition ts_leb (a b : Timestamp) : bool :=
  match ts_compare a b with Gt => false | _ => true end.

(** A scalar held by a cell; a cell is a scalar or blank. *)
Inductive Value : Type :=
| Text (s : string)
| Number (n : Z)
| Date (t : Timestamp).

Definition Cell : Type := option Value.

Definition Timestamp_eq_dec (a b : Timestamp) : {a = b} + {a <> b}.
Proof. decide equality; apply Z.eq_dec. Defined.

Definition Value_eq_dec (a b : Value) : {a = b} + {a <> b}.
Proof.
  decide equality;
    [apply string_dec | apply Z.eq_dec | apply Timestamp_eq_dec].
Defined.

Definition value_eqb (a b : Value) : bool :=
  if Value_eq_dec a b then true else false.

(** [Series.isin(values)]: a blank cell is in no selection. *)
Definition isin (c : Cell) (values : list Value) : bool :=
  match c with
  | Some v => existsb (value_eqb v) values
  | None => false
  end.

(** [series >= ts] and [series <= ts] on a datetime column: a comparison
    with NaT is False. *)
Definition ge_ts (d : option Timestamp) (ts : Timestamp) : bool :=
  match d with Some t => ts_leb ts t | None => false end.

Definition le_ts (d : option Timestamp) (ts : Timestamp) : bool :=
  match d with Some t => ts_leb t ts | None => false end.

(** ** Decimal text *)

Definition digit (d : Z) : ascii := ascii_of_N (48 + Z.to_N d).

(** [n] on [width] decimal digits, zero padded ([%Y], [%m], [%d] ... of
    strftime, exact for [0 <= n < 10 ^ width]). *)
Fixpoint zfill (width : nat) (n : Z) : string :=
  match width with
  | O => EmptyString
  | S w => zfill w (n / 10) ++ String (digit (n mod 10)) EmptyString
  end.

(** [str(n)] of a Python int. *)
Definition str_int (n : Z) : string := NilZero.string_of_int (Z.to_int n).
Definition str_len (n : nat) : string := NilZero.string_of_uint (Nat.to_uint n).

(** [.dt.to_period('M').astype(str)] of one timestamp: [YYYY-MM]. *)
Definition year_month_key (t : Timestamp) : string :=
  zfill 4 (year t) ++ "-" ++ zfill 2 (month t).

(** [strftime('%d/%m/%Y %H:%M:%S')] and [strftime('%Y%m%d_%H%M%S')]. *)
Definition strftime_report (t : Timestamp) : string :=
  zfill 2 (day t) ++ "/" ++ zfill 2 (month t) ++ "/" ++ zfill 4 (year t)
  ++ " " ++ zfill 2 (hour t) ++ ":" ++ zfill 2 (minute t) ++ ":"
  ++ zfill 2 (second t).

Definition strftime_file (t : Timestamp) : string :=
  zfill 4 (year t) ++ zfill 2 (month t) ++ zfill 2 (day t) ++ "_"
  ++ zfill 2 (hour t) ++ zfill 2 (minute t) ++ zfill 2 (second t).

(** [needle in hay] on Python strings. *)
Fixpoint contains (needle hay : string) : bool :=
  if prefix needle hay then true
  else match hay with
       | EmptyString => false
       | String _ rest => contains needle rest
       end.

(** ** Counting *)

Section Counting.
Context {K : Type} (K_eq_dec : forall a b : K, {a = b} + {a <> b}).

(** One more occurrence of [k]: its entry is incremented in place, a new
    key goes to the end (first-seen order). *)
Fixpoint bump (k : K) (acc : list (K * nat)) : list (K * nat) :=
  match acc with
  | [] => [(k, 1)]
  | (k', c) :: rest =>
      if K_eq_dec k k' then (k', S c) :: rest
      else (k', c) :: bump k rest
  end.

Definition tally (keys : list K) : list (K * nat) :=
  fold_left (fun acc k => bump k acc) keys [].
End Counting.

Section Sorting.
Context {A : Type} (before : A -> A -> bool).

(** Stable insertion: [x] goes in front of the first element it may
    precede. *)
Fixpoint insert_by (x : A) (l : list A) : list A :=
  match l with
  | [] => [x]
  | y :: l' => if before x y then x :: l else y :: insert_by x l'
  end.

Fixpoint sort_by (l : list A) : list A :=
  match l with
  | [] => []
  | x :: l' => insert_by x (sort_by l')
  end.
End Sorting.

(** The non-blank cells of a column ([dropna]). *)
Fixpoint dropna {A : Type} (column : list (option A)) : list A :=
  match column with
  | [] => []
  | Some v :: rest => v :: dropna rest
  | None :: rest => dropna rest
  end.

Definition by_count_desc {K : Type} (a b : K * nat) : bool :=
  Nat.leb (snd b) (snd a).

(** [Series.value_counts()]: blank cells are left out, one entry per
    distinct value, largest count first, ties in first-seen order. *)
Definition value_counts (column : list Cell) : list (Value * nat) :=
  sort_by by_count_desc (tally Value_eq_dec (dropna column)).

(** [Series.nlargest(n)] (keep='first'): the [n] largest counts, largest
    first; nothing when [n <= 0]. *)
Definition nlargest (n : Z) (counts : list (Value * nat)) : list (Value * nat) :=
  firstn (Z.to_nat n) (sort_by by_count_desc counts).

Definition by_key_asc (a b : string * nat) : bool :=
  String.leb (fst a) (fst b).

(** [groupby(col).size().reset_index(name=...)] on a column of strings:
    one entry per distinct key, keys ascending. *)
Definition groupby_size (column : list string) : list (string * nat) :=
  sort_by by_key_asc (tally string_dec column).

(** [frame.sort_values(col)] on the two-column frame above. *)
Definition sort_values (frame : list (string * nat)) : list (string * nat) :=
  sort_by by_key_asc frame.

End Pandas.

(* ================================================================== *)
(** * The program *)

Module Dashboard.
Import Pandas.

(** ** Effects: printed lines and exceptions *)

Inductive Exception : Type :=
| FileNotFoundError (msg : string)
| ValueError (msg : string)
| OtherError (msg : string).

(** [str(e)]. *)
Definition str_exc (e : Exception) : string :=
  match e with
  | FileNotFoundError msg | ValueError msg | OtherError msg => msg
  end.

Definition Log : Type := list string.

(** A computation prints lines and then returns or raises. *)
Definition M (A : Type) : Type := (Log * (Exception + A))%type.

Definition ret {A : Type} (a : A) : M A := ([], inr a).
Definition raise {A : Type} (e : Exception) : M A := ([], inl e).
Definition print (line : string) : M unit := ([line], inr tt).
Definition lift {A : Type} (r : Exception + A) : M A := ([], r).

Definition bind {A B : Type} (m : M A) (k : A -> M B) : M B :=
  match m with
  | (log, inl e) => (log, inl e)
  | (log, inr a) => let (log', r) := k a in ((log ++ log')%list, r)
  end.

(** [try: body except Exception as e: handler(e)]. *)
Definition try_except {A : Type} (body : M A) (handler : Exception -> M A) : M A :=
  match body with
  | (log, inl e) => let (log', r) := handler e in ((log ++ log')%list, r)
  | (log, inr a) => (log, inr a)
  end.

Notation "x <- m ;; k" := (bind m (fun x => k))
  (at level 61, m at next level, right associativity).
Notation "m ;;; k" := (bind m (fun _ => k))
  (at level 61, right associativity).

(** What a computation returns or raises, the printed lines left aside. *)
Definition output {A : Type} (m : M A) : Exception + A := snd m.

(** ** Data *)

(** A worksheet as [pd.read_excel] returns it: a header and rows of cells
    in header order. *)
Record Sheet : Type := mkSheet {
  header : list string;
  body : list (list Cell)
}.

(** One row of the frame restricted to the required columns, the date
    column being a datetime column (blank is NaT). *)
Record Entry : Type := mkEntry {
  PAJ : Cell;
  Unidade : Cell;
  Assistido : Cell;
  Oficio : Cell;
  Pretensao : Cell;
  Data_da_Instauracao : option Timestamp;
  Materia : Cell;
  Atribuicao : Cell;
  Defensor : Cell;
  Usuario : Cell
}.

(** The row with the three derived columns. *)
Record Row : Type := mkRow {
  entry :> Entry;
  Ano : option Z;
  Mes : option Z;
  AnoMes : string
}.

Definition DataFrame : Type := list Row.

(** [df.empty]. *)
Definition empty {A : Type} (df : list A) : bool :=
  match df with [] => true | _ => false end.

(** A plotly figure, by what it plots. *)
Inductive Figure : Type :=
| EmptyFigure (annotation : string)
| Pie (title : string) (names : list Value) (values : list nat)
| Bar (title : string) (x : list Value) (y : list nat)
| Line (title : string) (x : list string) (y : list nat).

(** What the libraries and the machine answer. *)
Record World : Type := mkWorld {
  (** [pd.read_excel(file_path)] *)
  read_excel_path : string -> Exception + Sheet;
  (** [pd.read_excel] on the decoded payload of an upload's data URL *)
  read_excel_upload : string -> Exception + Sheet;
  (** [pd.to_datetime(..., errors='coerce')] on one cell; [None] is NaT *)
  to_datetime : Cell -> option Timestamp;
  (** [fig.to_image(format="png", scale=2)] *)
  to_image : Figure -> Exception + string;
  (** [base64.b64encode(...).decode()] *)
  b64encode : string -> string;
  (** [open(LOGO_PATH, 'rb').read()] *)
  read_logo : Exception + string;
  (** [DataFrame.to_html(index=False, classes=..., border=0)] *)
  to_html : list (Value * nat) -> string;
  (** [weasyprint.HTML(string=...).write_pdf()] *)
  write_pdf : string -> Exception + string;
  (** [datetime.now()] *)
  now : Timestamp
}.

(** ** Constants *)

Definition INITIAL_DATA_PATH : string := "/home/ubuntu/dashboard_dpu/initial_data.xlsx".

Definition COLUMN_MAPPING : list (string * string) :=
  [ ("Oficio", "Ofício");
    ("Data da instauração", "Data da Instauração");
    ("Materia", "Matéria") ].

Definition REQUIRED_COLUMNS : list string :=
  [ "PAJ"; "Unidade"; "Assistido"; "Ofício"; "Pretensão";
    "Data da Instauração"; "Matéria"; "Atribuição"; "Defensor"; "Usuário" ].

Definition DATE_COLUMN : string := "Data da Instauração".

(** ** Frame operations of the loader *)

(** [df.rename(columns=COLUMN_MAPPING)] on one column name. *)
Fixpoint rename_column (mapping : list (string * string)) (col : string) : string :=
  match mapping with
  | [] => col
  | (old, new) :: rest =>
      if String.eqb col old then new else rename_column rest col
  end.

Definition rename (columns : list string) : list string :=
  map (rename_column COLUMN_MAPPING) columns.

(** [[col for col in REQUIRED_COLUMNS if col not in df.columns]]. *)
Definition missing_columns (columns : list string) : list string :=
  filter (fun col => negb (existsb (String.eqb col) columns)) REQUIRED_COLUMNS.

Fixpoint column_index (col : string) (columns : list string) : option nat :=
  match columns with
  | [] => None
  | c :: rest =>
      if String.eqb col c then Some O
      else option_map S (column_index col rest)
  end.

(** The cell of a row under column [col]. *)
Definition cell_of (columns : list string) (cells : list Cell) (col : string) : Cell :=
  match column_index col columns with
  | Some i => nth i cells None
  | None => None
  end.

Definition is_some {A : Type} (o : option A) : bool :=
  match o with Some _ => true | None => false end.

(** [df.dropna(subset=[DATE_COLUMN])]. *)
Definition dropna_date (df : list Entry) : list Entry :=
  filter (fun e => is_some (Data_da_Instauracao e)) df.

(** [Ano], [Mês] and [AnoMês] of one row ([.dt.year], [.dt.month],
    [.dt.to_period('M').astype(str)]). *)
Definition derive (e : Entry) : Row :=
  {| entry := e;
     Ano := option_map year (Data_da_Instauracao e);
     Mes := option_map month (Data_da_Instauracao e);
     AnoMes := match Data_da_Instauracao e with
               | Some t => year_month_key t
               | None => "NaT"
               end |}.

(** [pd.DataFrame(columns=REQUIRED_COLUMNS + ['Ano', 'Mês', 'AnoMês'])]. *)
Definition empty_frame : DataFrame := [].

Section Loader.
Variable W : World.

(** The required columns of one sheet row, the date column converted
    ([df[DATE_COLUMN] = pd.to_datetime(df[DATE_COLUMN], errors='coerce')]). *)
Definition entry_of (columns : list string) (cells : list Cell) : Entry :=
  {| PAJ := cell_of columns cells "PAJ";
     Unidade := cell_of columns cells "Unidade";
     Assistido := cell_of columns cells "Assistido";
     Oficio := cell_of columns cells "Ofício";
     Pretensao := cell_of columns cells "Pretensão";
     Data_da_Instauracao := to_datetime W (cell_of columns cells DATE_COLUMN);
     Materia := cell_of columns cells "Matéria";
     Atribuicao := cell_of columns cells "Atribuição";
     Defensor := cell_of columns cells "Defensor";
     Usuario := cell_of columns cells "Usuário" |}.

Definition convert_dates (columns : list string) (rows : list (list Cell)) : list Entry :=
  map (entry_of columns) rows.

(** The [try] block of [load_data] (lines 36-54). *)
Definition load_data_try (file_path : string) : M DataFrame :=
  df <- lift (read_excel_path W file_path) ;;
  let columns := rename (header df) in
  let missing_cols := missing_columns columns in
  (if empty missing_cols then ret tt
   else raise (ValueError ("Colunas ausentes no arquivo: "
                           ++ String.concat ", " missing_cols))) ;;;
  let df := convert_dates columns (body df) in
  let df := dropna_date df in
  ret (map derive df).

(** [load_data(file_path)]. *)
Definition load_data (file_path : string) : M DataFrame :=
  try_except
    (load_data_try file_path)
    (fun e =>
       match e with
       | FileNotFoundError _ =>
           print ("Erro: Arquivo inicial não encontrado em " ++ file_path) ;;;
           ret empty_frame
       | ValueError ve =>
           print ("Erro de valor ao carregar dados: " ++ ve) ;;;
           ret empty_frame
       | OtherError msg =>
           print ("Erro inesperado ao carregar dados de " ++ file_path
                  ++ ": " ++ msg) ;;;
           ret empty_frame
       end).

(** The [try] block of [parse_contents] (lines 70-84). *)
Definition parse_contents_try (contents filename : string) : M DataFrame :=
  if contains "xls" filename then
    df <- lift (read_excel_upload W contents) ;;
    let columns := rename (header df) in
    let missing_cols := missing_columns columns in
    (if empty missing_cols then ret tt
     else raise (ValueError ("Colunas ausentes no arquivo carregado: "
                             ++ String.concat ", " missing_cols))) ;;;
    let df := convert_dates columns (body df) in
    let df := dropna_date df in
    ret (map derive df)
  else raise (ValueError "Formato de arquivo não suportado. Use .xlsx ou .xls").

(** [parse_contents(contents, filename)]; [None] is Python's [None]. *)
Definition parse_contents (contents filename : string) : M (option DataFrame) :=
  try_except
    (df <- parse_contents_try contents filename ;; ret (Some df))
    (fun e =>
       print ("Erro ao processar o arquivo carregado " ++ filename
              ++ ": " ++ str_exc e) ;;;
       ret None).
End Loader.

(** ** Callback plumbing *)

(** What a callback returns for one of its outputs. *)
Inductive Update (A : Type) : Type :=
| no_update
| set (a : A).
Arguments no_update {A}.
Arguments set {A} a.

(** The new value of a component property. *)
Definition apply_update {A : Type} (old : A) (u : Update A) : A :=
  match u with no_update => old | set a => a end.

(** The double quote of the f-strings and of the HTML attributes. *)
Definition dq : string := String (ascii_of_nat 34) EmptyString.
Definition quoted (s : string) : string := dq ++ s ++ dq.

(** [html.Div([text], className=...)], or the empty string. *)
Inductive Status : Type :=
| StatusEmpty
| StatusDiv (text : string) (className : string).

(** The value of the four filter controls. A multi-select holds [None] or
    a list of option values; the date picker holds [None] or a date, kept
    here as the timestamp [pd.to_datetime] reads from it. *)
Record Selection : Type := mkSelection {
  materias_selecionadas : option (list Value);
  oficios_selecionados : option (list Value);
  usuarios_selecionados : option (list Value);
  start_date : option Timestamp;
  end_date : option Timestamp
}.

(** Children of the total card. *)
Inductive Card : Type :=
| CardText (text : string)
| CardTotal (heading : string) (total_pajs : nat).

(** Children of the table container. *)
Inductive Table : Type :=
| TableText (text : string)
| DataTable (columns : list string) (data : list (Value * nat)).

(** The six outputs of [update_dashboard]. *)
Record DashboardOutputs : Type := mkOutputs {
  out_total_pajs : Card;
  out_grafico_materia : Figure;
  out_grafico_oficio : Figure;
  out_grafico_usuarios : Figure;
  out_grafico_evolucao : Figure;
  out_tabela_top_usuarios : Table
}.

(** [dcc.send_bytes(pdf_bytes, filename)]. *)
Record Download : Type := send_bytes {
  content : string;
  filename : string
}.

(** ** The filter pass *)

(** Lines 383-394 of [update_dashboard]. *)
Definition dashboard_view (dff : DataFrame) (sel : Selection) : DataFrame :=
  let dff := match materias_selecionadas sel with
             | Some ((_ :: _) as vs) => filter (fun r : Row => isin (Materia r) vs) dff
             | _ => dff
             end in
  let dff := match oficios_selecionados sel with
             | Some ((_ :: _) as vs) => filter (fun r : Row => isin (Oficio r) vs) dff
             | _ => dff
             end in
  let dff := match usuarios_selecionados sel with
             | Some ((_ :: _) as vs) => filter (fun r : Row => isin (Usuario r) vs) dff
             | _ => dff
             end in
  match start_date sel, end_date sel with
  | Some s, Some e =>
      filter (fun r : Row => ge_ts (Data_da_Instauracao r) s
                       && le_ts (Data_da_Instauracao r) e) dff
  | Some s, None => filter (fun r : Row => ge_ts (Data_da_Instauracao r) s) dff
  | None, Some e => filter (fun r : Row => le_ts (Data_da_Instauracao r) e) dff
  | None, None => dff
  end.

(** Lines 486-497 of [generate_pdf]. *)
Definition pdf_view (dff : DataFrame) (sel : Selection) : DataFrame :=
  let dff := match materias_selecionadas sel with
             | Some ((_ :: _) as vs) => filter (fun r : Row => isin (Materia r) vs) dff
             | _ => dff
             end in
  let dff := match oficios_selecionados sel with
             | Some ((_ :: _) as vs) => filter (fun r : Row => isin (Oficio r) vs) dff
             | _ => dff
             end in
  let dff := match usuarios_selecionados sel with
             | Some ((_ :: _) as vs) => filter (fun r : Row => isin (Usuario r) vs) dff
             | _ => dff
             end in
  match start_date sel, end_date sel with
  | Some s, Some e =>
      filter (fun r : Row => ge_ts (Data_da_Instauracao r) s
                       && le_ts (Data_da_Instauracao r) e) dff
  | Some s, None => filter (fun r : Row => ge_ts (Data_da_Instauracao r) s) dff
  | None, Some e => filter (fun r : Row => le_ts (Data_da_Instauracao r) e) dff
  | None, None => dff
  end.

(** ** The dashboard *)

Definition empty_outputs (total annotation table : string) : DashboardOutputs :=
  let empty_fig := EmptyFigure annotation in
  mkOutputs (CardText total) empty_fig empty_fig empty_fig empty_fig
            (TableText table).

(** [update_dashboard(jsonified_data, ..., top_n)]. *)
Definition update_dashboard (jsonified_data : option DataFrame)
    (sel : Selection) (top_n : Z) : DashboardOutputs :=
  match jsonified_data with
  | None =>
      empty_outputs "Total PAJs: 0" "Sem dados para exibir"
                    "Nenhum dado disponível para a tabela."
  | Some dff =>
      if empty dff then
        empty_outputs "Total PAJs: 0" "Sem dados para exibir"
                      "Nenhum dado disponível para a tabela."
      else
        let dff := dashboard_view dff sel in
        if empty dff then
          empty_outputs "Total PAJs: 0" "Nenhum dado corresponde aos filtros"
                        "Nenhum dado corresponde aos filtros."
        else
          let total_pajs := List.length dff in
          let card_total_pajs := CardTotal "Total PAJs Instaurados" total_pajs in
          let materia_counts := value_counts (map (fun r : Row => Materia r) dff) in
          let fig_materia :=
            Pie "Distribuição por Matéria"
                (map fst materia_counts) (map snd materia_counts) in
          let oficio_counts := value_counts (map (fun r : Row => Oficio r) dff) in
          let fig_oficio :=
            Pie "Distribuição por Ofício"
                (map fst oficio_counts) (map snd oficio_counts) in
          let user_counts :=
            nlargest top_n (value_counts (map (fun r : Row => Usuario r) dff)) in
          let fig_usuarios :=
            Bar ("TOP " ++ str_int top_n ++ " Usuários por Nº de PAJs")
                (map fst user_counts) (map snd user_counts) in
          let evolucao := groupby_size (map AnoMes dff) in
          let evolucao := sort_values evolucao in
          let fig_evolucao :=
            Line "Evolução Mensal de PAJs"
                 (map fst evolucao) (map snd evolucao) in
          let top10_users_stats :=
            nlargest 10 (value_counts (map (fun r : Row => Usuario r) dff)) in
          let tabela :=
            DataTable ["Usuário"; "Quantidade PAJs"] top10_users_stats in
          mkOutputs card_total_pajs fig_materia fig_oficio fig_usuarios
                    fig_evolucao tabela
  end.

(** ** The report *)

(** What lines 94-117 of [generate_report_html_base64] compute. *)
Record ReportCharts : Type := mkCharts {
  total_pajs : nat;
  fig_materia : Figure;
  fig_oficio : Figure;
  fig_usuarios : Figure;
  fig_evolucao : Figure;
  top10_users_stats : list (Value * nat)
}.

Definition report_charts (dff : DataFrame) (top_n : Z) : ReportCharts :=
  let total_pajs := List.length dff in
  let materia_counts := value_counts (map (fun r : Row => Materia r) dff) in
  let fig_materia :=
    Pie "Distribuição por Matéria"
        (map fst materia_counts) (map snd materia_counts) in
  let oficio_counts := value_counts (map (fun r : Row => Oficio r) dff) in
  let fig_oficio :=
    Pie "Distribuição por Ofício"
        (map fst oficio_counts) (map snd oficio_counts) in
  let user_counts :=
    nlargest top_n (value_counts (map (fun r : Row => Usuario r) dff)) in
  let fig_usuarios :=
    Bar ("TOP " ++ str_int top_n ++ " Usuários por Nº de PAJs")
        (map fst user_counts) (map snd user_counts) in
  let evolucao := groupby_size (map AnoMes dff) in
  let evolucao := sort_values evolucao in
  let fig_evolucao :=
    Line "Evolução Mensal de PAJs" (map fst evolucao) (map snd evolucao) in
  let top10_users_stats :=
    nlargest 10 (value_counts (map (fun r : Row => Usuario r) dff)) in
  mkCharts total_pajs fig_materia fig_oficio fig_usuarios fig_evolucao
           top10_users_stats.

Definition NO_DATA_REPORT : string :=
  "<h1>Relatório DPU</h1><p>Nenhum dado corresponde aos filtros selecionados.</p>".

Definition REPORT_STYLE : string :=
"    <style>
        body { font-family: sans-serif; margin: 20px; }
        h1, h2, h3 { color: #004080; }
        .chart-container { display: flex; flex-wrap: wrap; gap: 20px; margin-bottom: 30px; page-break-inside: avoid; }
        .chart { flex: 1 1 45%; min-width: 300px; border: 1px solid #ccc; padding: 10px; box-shadow: 2px 2px 5px #eee; text-align: center; }
        .chart img { max-width: 100%; height: auto; }
        .full-width-chart { flex: 1 1 100%; }
        .table-container { margin-top: 30px; page-break-inside: avoid; }
        table { width: 100%; border-collapse: collapse; }
        th, td { border: 1px solid #ddd; padding: 8px; text-align: left; }
        th { background-color: #f2f2f2; }
        .total-box { background-color: #e7f3ff; border-left: 6px solid #2196F3; padding: 15px; margin-bottom: 20px; font-size: 1.2em; }
        @media print { body { margin: 0.5cm; } .chart-container, .table-container { page-break-inside: avoid; } }
    </style></head><body>
".

(** The image of one chart, or the error paragraph when there is none
    ([img_base64.get(name)] is [None] or empty). *)
Definition chart_img (img : option string) : string :=
  match img with
  | Some ((String _ _) as b64) =>
      "<img src=" ++ dq ++ "data:image/png;base64," ++ b64 ++ dq ++ ">"
  | _ => "<p>Erro.</p>"
  end.

Definition nl : string := String (ascii_of_nat 10) EmptyString.

(** The f-string of lines 132-160. *)
Definition report_html (encoded_logo generated_at : string) (c : ReportCharts)
    (top_n : Z) (materia oficio usuarios evolucao : option string)
    (tabela_html : string) : string :=
  nl ++ "    <!DOCTYPE html>" ++ nl
  ++ "    <html><head><meta charset=" ++ quoted "UTF-8"
  ++ "><title>Relatório DPU - Visão Geral SIS</title>" ++ nl
  ++ REPORT_STYLE
  ++ "    <h1><img src=" ++ dq ++ "data:image/png;base64," ++ encoded_logo ++ dq
  ++ " height=" ++ quoted "40px"
  ++ " style=" ++ quoted "vertical-align: middle; margin-right: 10px;"
  ++ ">Relatório DPU - Visão Geral SIS</h1>" ++ nl
  ++ "    <p>Relatório gerado em: " ++ generated_at ++ "</p>" ++ nl
  ++ "    <div class=" ++ quoted "total-box"
  ++ "><strong>Total PAJs Instaurados (Filtro Aplicado): "
  ++ str_len (total_pajs c) ++ "</strong></div>" ++ nl
  ++ "    <div class=" ++ quoted "chart-container" ++ ">" ++ nl
  ++ "        <div class=" ++ quoted "chart"
  ++ "><h2>Distribuição por Matéria</h2>" ++ chart_img materia ++ "</div>" ++ nl
  ++ "        <div class=" ++ quoted "chart"
  ++ "><h2>Distribuição por Ofício</h2>" ++ chart_img oficio ++ "</div>" ++ nl
  ++ "    </div>" ++ nl
  ++ "    <div class=" ++ quoted "chart-container"
  ++ "><div class=" ++ quoted "chart full-width-chart"
  ++ "><h2>TOP " ++ str_int top_n ++ " Usuários por Nº de PAJs</h2>"
  ++ chart_img usuarios ++ "</div></div>" ++ nl
  ++ "    <div class=" ++ quoted "chart-container"
  ++ "><div class=" ++ quoted "chart full-width-chart"
  ++ "><h2>Evolução Mensal de PAJs</h2>"
  ++ chart_img evolucao ++ "</div></div>" ++ nl
  ++ "    <div class=" ++ quoted "table-container"
  ++ "><h2>Detalhes TOP 10 Usuários</h2>" ++ tabela_html ++ "</div>" ++ nl
  ++ "    </body></html>" ++ nl ++ "    ".

(** ** The session *)

(** The component properties the callbacks read and write. *)
Record Session : Type := mkSession {
  stored_data : option DataFrame;
  upload_status : Status;
  filtros : Selection;
  top_n_usuarios : Z;
  download_pdf : option Download
}.

Section Callbacks.
Variable W : World.

(** One pass of the loop of lines 122-128: the chart as base64 text, or
    [None] after printing the error. *)
Definition rasterise (name : string) (fig : Figure) : M (option string) :=
  try_except
    (img_bytes <- lift (to_image W fig) ;;
     ret (Some (b64encode W img_bytes)))
    (fun e =>
       print ("Erro ao gerar imagem base64 " ++ name ++ ": " ++ str_exc e) ;;;
       ret None).

(** Lines 118-161 of [generate_report_html_base64]: the table, the four
    images, the logo and the page. *)
Definition render_report (c : ReportCharts) (top_n : Z) : M string :=
  let tabela_html := to_html W (top10_users_stats c) in
  materia <- rasterise "materia" (fig_materia c) ;;
  oficio <- rasterise "oficio" (fig_oficio c) ;;
  usuarios <- rasterise "usuarios" (fig_usuarios c) ;;
  evolucao <- rasterise "evolucao" (fig_evolucao c) ;;
  logo <- lift (read_logo W) ;;
  let encoded_logo := b64encode W logo in
  ret (report_html encoded_logo (strftime_report (now W)) c top_n
                   materia oficio usuarios evolucao tabela_html).

(** [generate_report_html_base64(dff, top_n)]. *)
Definition generate_report_html_base64 (dff : DataFrame) (top_n : Z) : M string :=
  if empty dff then ret NO_DATA_REPORT
  else render_report (report_charts dff top_n) top_n.

(** [update_output(contents, filename)]: the outputs for the store and
    for the status line. *)
Definition update_output (contents : option string) (filename : string)
    : M (Update (option DataFrame) * Status) :=
  match contents with
  | Some contents =>
      df_new <- parse_contents W contents filename ;;
      match df_new with
      | Some ((_ :: _) as df_new) =>
          let status_message :=
            StatusDiv ("Arquivo " ++ quoted filename ++ " carregado com sucesso.")
                      "text-success" in
          ret (set (Some df_new), status_message)
      | _ =>
          let status_message :=
            StatusDiv ("Falha ao carregar o arquivo " ++ quoted filename
                       ++ ". Verifique o formato e as colunas.")
                      "text-danger" in
          ret (no_update, status_message)
      end
  | None => ret (no_update, StatusEmpty)
  end.

(** [not n_clicks] for a click counter that is [None] or an int. *)
Definition not_clicked (n_clicks : option Z) : bool :=
  match n_clicks with
  | None => true
  | Some n => Z.eqb n 0
  end.

(** The [try] block of [generate_pdf] (lines 500-506). *)
Definition generate_pdf_try (dff : DataFrame) (top_n : Z) : M (Update Download) :=
  html_content_base64 <- generate_report_html_base64 dff top_n ;;
  pdf_bytes <- lift (write_pdf W html_content_base64) ;;
  ret (set (send_bytes pdf_bytes
              ("relatorio_dpu_sis_" ++ strftime_file (now W) ++ ".pdf"))).

(** [generate_pdf(n_clicks, jsonified_data, ..., top_n)]. *)
Definition generate_pdf (n_clicks : option Z) (jsonified_data : option DataFrame)
    (sel : Selection) (top_n : Z) : M (Update Download) :=
  match (if not_clicked n_clicks then None else jsonified_data) with
  | None => ret no_update
  | Some dff =>
      if empty dff then ret no_update
      else
        let dff := pdf_view dff sel in
        try_except
          (generate_pdf_try dff top_n)
          (fun e =>
             print ("Erro ao gerar PDF: " ++ str_exc e) ;;;
             ret no_update)
  end.

(** [dcc.Store(id='stored-data', data=... if not df_inicial.empty else None)]
    after [df_inicial = load_data(INITIAL_DATA_PATH)]. *)
Definition initial_session (sel : Selection) : M Session :=
  df_inicial <- load_data W INITIAL_DATA_PATH ;;
  ret {| stored_data := if empty df_inicial then None else Some df_inicial;
         upload_status := StatusEmpty;
         filtros := sel;
         top_n_usuarios := 10;
         download_pdf := None |}.

(** An upload event: [update_output] writes its two declared outputs. *)
Definition on_upload (s : Session) (contents : option string) (filename : string)
    : M Session :=
  out <- update_output contents filename ;;
  ret {| stored_data := apply_update (stored_data s) (fst out);
         upload_status := snd out;
         filtros := filtros s;
         top_n_usuarios := top_n_usuarios s;
         download_pdf := download_pdf s |}.

(** A click on the PDF button: [generate_pdf] reads the store and the
    controls as State and writes its one declared output. *)
Definition on_pdf_click (s : Session) (n_clicks : option Z) : M Session :=
  out <- generate_pdf n_clicks (stored_data s) (filtros s) (top_n_usuarios s) ;;
  ret {| stored_data := stored_data s;
         upload_status := upload_status s;
         filtros := filtros s;
         top_n_usuarios := top_n_usuarios s;
         download_pdf := match out with
                         | no_update => download_pdf s
                         | set d => Some d
                         end |}.

(** What the page renders for a session. *)
Definition render (s : Session) : DashboardOutputs :=
  update_dashboard (stored_data s) (filtros s) (top_n_usuarios s).
End Callbacks.

(** The sessions the application can be in: it starts from the initial
    file, and then the user uploads files, moves the controls and asks for
    the PDF. *)
Inductive Reachable (W : World) : Session -> Prop :=
| reach_start (sel : Selection) (s : Session) :
    output (initial_session W sel) = inr s -> Reachable W s
| reach_upload (s s' : Session) (contents : option string) (filename : string) :
    Reachable W s ->
    output (on_upload W s contents filename) = inr s' -> Reachable W s'
| reach_controls (s : Session) (sel : Selection) (top_n : Z) :
    Reachable W s ->
    Reachable W (mkSession (stored_data s) (upload_status s) sel top_n
                           (download_pdf s))
| reach_pdf (s s' : Session) (n_clicks : option Z) :
    Reachable W s ->
    output (on_pdf_click W s n_clicks) = inr s' -> Reachable W s'.

End Dashboard.

(* ================================================================== *)
(** * Vocabulary of the specification *)

Module Spec.
Import Pandas Dashboard.

(** The sum of the counts of a breakdown. *)
Definition total_of {K : Type} (counts : list (K * nat)) : nat :=
  list_sum (map snd counts).

(** The count recorded for [k], zero when [k] has no entry. *)
Fixpoint recorded {K : Type} (K_eq_dec : forall a b : K, {a = b} + {a <> b})
    (k : K) (acc : list (K * nat)) : nat :=
  match acc with
  | [] => 0
  | (k', c) :: rest => if K_eq_dec k k' then c else recorded K_eq_dec k rest
  end.

Definition positive {K : Type} (acc : list (K * nat)) : Prop :=
  Forall (fun p => 0 < snd p) acc.

(** The sum of what a figure plots. *)
Definition figure_total (f : Figure) : nat :=
  match f with
  | EmptyFigure _ => 0
  | Pie _ _ values => list_sum values
  | Bar _ _ y => list_sum y
  | Line _ _ y => list_sum y
  end.

(** [a] is not later than [b]. *)
Definition ts_le (a b : Timestamp) : Prop := ts_compare a b <> Gt.


(** The date constraint: inclusive on the bounds that are given. *)
Definition in_range (start_ end_ : option Timestamp) (d : option Timestamp) : Prop :=
  match start_, end_ with
  | Some s, Some e => exists t, d = Some t /\ ts_le s t /\ ts_le t e
  | Some s, None => exists t, d = Some t /\ ts_le s t
  | None, Some e => exists t, d = Some t /\ ts_le t e
  | None, None => True
  end.


(** The same test, computed. *)
Definition allowed_b (selected : option (list Value)) (c : Cell) : bool :=
  match selected with
  | None | Some [] => true
  | Some vs => isin c vs
  end.

Definition in_range_b (start_ end_ : option Timestamp) (d : option Timestamp) : bool :=
  match start_, end_ with
  | Some s, Some e => ge_ts d s && le_ts d e
  | Some s, None => ge_ts d s
  | None, Some e => le_ts d e
  | None, None => true
  end.

Definition meets (sel : Selection) (r : Row) : bool :=
  allowed_b (materias_selecionadas sel) (Materia r)
  && allowed_b (oficios_selecionados sel) (Oficio r)
  && allowed_b (usuarios_selecionados sel) (Usuario r)
  && in_range_b (start_date sel) (end_date sel) (Data_da_Instauracao r).

(** The selection of a page whose controls were never touched. *)
Definition no_selection : Selection := mkSelection None None None None None.


(** The aggregates a rendered dashboard shows, read back from its six
    outputs; [None] when it shows the placeholders. *)
Definition dashboard_charts (out : DashboardOutputs) : option ReportCharts :=
  match out_total_pajs out, out_tabela_top_usuarios out with
  | CardTotal _ n, DataTable _ rows =>
      Some (mkCharts n (out_grafico_materia out) (out_grafico_oficio out)
                     (out_grafico_usuarios out) (out_grafico_evolucao out)
                     rows)
  | _, _ => None
  end.

(** The aggregates the exporter recomputes for a view; [None] when it
    writes the notice instead. *)
Definition exported_charts (view : DataFrame) (top_n : Z) : option ReportCharts :=
  if empty view then None else Some (report_charts view top_n).

(** The status line of a failed upload. *)
Definition failure_status (filename : string) : Status :=
  StatusDiv ("Falha ao carregar o arquivo " ++ quoted filename
             ++ ". Verifique o formato e as colunas.")
            "text-danger".

(** Calendar fields within the bounds of a [pandas.Timestamp]
    (1677-09-21 to 2262-04-11). *)
Definition in_bounds (t : Timestamp) : Prop :=
  (1677 <= year t <= 2262)%Z /\ (1 <= month t <= 12)%Z.

(** The order of (year, month) pairs. *)
Definition compare_year_month (a b : Timestamp) : comparison :=
  lex (year a ?= year b)%Z (month a ?= month b)%Z.

(** A sheet row whose instauration date does not parse. *)
Definition unparseable (W : World) (columns : list string) (cells : list Cell) : bool :=
  negb (is_some (to_datetime W (cell_of columns cells DATE_COLUMN))).

End Spec.

(* ================================================================== *)
(** * Sample data *)

Module Samples.
Import Pandas Dashboard Spec.

Definition on_day (y m d : Z) : Timestamp := mkTimestamp y m d 0 0 0 0.

Definition record (materia oficio usuario : Cell) (date : Timestamp) : Row :=
  derive (mkEntry (Some (Text "PAJ")) (Some (Text "DPU/DF")) (Some (Text "Fulano"))
                  oficio (Some (Text "Benefício")) (Some date) materia
                  (Some (Text "Cível")) (Some (Text "Defensora")) usuario).

(** Three records dated 2024-01, 2024-02, 2024-02. *)
Definition three_records : DataFrame :=
  [ record (Some (Text "Cível")) (Some (Text "1º Ofício")) (Some (Text "ana"))
           (on_day 2024 1 15);
    record (Some (Text "Criminal")) (Some (Text "2º Ofício")) (Some (Text "bruno"))
           (on_day 2024 2 3);
    record (Some (Text "Cível")) (Some (Text "1º Ofício")) (Some (Text "ana"))
           (on_day 2024 2 20) ].

(** One record whose Matéria cell is blank. *)
Definition blank_materia : DataFrame :=
  [ record None (Some (Text "1º Ofício")) (Some (Text "ana")) (on_day 2024 1 15) ].

Definition february : Selection :=
  mkSelection None None None (Some (on_day 2024 2 1)) (Some (on_day 2024 2 28)).

Definition only_carla : Selection :=
  mkSelection None None (Some [Text "carla"]) None None.

(** A sheet that names three columns by their synonyms; the second of its
    three rows has a date that does not parse. *)
Definition synonym_header : list string :=
  [ "PAJ"; "Unidade"; "Assistido"; "Oficio"; "Pretensão";
    "Data da instauração"; "Materia"; "Atribuição"; "Defensor"; "Usuário" ].

Definition sheet_row (date : Cell) (usuario : string) : list Cell :=
  [ Some (Text "PAJ"); Some (Text "DPU/DF"); Some (Text "Fulano");
    Some (Text "1º Ofício"); Some (Text "Benefício"); date;
    Some (Text "Cível"); Some (Text "Cível"); Some (Text "Defensora");
    Some (Text usuario) ].

Definition good_sheet : Sheet :=
  mkSheet synonym_header
    [ sheet_row (Some (Date (on_day 2024 1 15))) "ana";
      sheet_row (Some (Text "sem data")) "bruno";
      sheet_row (Some (Date (on_day 2024 2 20))) "ana" ].


(** A sheet without the Matéria column. *)
Definition no_materia_sheet : Sheet :=
  mkSheet [ "PAJ"; "Unidade"; "Assistido"; "Oficio"; "Pretensão";
            "Data da instauração"; "Atribuição"; "Defensor"; "Usuário" ]
          [].

(** A world by what its files hold and whether its renderers work; dates
    parse when the cell is a date cell. *)
Definition world (initial upload : Exception + Sheet)
    (image pdf : Exception + string) : World :=
  {| read_excel_path := fun _ => initial;
     read_excel_upload := fun _ => upload;
     to_datetime := fun c => match c with Some (Date t) => Some t | _ => None end;
     to_image := fun _ => image;
     b64encode := fun bytes => bytes;
     read_logo := inr "logo";
     to_html := fun _ => "<table></table>";
     write_pdf := fun _ => pdf;
     now := mkTimestamp 2025 3 9 14 5 7 0 |}.

Definition corrupt : Exception + Sheet := inl (OtherError "File is not a zip file").

Definition working_world : World :=
  world (inr good_sheet) (inr good_sheet) (inr "png") (inr "%PDF").



(** The upload lacks the Matéria column. *)
Definition no_materia_world : World :=
  world (inr good_sheet) (inr no_materia_sheet) (inr "png") (inr "%PDF").

(** Uploads are corrupt. *)
Definition corrupt_upload_world : World :=
  world (inr good_sheet) corrupt (inr "png") (inr "%PDF").


(** No chart can be rasterised. *)
Definition no_raster_world : World :=
  world (inr good_sheet) (inr good_sheet) (inl (OtherError "kaleido not found"))
        (inr "%PDF").

(** The PDF cannot be written. *)
Definition no_pdf_world : World :=
  world (inr good_sheet) (inr good_sheet) (inr "png")
        (inl (OtherError "cannot load library pango")).

Definition sample_session : Session :=
  mkSession (Some three_records) StatusEmpty february 20 None.

End Samples.

(* ================================================================== *)
(** * The filter controls *)

Module Controls.
Import Pandas Dashboard.

Definition Cell_eq_dec (a b : Cell) : {a = b} + {a <> b}.
Proof. decide equality; apply Value_eq_dec. Defined.

(** [Series.unique()]: the distinct cells in first-seen order; the blank
    cell is one value among the others. *)
Fixpoint unique (column : list Cell) : list Cell :=
  match column with
  | [] => []
  | c :: rest => c :: remove Cell_eq_dec c (unique rest)
  end.

(** The Python types whose objects [<] compares: [str], the numbers,
    [Timestamp]. *)
Inductive Kind : Type := Str | Num | Stamp.

Definition kind (v : Value) : Kind :=
  match v with
  | Text _ => Str
  | Number _ => Num
  | Date _ => Stamp
  end.

Definition same_kind (a b : Value) : bool :=
  match kind a, kind b with
  | Str, Str | Num, Num | Stamp, Stamp => true
  | _, _ => false
  end.

(** [a < b] for two objects of one type. *)
Definition value_ltb (a b : Value) : bool :=
  match a, b with
  | Text s, Text s' => String.ltb s s'
  | Number n, Number n' => Z.ltb n n'
  | Date t, Date t' =>
      match ts_compare t t' with Lt => true | _ => false end
  | _, _ => false
  end.

(** [a] stays in front of [b] unless [b < a] (the sort is stable). *)
Definition not_after (a b : Value) : bool := negb (value_ltb b a).

Definition homogeneous (values : list Value) : bool :=
  match values with
  | [] => true
  | v :: rest => forallb (same_kind v) rest
  end.

Definition is_blank (c : Cell) : bool :=
  match c with None => true | Some _ => false end.

(** The fixed part of the message of the TypeError that [<] raises between
    objects of two types (the message goes on with the two type names). *)
Definition NOT_SUPPORTED : string :=
  "'<' not supported between instances of".

(** [{'label': i, 'value': i}]. *)
Record DropdownOption : Type := mkOption {
  label : Cell;
  value : Cell
}.

(** [datetime.date]. *)
Record CalendarDate : Type := mkDate {
  date_year : Z;
  date_month : Z;
  date_day : Z
}.

(** [Timestamp.date()]. *)
Definition date_of (t : Timestamp) : CalendarDate :=
  mkDate (year t) (month t) (day t).

Definition earlier (a b : Timestamp) : Timestamp :=
  if ts_leb a b then a else b.

Definition later (a b : Timestamp) : Timestamp :=
  if ts_leb a b then b else a.

(** [Series.min()] and [Series.max()] of a datetime column: NaT cells are
    skipped, and the result is NaT ([None]) when nothing is left. *)
Definition series_min (column : list (option Timestamp)) : option Timestamp :=
  match dropna column with
  | [] => None
  | t :: rest => Some (fold_left earlier rest t)
  end.

Definition series_max (column : list (option Timestamp)) : option Timestamp :=
  match dropna column with
  | [] => None
  | t :: rest => Some (fold_left later rest t)
  end.

(** The six outputs of [update_filter_options]. *)
Record FilterOptions : Type := mkFilterOptions {
  options_materia : list DropdownOption;
  options_oficio : list DropdownOption;
  options_usuario : list DropdownOption;
  min_date_allowed : option CalendarDate;
  max_date_allowed : option CalendarDate;
  initial_visible_month : option CalendarDate
}.

Definition no_options : FilterOptions :=
  mkFilterOptions [] [] [] None None None.

Definition and_then {A B : Type} (r : Exception + A) (k : A -> Exception + B)
    : Exception + B :=
  match r with
  | inl e => inl e
  | inr a => k a
  end.

Section Callback.
(** The order [sorted] leaves numbers and a NaN, or timestamps and a NaT,
    in: every comparison with the blank is False, and where the blank ends
    up depends on the run of the sort. Taken as given. *)
Variable nan_order : list Cell -> list Cell.

(** What [NaT.date()] gives the callback (NaT or an error, by the pandas
    version). Taken as given; no row of a loaded frame has a NaT date. *)
Variable date_of_nat : Exception + option CalendarDate.

(** [sorted(cells)] on the cells of a column. Fewer than two cells are
    compared with nothing. Strings, numbers and timestamps do not compare
    with each other, nor a string with the blank (a float NaN or None). *)
Definition sorted (cells : list Cell) : Exception + list Cell :=
  match cells with
  | [] | [_] => inr cells
  | _ =>
      let values := dropna cells in
      if negb (homogeneous values) then inl (OtherError NOT_SUPPORTED)
      else
        match values with
        | [] => inr cells
        | Text _ :: _ =>
            if existsb is_blank cells then inl (OtherError NOT_SUPPORTED)
            else inr (map Some (sort_by not_after values))
        | _ =>
            if existsb is_blank cells then inr (nan_order cells)
            else inr (map Some (sort_by not_after values))
        end
  end.

(** [series.min().date()] and [series.max().date()]. *)
Definition date_of_result (t : option Timestamp) : Exception + option CalendarDate :=
  match t with
  | Some t => inr (Some (date_of t))
  | None => date_of_nat
  end.

(** [update_filter_options(jsonified_data)]; nothing catches what it
    raises. *)
Definition update_filter_options (jsonified_data : option DataFrame)
    : Exception + FilterOptions :=
  match jsonified_data with
  | None => inr no_options
  | Some df =>
      if empty df then inr no_options
      else
        and_then (sorted (unique (map (fun r : Row => Materia r) df))) (fun materias =>
        and_then (sorted (unique (map (fun r : Row => Oficio r) df))) (fun oficios =>
        and_then (sorted (unique (map (fun r : Row => Usuario r) df))) (fun usuarios =>
        and_then (date_of_result
                    (series_min (map (fun r : Row => Data_da_Instauracao r) df)))
                 (fun min_date =>
        and_then (date_of_result
                    (series_max (map (fun r : Row => Data_da_Instauracao r) df)))
                 (fun max_date =>
        let options_materia := map (fun i => mkOption i i) materias in
        let options_oficio := map (fun i => mkOption i i) oficios in
        let options_usuario := map (fun i => mkOption i i) usuarios in
        inr (mkFilterOptions options_materia options_oficio options_usuario
               min_date max_date min_date))))))
  end.
End Callback.


End Controls.

(* ================================================================== *)
(** * Vocabulary of the behaviour *)

Module Behaviour.
Import Pandas Dashboard Spec Controls.

(** The row has a date, and its three derived columns are the year, the
    month and the year-month key of that date. *)
Definition well_dated (r : Row) : Prop :=
  exists t, Data_da_Instauracao r = Some t
            /\ Ano r = Some (year t) /\ Mes r = Some (month t)
            /\ AnoMes r = year_month_key t.

(** What a sheet with all its columns loads to: the rows whose date
    parses, in sheet order, with their derived columns. *)
Definition parsed_rows (W : World) (sheet : Sheet) : DataFrame :=
  map derive (dropna_date (convert_dates W (rename (header sheet)) (body sheet))).

(** The line [parse_contents] prints for an error. *)
Definition upload_error_line (filename : string) (e : Exception) : string :=
  "Erro ao processar o arquivo carregado " ++ filename ++ ": " ++ str_exc e.


(** The timestamp is a midnight. *)
Definition at_midnight (t : Timestamp) : Prop :=
  hour t = 0%Z /\ minute t = 0%Z /\ second t = 0%Z /\ nanosecond t = 0%Z.

Definition same_day (a b : Timestamp) : Prop :=
  year a = year b /\ month a = month b /\ day a = day b.

(** The fields of a time of day are not negative. *)
Definition clock_not_negative (t : Timestamp) : Prop :=
  (0 <= hour t)%Z /\ (0 <= minute t)%Z /\ (0 <= second t)%Z
  /\ (0 <= nanosecond t)%Z.

(** The fields of a Python [datetime] with a year of four digits, down to
    the second. *)
Definition is_datetime (t : Timestamp) : Prop :=
  (1000 <= year t <= 9999)%Z /\ (1 <= month t <= 12)%Z /\ (1 <= day t <= 31)%Z
  /\ (0 <= hour t <= 23)%Z /\ (0 <= minute t <= 59)%Z
  /\ (0 <= second t <= 59)%Z.

(** Chronological comparison down to the second. *)
Definition compare_to_second (a b : Timestamp) : comparison :=
  lex (year a ?= year b)%Z
 (lex (month a ?= month b)%Z
 (lex (day a ?= day b)%Z
 (lex (hour a ?= hour b)%Z
 (lex (minute a ?= minute b)%Z
      (second a ?= second b)%Z)))).

(** The four charts of a report, in the order they are rasterised. *)
Definition charts_in_order (c : ReportCharts) : list (string * Figure) :=
  [ ("materia", fig_materia c); ("oficio", fig_oficio c);
    ("usuarios", fig_usuarios c); ("evolucao", fig_evolucao c) ].

(** The lines printed for the charts that cannot be rasterised. *)
Definition raster_error_lines (W : World) (c : ReportCharts) : Log :=
  flat_map (fun chart : string * Figure =>
              match to_image W (snd chart) with
              | inl e => ["Erro ao gerar imagem base64 " ++ fst chart
                          ++ ": " ++ str_exc e]
              | inr _ => []
              end)
           (charts_in_order c).

(** A selection that is set and names no value of the column. *)
Definition stale (selected : option (list Value)) (column : list Cell) : Prop :=
  exists v vs, selected = Some (v :: vs)
               /\ forall x, In x (v :: vs) -> ~ In (Some x) column.

(** A selection that is set and names every value of the column. *)
Definition selects_all (selected : option (list Value)) (column : list Cell) : Prop :=
  exists v vs, selected = Some (v :: vs)
               /\ forall x, In (Some x) column -> In x (v :: vs).

(** The date bounds of a selection alone, and its multi-selects alone. *)
Definition dates_only (sel : Selection) : Selection :=
  mkSelection None None None (start_date sel) (end_date sel).

Definition categories_only (sel : Selection) : Selection :=
  mkSelection (materias_selecionadas sel) (oficios_selecionados sel)
              (usuarios_selecionados sel) None None.

(** [in_bounds], computed. *)
Definition in_bounds_b (t : Timestamp) : bool :=
  ((1677 <=? year t) && (year t <=? 2262)
   && (1 <=? month t) && (month t <=? 12))%Z.

(** The image a chart gets in the report. *)
Definition chart_image (W : World) (fig : Figure) : option string :=
  match to_image W fig with
  | inr img_bytes => Some (b64encode W img_bytes)
  | inl _ => None
  end.

(** The name of the file an export offers at [t]. *)
Definition export_name (t : Timestamp) : string :=
  "relatorio_dpu_sis_" ++ strftime_file t ++ ".pdf".

(** A cell that holds a string. *)
Definition as_text (s : string) : Cell := Some (Text s).

Definition text_cell (c : Cell) : Prop := exists s, c = as_text s.

(** The options of a dropdown are the strings of the column, each once, in
    strictly ascending order, the label of an option being its value. *)
Definition offers (options : list DropdownOption) (column : list Cell) : Prop :=
  exists names,
    options = map (fun s => mkOption (as_text s) (as_text s)) names
    /\ StronglySorted (fun a b => String.compare a b = Lt) names
    /\ forall s, In s names <-> In (as_text s) column.

(** The column holds a blank cell and a string. *)
Definition blank_and_text (column : list Cell) : Prop :=
  In None column /\ exists s, In (as_text s) column.

(** The three states of the dashboard. *)
Definition no_data_outputs : DashboardOutputs :=
  empty_outputs "Total PAJs: 0" "Sem dados para exibir"
                "Nenhum dado disponível para a tabela.".

Definition no_match_outputs : DashboardOutputs :=
  empty_outputs "Total PAJs: 0" "Nenhum dado corresponde aos filtros"
                "Nenhum dado corresponde aos filtros.".

(** The bars of a figure. *)
Definition bars (f : Figure) : list (Value * nat) :=
  match f with
  | Pie _ names values => combine names values
  | Bar _ x y => combine x y
  | _ => []
  end.

(** The points of a line. *)
Definition points (f : Figure) : list (string * nat) :=
  match f with
  | Line _ x y => combine x y
  | _ => []
  end.

End Behaviour.

(* ================================================================== *)
(** * More sample data *)

Module Cases.
Import Pandas Dashboard Spec Samples Behaviour.

(** The sample sheet under the canonical column names. *)
Definition canonical_sheet : Sheet :=
  mkSheet (rename synonym_header) (body good_sheet).

(** A sheet none of whose dates parses. *)
Definition undated_sheet : Sheet :=
  mkSheet synonym_header
    [ sheet_row (Some (Text "sem data")) "ana"; sheet_row None "bruno" ].

(** A world whose uploads are told apart by their contents. *)
Definition library_world : World :=
  {| read_excel_path := fun _ => inr no_materia_sheet;
     read_excel_upload := fun contents =>
       if String.eqb contents "canonical" then inr canonical_sheet
       else if String.eqb contents "undated" then inr undated_sheet
       else inr good_sheet;
     to_datetime := fun c => match c with Some (Date t) => Some t | _ => None end;
     to_image := fun fig => match fig with
                            | Pie _ _ _ => inl (OtherError "kaleido not found")
                            | _ => inr "png"
                            end;
     b64encode := fun bytes => bytes;
     read_logo := inl (FileNotFoundError "logo-dpu.png");
     to_html := fun _ => "<table></table>";
     write_pdf := fun _ => inr "%PDF";
     now := mkTimestamp 2025 3 9 14 5 7 0 |}.

(** A world that reads dates as pandas does: a date outside the bounds of
    a Timestamp is coerced to NaT. *)
Definition bounded_world : World :=
  {| read_excel_path := fun _ => inr good_sheet;
     read_excel_upload := fun _ => inr good_sheet;
     to_datetime := fun c => match c with
                             | Some (Date t) => if in_bounds_b t then Some t else None
                             | _ => None
                             end;
     to_image := fun _ => inr "png";
     b64encode := fun bytes => bytes;
     read_logo := inr "logo";
     to_html := fun _ => "<table></table>";
     write_pdf := fun _ => inr "%PDF";
     now := mkTimestamp 2025 3 9 14 5 7 0 |}.

(** The working world, one second later. *)
Definition a_second_later : World :=
  {| read_excel_path := read_excel_path working_world;
     read_excel_upload := read_excel_upload working_world;
     to_datetime := to_datetime working_world;
     to_image := to_image working_world;
     b64encode := b64encode working_world;
     read_logo := read_logo working_world;
     to_html := to_html working_world;
     write_pdf := write_pdf working_world;
     now := mkTimestamp 2025 3 9 14 5 8 0 |}.

(** A record entered in the afternoon of the last day of February. *)
Definition afternoon_record : Row :=
  record (Some (Text "Cível")) (Some (Text "1º Ofício")) (Some (Text "ana"))
         (mkTimestamp 2024 2 28 15 30 0 0).

Definition until_february_28 : Selection :=
  mkSelection None None None None (Some (on_day 2024 2 28)).

Definition inverted_range : Selection :=
  mkSelection None None None (Some (on_day 2024 3 1)) (Some (on_day 2024 2 1)).

Definition only_civel : Selection :=
  mkSelection (Some [Text "Cível"]) None None None None.

(** The three sample records in another order. *)
Definition three_records_shuffled : DataFrame :=
  match three_records with
  | [a; b; c] => [c; a; b]
  | other => other
  end.

(** Twelve users, the k-th with k records. *)
Fixpoint repeat_record (usuario : string) (n : nat) : DataFrame :=
  match n with
  | O => []
  | S n' => record (Some (Text "Cível")) (Some (Text "1º Ofício"))
                   (Some (Text usuario)) (on_day 2024 1 15)
            :: repeat_record usuario n'
  end.

Definition twelve_users : DataFrame :=
  (repeat_record "u01" 1 ++ repeat_record "u02" 2 ++ repeat_record "u03" 3
   ++ repeat_record "u04" 4 ++ repeat_record "u05" 5 ++ repeat_record "u06" 6
   ++ repeat_record "u07" 7 ++ repeat_record "u08" 8 ++ repeat_record "u09" 9
   ++ repeat_record "u10" 10 ++ repeat_record "u11" 11
   ++ repeat_record "u12" 12)%list.

(** [sorted] on numbers and a NaN, as one run of the sort may leave it. *)
Definition keep_order (cells : list Cell) : list Cell := cells.

(** [NaT.date()] in a pandas that answers NaT. *)
Definition nat_is_no_date : Exception + option Controls.CalendarDate := inr None.

(** The three sample records and one whose Usuário cell is blank. *)
Definition with_blank_user : DataFrame :=
  (three_records
   ++ [record (Some (Text "Cível")) (Some (Text "1º Ofício")) None
              (on_day 2024 3 5)])%list.

End Cases.

(* ================================================================== *)
(** * Facts about counting and sorting *)

Import Pandas Dashboard Spec.

Section CountingFacts.
Context {K : Type} (K_eq_dec : forall a b : K, {a = b} + {a <> b}).

Local Abbreviation bump := (bump K_eq_dec).
Local Abbreviation tally := (tally K_eq_dec).
Local Abbreviation recorded := (recorded K_eq_dec).

Lemma bump_total k acc : total_of (bump k acc) = S (total_of acc).
Proof.
  unfold total_of.
  induction acc as [|[k' c] rest IH]; simpl; [reflexivity|].
  destruct (K_eq_dec k k'); simpl; [reflexivity|].
  rewrite IH. lia.
Qed.

Lemma bump_recorded k k' acc :
  recorded k' (bump k acc)
  = recorded k' acc + (if K_eq_dec k' k then 1 else 0).
Proof.
  induction acc as [|[k0 c] rest IH]; simpl.
  - destruct (K_eq_dec k' k); reflexivity.
  - destruct (K_eq_dec k k0) as [->|Hk]; simpl.
    + destruct (K_eq_dec k' k0); lia.
    + destruct (K_eq_dec k' k0) as [->|Hk'].
      * destruct (K_eq_dec k0 k); [congruence | lia].
      * apply IH.
Qed.

Lemma bump_keys k acc :
  map fst (bump k acc)
  = if in_dec K_eq_dec k (map fst acc) then map fst acc
    else (map fst acc ++ [k])%list.
Proof.
  induction acc as [|[k0 c] rest IH]; simpl; [reflexivity|].
  destruct (K_eq_dec k k0) as [->|Hk]; simpl.
  - destruct (K_eq_dec k0 k0); [reflexivity | congruence].
  - destruct (K_eq_dec k0 k); [congruence|].
    rewrite IH. destruct (in_dec K_eq_dec k (map fst rest)); reflexivity.
Qed.

Lemma bump_NoDup k acc :
  NoDup (map fst acc) -> NoDup (map fst (bump k acc)).
Proof.
  intros H. rewrite bump_keys.
  destruct (in_dec K_eq_dec k (map fst acc)) as [|Hn]; [assumption|].
  apply NoDup_app; [assumption | repeat constructor; intros [] | ].
  intros x Hx [<-|[]]. contradiction.
Qed.

Lemma bump_positive k acc : positive acc -> positive (bump k acc).
Proof.
  unfold positive.
  induction acc as [|[k0 c] rest IH]; simpl; intros H.
  - repeat constructor.
  - inversion H; subst. destruct (K_eq_dec k k0).
    + constructor; [simpl; lia | assumption].
    + constructor; [assumption | auto].
Qed.

(** With distinct keys, the entries are the recorded counts. *)
Lemma recorded_In k c acc :
  NoDup (map fst acc) -> In (k, c) acc -> recorded k acc = c.
Proof.
  induction acc as [|[k0 c0] rest IH]; simpl; intros Hnd Hin; [tauto|].
  inversion Hnd as [|? ? Hnotin Hnd']; subst.
  destruct Hin as [Heq|Hin].
  - inversion Heq; subst. destruct (K_eq_dec k k); congruence.
  - destruct (K_eq_dec k k0) as [->|]; [|auto].
    exfalso. apply Hnotin. change k0 with (fst (k0, c)). now apply in_map.
Qed.

Lemma In_recorded k acc :
  0 < recorded k acc -> In (k, recorded k acc) acc.
Proof.
  induction acc as [|[k0 c0] rest IH]; simpl; intros H; [lia|].
  destruct (K_eq_dec k k0) as [->|]; [now left | right; auto].
Qed.

Lemma tally_from keys : forall acc,
  let result := fold_left (fun acc k => bump k acc) keys acc in
  total_of result = List.length keys + total_of acc
  /\ (forall k, recorded k result = count_occ K_eq_dec keys k + recorded k acc)
  /\ (NoDup (map fst acc) -> NoDup (map fst result))
  /\ (positive acc -> positive result).
Proof.
  induction keys as [|k keys IH]; intros acc; cbn zeta; simpl.
  - repeat split; auto.
  - destruct (IH (bump k acc)) as (Ht & Hr & Hn & Hp).
    split; [|split; [|split]].
    + rewrite Ht, bump_total. lia.
    + intros k'. rewrite Hr, bump_recorded.
      destruct (K_eq_dec k k'), (K_eq_dec k' k); try congruence; lia.
    + intros H. apply Hn. now apply bump_NoDup.
    + intros H. apply Hp. now apply bump_positive.
Qed.

Lemma tally_total keys : total_of (tally keys) = List.length keys.
Proof.
  unfold tally. destruct (tally_from keys []) as (H & _).
  rewrite H. unfold total_of. simpl. lia.
Qed.

Lemma tally_NoDup keys : NoDup (map fst (tally keys)).
Proof.
  unfold tally. destruct (tally_from keys []) as (_ & _ & H & _).
  apply H. constructor.
Qed.

Lemma tally_recorded keys k :
  recorded k (tally keys) = count_occ K_eq_dec keys k.
Proof.
  unfold tally. destruct (tally_from keys []) as (_ & H & _).
  rewrite H. simpl. lia.
Qed.

(** An entry of the tally is a key that occurs, with its number of
    occurrences. *)
Lemma tally_In keys k c :
  In (k, c) (tally keys) <-> c = count_occ K_eq_dec keys k /\ In k keys.
Proof.
  split.
  - intros Hin.
    assert (Hc : recorded k (tally keys) = c)
      by (apply recorded_In; [apply tally_NoDup | assumption]).
    rewrite tally_recorded in Hc. split; [congruence|].
    apply (count_occ_In K_eq_dec). rewrite Hc.
    unfold tally in Hin. destruct (tally_from keys []) as (_ & _ & _ & Hp).
    specialize (Hp (Forall_nil _)).
    unfold positive in Hp. rewrite Forall_forall in Hp.
    apply (Hp (k, c) Hin).
  - intros [-> Hin]. rewrite <- tally_recorded.
    apply In_recorded. rewrite tally_recorded.
    now apply count_occ_In.
Qed.
End CountingFacts.

Section SortingFacts.
Context {A : Type} (before : A -> A -> bool).
Hypothesis before_total : forall a b, before a b = true \/ before b a = true.
Hypothesis before_trans :
  forall a b c, before a b = true -> before b c = true -> before a c = true.

Let R (a b : A) : Prop := before a b = true.

Lemma insert_by_perm x l : Permutation (x :: l) (insert_by before x l).
Proof.
  induction l as [|y l IH]; simpl; [reflexivity|].
  destruct (before x y); [reflexivity|].
  rewrite perm_swap. now constructor.
Qed.

Lemma sort_by_perm l : Permutation l (sort_by before l).
Proof.
  induction l as [|x l IH]; simpl; [constructor|].
  rewrite <- insert_by_perm. now constructor.
Qed.

Lemma insert_by_sorted x l :
  StronglySorted R l -> StronglySorted R (insert_by before x l).
Proof.
  induction l as [|y l IH]; simpl; intros Hs.
  - repeat constructor.
  - inversion Hs as [|? ? Hl Hy]; subst.
    destruct (before x y) eqn:Hxy.
    + constructor; [assumption|].
      constructor; [exact Hxy|].
      rewrite Forall_forall in *. intros z Hz.
      unfold R. eapply before_trans; [exact Hxy | now apply Hy].
    + constructor; [auto|].
      rewrite Forall_forall in *. intros z Hz.
      apply (Permutation_in _ (Permutation_sym (insert_by_perm x l))) in Hz.
      destruct Hz as [<-|Hz]; [|now apply Hy].
      destruct (before_total x y) as [H|H]; [congruence | exact H].
Qed.

Lemma sort_by_sorted l : StronglySorted R (sort_by before l).
Proof.
  induction l as [|x l IH]; simpl; [constructor|].
  now apply insert_by_sorted.
Qed.

(** Sorting leaves a sorted list as it is. *)
Lemma sort_by_fixed l : StronglySorted R l -> sort_by before l = l.
Proof.
  induction 1 as [|x l Hs IH Hx]; simpl; [reflexivity|].
  rewrite IH. destruct l as [|y l']; simpl; [reflexivity|].
  inversion Hx; subst. unfold R in *. now rewrite H1.
Qed.
End SortingFacts.

(* ================================================================== *)
(** * Facts about the order of strings and of year-month keys *)

Lemma ascii_compare_N a b :
  Ascii.compare a b = (N_of_ascii a ?= N_of_ascii b)%N.
Proof. reflexivity. Qed.

Lemma ascii_compare_refl a : Ascii.compare a a = Eq.
Proof. rewrite ascii_compare_N. apply N.compare_refl. Qed.

Lemma string_compare_refl s : String.compare s s = Eq.
Proof.
  induction s as [|a s IH]; simpl; [reflexivity|].
  now rewrite ascii_compare_refl.
Qed.

Lemma string_compare_lt_trans s1 : forall s2 s3,
  String.compare s1 s2 = Lt -> String.compare s2 s3 = Lt ->
  String.compare s1 s3 = Lt.
Proof.
  induction s1 as [|a s1 IH]; intros [|b s2] [|c s3]; simpl;
    try congruence.
  rewrite !ascii_compare_N.
  destruct (N.compare_spec (N_of_ascii a) (N_of_ascii b)) as [Hab|Hab|Hab];
    destruct (N.compare_spec (N_of_ascii b) (N_of_ascii c)) as [Hbc|Hbc|Hbc];
    try congruence; intros H1 H2.
  - rewrite Hab, Hbc, N.compare_refl. eauto.
  - rewrite Hab. now rewrite (proj2 (N.compare_lt_iff _ _) Hbc).
  - rewrite <- Hbc. now rewrite (proj2 (N.compare_lt_iff _ _) Hab).
  - now rewrite (proj2 (N.compare_lt_iff _ _) (N.lt_trans _ _ _ Hab Hbc)).
Qed.

Lemma string_leb_cases s1 s2 :
  String.leb s1 s2 = true <-> s1 = s2 \/ String.compare s1 s2 = Lt.
Proof.
  unfold String.leb. split.
  - destruct (String.compare s1 s2) eqn:H; try discriminate; intros _.
    + left. now apply String.compare_eq_iff.
    + now right.
  - intros [-> | ->]; [now rewrite string_compare_refl | reflexivity].
Qed.

Lemma string_leb_trans s1 s2 s3 :
  String.leb s1 s2 = true -> String.leb s2 s3 = true ->
  String.leb s1 s3 = true.
Proof.
  rewrite !string_leb_cases. intros [-> | H1] [-> | H2]; auto.
  right. eapply string_compare_lt_trans; eassumption.
Qed.

Lemma by_key_asc_total a b : by_key_asc a b = true \/ by_key_asc b a = true.
Proof. apply String.leb_total. Qed.

Lemma by_key_asc_trans a b c :
  by_key_asc a b = true -> by_key_asc b c = true -> by_key_asc a c = true.
Proof. apply string_leb_trans. Qed.

Lemma by_count_desc_total {K : Type} (a b : K * nat) :
  by_count_desc a b = true \/ by_count_desc b a = true.
Proof.
  unfold by_count_desc.
  destruct (Nat.leb_spec (snd b) (snd a)); [now left|].
  right. apply Nat.leb_le. lia.
Qed.

Lemma by_count_desc_trans {K : Type} (a b c : K * nat) :
  by_count_desc a b = true -> by_count_desc b c = true ->
  by_count_desc a c = true.
Proof. unfold by_count_desc. rewrite !Nat.leb_le. lia. Qed.

(** ** Fixed-width decimal text orders like the numbers *)

Lemma digit_compare a b :
  (0 <= a < 10)%Z -> (0 <= b < 10)%Z ->
  Ascii.compare (digit a) (digit b) = (a ?= b)%Z.
Proof.
  intros Ha Hb. unfold digit. rewrite ascii_compare_N.
  rewrite !N_ascii_embedding by lia.
  rewrite <- N2Z.inj_compare, !N2Z.inj_add, !Z2N.id by lia.
  apply Z.add_compare_mono_l.
Qed.

Lemma length_append s1 s2 :
  String.length (s1 ++ s2) = String.length s1 + String.length s2.
Proof. induction s1; simpl; congruence. Qed.

Lemma zfill_length w : forall n, String.length (zfill w n) = w.
Proof.
  induction w as [|w IH]; intros n; simpl; [reflexivity|].
  rewrite length_append, IH. simpl. lia.
Qed.

Lemma compare_append s1 : forall s2 t1 t2,
  String.length s1 = String.length s2 ->
  String.compare (s1 ++ t1) (s2 ++ t2)
  = lex (String.compare s1 s2) (String.compare t1 t2).
Proof.
  induction s1 as [|a s1 IH]; intros [|b s2] t1 t2; simpl;
    try discriminate; intros H; [reflexivity|].
  destruct (Ascii.compare a b); try reflexivity.
  apply IH. congruence.
Qed.

Lemma compare_tens a b :
  lex (a / 10 ?= b / 10)%Z (a mod 10 ?= b mod 10)%Z = (a ?= b)%Z.
Proof.
  pose proof (Z.div_mod a 10 ltac:(lia)) as Ha.
  pose proof (Z.div_mod b 10 ltac:(lia)) as Hb.
  pose proof (Z.mod_pos_bound a 10 ltac:(lia)).
  pose proof (Z.mod_pos_bound b 10 ltac:(lia)).
  symmetry.
  destruct (Z.compare_spec (a / 10) (b / 10)) as [Hq|Hq|Hq]; simpl.
  - destruct (Z.compare_spec (a mod 10) (b mod 10)) as [Hr|Hr|Hr].
    + apply Z.compare_eq_iff. lia.
    + apply Z.compare_lt_iff. lia.
    + apply Z.compare_gt_iff. lia.
  - apply Z.compare_lt_iff. lia.
  - apply Z.compare_gt_iff. lia.
Qed.

Lemma zfill_compare w : forall a b,
  (0 <= a < 10 ^ Z.of_nat w)%Z -> (0 <= b < 10 ^ Z.of_nat w)%Z ->
  String.compare (zfill w a) (zfill w b) = (a ?= b)%Z.
Proof.
  induction w as [|w IH]; intros a b Ha Hb.
  - simpl in *. assert (a = 0%Z) by lia. assert (b = 0%Z) by lia.
    subst. reflexivity.
  - rewrite Nat2Z.inj_succ, Z.pow_succ_r in Ha, Hb by lia.
    simpl zfill. rewrite compare_append by now rewrite !zfill_length.
    rewrite IH.
    + simpl String.compare.
      rewrite digit_compare by (apply Z.mod_pos_bound; lia).
      rewrite <- (compare_tens a b).
      destruct (a / 10 ?= b / 10)%Z; simpl; try reflexivity.
      now destruct (a mod 10 ?= b mod 10)%Z.
    + split; [apply Z.div_pos; lia | apply Z.div_lt_upper_bound; lia].
    + split; [apply Z.div_pos; lia | apply Z.div_lt_upper_bound; lia].
Qed.

Lemma year_month_key_compare t1 t2 :
  (0 <= year t1 < 10000)%Z -> (0 <= year t2 < 10000)%Z ->
  (0 <= month t1 < 100)%Z -> (0 <= month t2 < 100)%Z ->
  String.compare (year_month_key t1) (year_month_key t2)
  = lex (year t1 ?= year t2)%Z (month t1 ?= month t2)%Z.
Proof.
  intros Hy1 Hy2 Hm1 Hm2. unfold year_month_key.
  rewrite compare_append by now rewrite !zfill_length.
  rewrite (zfill_compare 4) by (simpl; lia).
  change ("-" ++ zfill 2 (month t1)) with (String "-" (zfill 2 (month t1))).
  change ("-" ++ zfill 2 (month t2)) with (String "-" (zfill 2 (month t2))).
  cbn [String.compare]. rewrite ascii_compare_refl.
  rewrite (zfill_compare 2) by (simpl; lia).
  reflexivity.
Qed.

(* ================================================================== *)
(** * The filter pass *)

Lemma filter_twice {A : Type} (p q : A -> bool) (l : list A) :
  filter p (filter q l) = filter (fun x => q x && p x) l.
Proof.
  induction l as [|x l IH]; simpl; [reflexivity|].
  destruct (q x); simpl; [destruct (p x)|]; now rewrite IH.
Qed.

Lemma filter_all {A : Type} (l : list A) : filter (fun _ => true) l = l.
Proof. induction l; simpl; congruence. Qed.

Lemma value_eqb_eq a b : value_eqb a b = true <-> a = b.
Proof.
  unfold value_eqb. destruct (Value_eq_dec a b); split; congruence.
Qed.

Lemma isin_spec c vs :
  isin c vs = true <-> exists v, c = Some v /\ In v vs.
Proof.
  destruct c as [v|]; simpl.
  - rewrite existsb_exists. split.
    + intros (x & Hin & Heq). apply value_eqb_eq in Heq. subst. eauto.
    + intros (x & Heq & Hin). inversion Heq; subst.
      exists x. split; [assumption | now apply value_eqb_eq].
  - split; [discriminate | intros (v & H & _); discriminate].
Qed.


Lemma ts_leb_spec a b : ts_leb a b = true <-> ts_le a b.
Proof.
  unfold ts_leb, ts_le.
  destruct (ts_compare a b); split; congruence.
Qed.

Lemma ge_ts_spec d s :
  ge_ts d s = true <-> exists t, d = Some t /\ ts_le s t.
Proof.
  destruct d as [t|]; simpl.
  - rewrite ts_leb_spec. split; [eauto | now intros (? & [= <-] & ?)].
  - split; [discriminate | intros (? & ? & _); discriminate].
Qed.

Lemma le_ts_spec d e :
  le_ts d e = true <-> exists t, d = Some t /\ ts_le t e.
Proof.
  destruct d as [t|]; simpl.
  - rewrite ts_leb_spec. split; [eauto | now intros (? & [= <-] & ?)].
  - split; [discriminate | intros (? & ? & _); discriminate].
Qed.

Lemma in_range_b_spec s e d :
  in_range_b s e d = true <-> in_range s e d.
Proof.
  destruct s as [s|], e as [e|]; simpl; try tauto.
  - rewrite andb_true_iff, ge_ts_spec, le_ts_spec. split.
    + intros [(t & -> & H1) (t' & [= <-] & H2)]. eauto.
    + intros (t & -> & H1 & H2). split; eauto.
  - apply ge_ts_spec.
  - apply le_ts_spec.
Qed.


Lemma dashboard_view_filter dff sel :
  dashboard_view dff sel = filter (meets sel) dff.
Proof.
  unfold dashboard_view, meets.
  destruct sel as [[[|m0 m]|] [[|o0 o]|] [[|u0 u]|] [s|] [e|]];
    cbn [materias_selecionadas oficios_selecionados usuarios_selecionados
         start_date end_date allowed_b in_range_b];
    rewrite <- (filter_all dff) at 1; rewrite ?filter_twice;
    apply filter_ext; intros r; cbn [andb];
    now rewrite ?andb_true_r, ?andb_assoc.
Qed.


(* ================================================================== *)
(** * The exporter recomputes what the dashboard shows *)

(** C2. For every stored record set, selection and top-N, the exporter
    filters to the same view as the dashboard, and the aggregates it
    recomputes for the report (total, Matéria and Ofício counts, top-N user
    counts, monthly series, top-10 table) are the ones the dashboard shows;
    both show none when the view is empty. The report is the page rendered
    from exactly the aggregates on the dashboard. *)
Theorem report_aggregates_match_dashboard
    (W : World) (rs : DataFrame) (sel : Selection) (top_n : Z) :
  pdf_view rs sel = dashboard_view rs sel
  /\ dashboard_charts (update_dashboard (Some rs) sel top_n)
     = exported_charts (pdf_view rs sel) top_n
  /\ generate_report_html_base64 W (pdf_view rs sel) top_n
     = match dashboard_charts (update_dashboard (Some rs) sel top_n) with
       | Some c => render_report W c top_n
       | None => ret NO_DATA_REPORT
       end.
Proof.
  split; [reflexivity|].
  assert (H : dashboard_charts (update_dashboard (Some rs) sel top_n)
              = exported_charts (pdf_view rs sel) top_n).
  { unfold update_dashboard, exported_charts.
    change (pdf_view rs sel) with (dashboard_view rs sel).
    destruct rs as [|r rs]; [now rewrite dashboard_view_filter|].
    cbn [empty].
    destruct (dashboard_view (r :: rs) sel) eqn:Hv; reflexivity. }
  split; [exact H|].
  rewrite H. unfold exported_charts, generate_report_html_base64.
  now destruct (pdf_view rs sel).
Qed.

(* ================================================================== *)
(** * The loader *)

Lemma filter_nil_iff {A : Type} (f : A -> bool) (l : list A) :
  filter f l = [] <-> forall x, In x l -> f x = false.
Proof.
  induction l as [|a l IH]; simpl.
  - split; [intros _ x [] | reflexivity].
  - destruct (f a) eqn:Hf.
    + split; [discriminate|]. intros H. specialize (H a (or_introl eq_refl)).
      congruence.
    + rewrite IH. split.
      * intros H x [<-|Hx]; auto.
      * intros H x Hx. apply H. now right.
Qed.

Lemma existsb_eqb_In col columns :
  existsb (String.eqb col) columns = true <-> In col columns.
Proof.
  rewrite existsb_exists. split.
  - intros (x & Hin & Heq). apply String.eqb_eq in Heq. now subst.
  - intros Hin. exists col. split; [assumption | apply String.eqb_refl].
Qed.

(** The missing columns are the required ones the header lacks. *)
Lemma missing_columns_In columns col :
  In col (missing_columns columns)
  <-> In col REQUIRED_COLUMNS /\ ~ In col columns.
Proof.
  unfold missing_columns. rewrite filter_In, negb_true_iff.
  split; intros [H1 H2]; split; auto.
  - intros Hin. apply existsb_eqb_In in Hin. congruence.
  - destruct (existsb (String.eqb col) columns) eqn:E; [|reflexivity].
    apply existsb_eqb_In in E. contradiction.
Qed.

Lemma exact_columns_none_missing columns :
  Permutation columns REQUIRED_COLUMNS -> missing_columns columns = [].
Proof.
  intros Hp. apply filter_nil_iff. intros col Hin.
  apply negb_false_iff, existsb_eqb_In.
  eapply Permutation_in; [apply Permutation_sym; exact Hp | exact Hin].
Qed.

Lemma filter_split_length {A : Type} (f : A -> bool) (l : list A) :
  List.length (filter f l)
  = List.length l - List.length (filter (fun x => negb (f x)) l).
Proof.
  assert (H : List.length (filter f l)
              + List.length (filter (fun x => negb (f x)) l) = List.length l).
  { induction l as [|a l IH]; simpl; [reflexivity|].
    destruct (f a); simpl; lia. }
  lia.
Qed.

(** What the loader keeps of a sheet whose columns are all there. *)
Lemma loaded_rows (W : World) (columns : list string) (rows : list (list Cell)) :
  let df := map derive (dropna_date (convert_dates W columns rows)) in
  List.length df
  = List.length rows - List.length (filter (unparseable W columns) rows)
  /\ Forall (fun r : Row => Data_da_Instauracao r <> None) df
  /\ Forall (fun r : Row =>
       exists t, Data_da_Instauracao r = Some t
                 /\ Ano r = Some (year t) /\ Mes r = Some (month t)
                 /\ AnoMes r = year_month_key t) df.
Proof.
  cbn zeta. unfold dropna_date, convert_dates. split; [|split].
  - rewrite length_map.
    assert (Hm : forall (f : Entry -> bool) (l : list (list Cell)),
               List.length (filter f (map (entry_of W columns) l))
               = List.length (filter (fun c => f (entry_of W columns c)) l)).
    { intros f l. induction l as [|c l IH]; simpl; [reflexivity|].
      destruct (f (entry_of W columns c)); simpl; congruence. }
    rewrite Hm, filter_split_length. reflexivity.
  - apply Forall_forall. intros r Hr.
    apply in_map_iff in Hr. destruct Hr as (e & <- & He).
    apply filter_In in He. destruct He as [_ He]. simpl.
    destruct (Data_da_Instauracao e); [discriminate | discriminate].
  - apply Forall_forall. intros r Hr.
    apply in_map_iff in Hr. destruct Hr as (e & <- & He).
    apply filter_In in He. destruct He as [_ He]. simpl.
    destruct (Data_da_Instauracao e) as [t|]; [|discriminate].
    exists t. auto.
Qed.

(** C3. A spreadsheet with exactly the required columns (synonyms renamed)
    and N rows, M of which have an instauration date that does not parse,
    loads - through an upload and as the initial file alike - to a record
    set of exactly N - M records, without any error, and none of the
    records kept has a null instauration date. *)
Theorem load_keeps_rows_with_parsed_dates
    (W : World) (contents filename file_path : string) (sheet : Sheet) :
  contains "xls" filename = true ->
  read_excel_upload W contents = inr sheet ->
  read_excel_path W file_path = inr sheet ->
  Permutation (rename (header sheet)) REQUIRED_COLUMNS ->
  let N := List.length (body sheet) in
  let M := List.length (filter (unparseable W (rename (header sheet))) (body sheet)) in
  exists df,
    parse_contents W contents filename = ([], inr (Some df))
    /\ load_data W file_path = ([], inr df)
    /\ List.length df = N - M
    /\ Forall (fun r : Row => Data_da_Instauracao r <> None) df.
Proof.
  intros Hxls Hup Hpath Hcols N M.
  exists (map derive (dropna_date (convert_dates W (rename (header sheet)) (body sheet)))).
  pose proof (exact_columns_none_missing _ Hcols) as Hmiss.
  destruct (loaded_rows W (rename (header sheet)) (body sheet)) as (Hlen & Hdate & _).
  repeat split; try assumption.
  - unfold parse_contents, parse_contents_try.
    rewrite Hxls, Hup. cbn [lift bind]. rewrite Hmiss. reflexivity.
  - unfold load_data, load_data_try.
    rewrite Hpath. cbn [lift bind]. rewrite Hmiss. reflexivity.
Qed.

Lemma load_keeps_rows_with_parsed_dates_witness :
  exists df,
    parse_contents Samples.working_world "data:base64" "dados.xlsx" = ([], inr (Some df))
    /\ load_data Samples.working_world INITIAL_DATA_PATH = ([], inr df)
    /\ List.length df = 3 - 1
    /\ Forall (fun r : Row => Data_da_Instauracao r <> None) df.
Proof.
  apply (load_keeps_rows_with_parsed_dates Samples.working_world
           "data:base64" "dados.xlsx" INITIAL_DATA_PATH Samples.good_sheet).
  - reflexivity.
  - reflexivity.
  - reflexivity.
  - apply Permutation_refl.
Defined.

(* ================================================================== *)
(** * Failed uploads *)

Lemma prefix_append s t : prefix s (s ++ t) = true.
Proof.
  induction s as [|a s IH]; simpl; [now destruct t|].
  destruct (ascii_dec a a); [assumption | congruence].
Qed.

Lemma prefix_append_l needle : forall a b,
  prefix needle a = true -> prefix needle (a ++ b) = true.
Proof.
  induction needle as [|c needle IH]; intros [|x a] b; simpl; try reflexivity.
  - now destruct b.
  - discriminate.
  - destruct (ascii_dec c x); [apply IH | discriminate].
Qed.

Lemma contains_prefix needle hay :
  prefix needle hay = true -> contains needle hay = true.
Proof. intros H. destruct hay; cbn [contains]; now rewrite H. Qed.

Lemma contains_append_r needle a b :
  contains needle b = true -> contains needle (a ++ b) = true.
Proof.
  intros H. induction a as [|x a IH]; [assumption|].
  cbn [append contains]. rewrite IH.
  now destruct (prefix needle (String x (a ++ b))).
Qed.

Lemma contains_append_l needle a b :
  contains needle a = true -> contains needle (a ++ b) = true.
Proof.
  induction a as [|x a IH]; cbn [append contains].
  - destruct needle; [|discriminate].
    intros _. apply contains_prefix. now destruct b.
  - destruct (prefix needle (String x a)) eqn:Hp; intros H.
    + change (String x (a ++ b)) with (String x a ++ b).
      now rewrite (prefix_append_l _ _ b Hp).
    + rewrite (IH H).
      now destruct (prefix needle (String x (a ++ b))).
Qed.

(** A joined list names each of its items. *)
Lemma contains_concat sep item items :
  In item items -> contains item (String.concat sep items) = true.
Proof.
  induction items as [|x items IH]; intros Hin; [destruct Hin|].
  destruct Hin as [->|Hin].
  - destruct items as [|y items]; cbn [String.concat].
    + apply contains_prefix. rewrite <- (prefix_append item EmptyString) at 1.
      f_equal. clear. induction item; simpl; congruence.
    + apply contains_prefix, prefix_append.
  - destruct items as [|y items]; [destruct Hin|].
    cbn [String.concat]. cbn [String.concat] in IH.
    apply contains_append_r, contains_append_r. auto.
Qed.

(** What [update_output] and the session do when [parse_contents] fails. *)
Lemma failed_parse_keeps_store (W : World) (contents filename : string)
    (log : Log) (s : Session) :
  parse_contents W contents filename = (log, inr None) ->
  update_output W (Some contents) filename
  = (log, inr (no_update, failure_status filename))
  /\ on_upload W s (Some contents) filename
     = (log, inr (mkSession (stored_data s) (failure_status filename)
                            (filtros s) (top_n_usuarios s) (download_pdf s))).
Proof.
  intros H. unfold on_upload, update_output. rewrite H.
  cbn. rewrite !app_nil_r. split; reflexivity.
Qed.

(** C4. An upload whose header, after the synonym renaming, lacks a
    required column fails: the [try] block raises a ValueError whose
    message lists exactly the missing columns, [parse_contents] prints it
    and returns None (no partial record set), and [update_output] answers
    with the failure status and leaves the stored record set as it was. *)
Theorem upload_missing_column_fails
    (W : World) (contents filename : string) (sheet : Sheet) (s : Session) :
  contains "xls" filename = true ->
  read_excel_upload W contents = inr sheet ->
  missing_columns (rename (header sheet)) <> [] ->
  let missing := missing_columns (rename (header sheet)) in
  let error :=
    ValueError ("Colunas ausentes no arquivo carregado: "
                ++ String.concat ", " missing) in
  let line := "Erro ao processar o arquivo carregado " ++ filename
              ++ ": " ++ str_exc error in
  parse_contents_try W contents filename = raise error
  /\ (forall col, In col missing
                  <-> In col REQUIRED_COLUMNS /\ ~ In col (rename (header sheet)))
  /\ (forall col, In col missing -> contains col (str_exc error) = true)
  /\ parse_contents W contents filename = ([line], inr None)
  /\ update_output W (Some contents) filename
     = ([line], inr (no_update, failure_status filename))
  /\ exists s',
       on_upload W s (Some contents) filename = ([line], inr s')
       /\ stored_data s' = stored_data s.
Proof.
  intros Hxls Hup Hmiss. cbn zeta.
  set (missing := missing_columns (rename (header sheet))) in *.
  set (error := ValueError ("Colunas ausentes no arquivo carregado: "
                            ++ String.concat ", " missing)).
  set (line := "Erro ao processar o arquivo carregado " ++ filename
               ++ ": " ++ str_exc error).
  assert (Htry : parse_contents_try W contents filename = raise error).
  { unfold parse_contents_try. rewrite Hxls, Hup. cbn [lift bind].
    fold missing. fold error.
    destruct missing; [congruence | reflexivity]. }
  assert (Hparse : parse_contents W contents filename = ([line], inr None)).
  { unfold parse_contents. rewrite Htry. reflexivity. }
  destruct (failed_parse_keeps_store W contents filename [line] s Hparse)
    as [Hout Hses].
  split; [exact Htry|].
  split; [intros col; apply missing_columns_In|].
  split.
  { intros col Hin. unfold error. cbn [str_exc].
    apply contains_append_r. now apply contains_concat. }
  split; [exact Hparse|].
  split; [exact Hout|].
  eexists. split; [exact Hses | reflexivity].
Qed.

Lemma upload_missing_column_fails_witness :
  missing_columns (rename (header Samples.no_materia_sheet)) = ["Matéria"]
  /\ parse_contents Samples.no_materia_world "data:base64" "dados.xlsx"
     = (["Erro ao processar o arquivo carregado dados.xlsx: Colunas ausentes no arquivo carregado: Matéria"],
        inr None)
  /\ exists s',
       on_upload Samples.no_materia_world Samples.sample_session
                 (Some "data:base64") "dados.xlsx"
       = (["Erro ao processar o arquivo carregado dados.xlsx: Colunas ausentes no arquivo carregado: Matéria"],
          inr s')
       /\ stored_data s' = Some Samples.three_records.
Proof.
  split; [reflexivity|].
  destruct (upload_missing_column_fails Samples.no_materia_world
              "data:base64" "dados.xlsx" Samples.no_materia_sheet
              Samples.sample_session)
    as (_ & _ & _ & Hparse & _ & Hses).
  - reflexivity.
  - reflexivity.
  - discriminate.
  - split; [exact Hparse | exact Hses].
Defined.




(* ================================================================== *)
(** * The export *)

(** The store never holds an empty frame. *)
Lemma stored_never_empty (W : World) (s : Session) :
  Reachable W s -> stored_data s <> Some [].
Proof.
  induction 1 as [sel s Hs | s s' contents filename _ IH Hs
                  | s sel top_n _ IH | s s' n_clicks _ IH Hs].
  - unfold initial_session, output in Hs.
    destruct (load_data W INITIAL_DATA_PATH) as [log [e|[|r df]]];
      cbn in Hs; inversion Hs; subst; cbn; discriminate.
  - unfold on_upload, update_output, output in Hs.
    destruct contents as [contents|].
    + destruct (parse_contents W contents filename) as [log [e|[[|r df]|]]];
        cbn in Hs; inversion Hs; subst; cbn; try assumption. discriminate.
    + cbn in Hs. inversion Hs; subst. assumption.
  - assumption.
  - unfold on_pdf_click, output in Hs.
    destruct (generate_pdf W n_clicks (stored_data s) (filtros s)
                (top_n_usuarios s)) as [log [e|u]];
      cbn in Hs; inversion Hs; subst. assumption.
Qed.

(** The name of the file the export offers. *)
Lemma generate_pdf_on_view (W : World) (n_clicks : option Z) (rs : DataFrame)
    (sel : Selection) (top_n : Z) :
  not_clicked n_clicks = false -> rs <> [] ->
  generate_pdf W n_clicks (Some rs) sel top_n
  = try_except (generate_pdf_try W (pdf_view rs sel) top_n)
      (fun e => print ("Erro ao gerar PDF: " ++ str_exc e) ;;; ret no_update).
Proof.
  intros Hc Hrs. unfold generate_pdf. rewrite Hc.
  destruct rs; [congruence | reflexivity].
Qed.

(** C9. When the view of an export request is empty after filtering, the
    report is the notice that no data matches the selected filters, without
    any chart image, and the PDF written from it is offered for download. *)
Theorem empty_view_exports_notice
    (W : World) (s : Session) (n_clicks : option Z) (rs : DataFrame)
    (pdf_bytes : string) :
  Reachable W s ->
  not_clicked n_clicks = false ->
  stored_data s = Some rs ->
  pdf_view rs (filtros s) = [] ->
  write_pdf W NO_DATA_REPORT = inr pdf_bytes ->
  generate_report_html_base64 W (pdf_view rs (filtros s)) (top_n_usuarios s)
  = ret NO_DATA_REPORT
  /\ contains "Nenhum dado corresponde aos filtros selecionados." NO_DATA_REPORT
     = true
  /\ contains "<img" NO_DATA_REPORT = false
  /\ on_pdf_click W s n_clicks
     = ret (mkSession (stored_data s) (upload_status s) (filtros s)
              (top_n_usuarios s)
              (Some (send_bytes pdf_bytes
                       ("relatorio_dpu_sis_" ++ strftime_file (now W) ++ ".pdf")))).
Proof.
  intros Hreach Hclick Hstore Hview Hpdf.
  assert (Hrs : rs <> []).
  { intros ->. apply (stored_never_empty W s Hreach). exact Hstore. }
  split; [now rewrite Hview|].
  split; [reflexivity|]. split; [reflexivity|].
  unfold on_pdf_click. rewrite Hstore at 1.
  rewrite (generate_pdf_on_view W n_clicks rs _ _ Hclick Hrs).
  unfold generate_pdf_try. rewrite Hview. cbn [generate_report_html_base64 empty].
  cbn [ret bind]. rewrite Hpdf. reflexivity.
Qed.

Lemma empty_view_exports_notice_witness :
  exists s rs,
    Reachable Samples.working_world s
    /\ stored_data s = Some rs
    /\ pdf_view rs (filtros s) = []
    /\ output (on_pdf_click Samples.working_world s (Some 1%Z))
       = inr (mkSession (stored_data s) (upload_status s) (filtros s)
                (top_n_usuarios s)
                (Some (send_bytes "%PDF" "relatorio_dpu_sis_20250309_140507.pdf"))).
Proof.
  assert (Hreach : Reachable Samples.working_world
                     (mkSession (Some (map derive (dropna_date
                        (convert_dates Samples.working_world
                           (rename (header Samples.good_sheet))
                           (body Samples.good_sheet)))))
                        StatusEmpty Samples.only_carla 10 None)).
  { eapply (reach_start _ Samples.only_carla). reflexivity. }
  eexists. eexists.
  split; [exact Hreach|].
  split; [reflexivity|].
  split; [reflexivity|].
  destruct (empty_view_exports_notice Samples.working_world _ (Some 1%Z) _ "%PDF"
              Hreach eq_refl eq_refl eq_refl eq_refl) as (_ & _ & _ & H).
  rewrite H. reflexivity.
Defined.

(** No chart can be rasterised, the PDF is written all the same: the
    export succeeds and offers the file. *)
Lemma raster_failure_still_exports :
  (forall fig, to_image Samples.no_raster_world fig
               = inl (OtherError "kaleido not found"))
  /\ generate_pdf Samples.no_raster_world (Some 1%Z)
       (Some Samples.three_records) Samples.february 20
     = ([ "Erro ao gerar imagem base64 materia: kaleido not found";
          "Erro ao gerar imagem base64 oficio: kaleido not found";
          "Erro ao gerar imagem base64 usuarios: kaleido not found";
          "Erro ao gerar imagem base64 evolucao: kaleido not found" ],
        inr (set (send_bytes "%PDF" "relatorio_dpu_sis_20250309_140507.pdf"))).
Proof. split; [intros fig|]; reflexivity. Qed.

Lemma rasterise_caught (W : World) (name : string) (fig : Figure) :
  rasterise W name fig
  = match to_image W fig with
    | inr img_bytes => ([], inr (Some (b64encode W img_bytes)))
    | inl e => (["Erro ao gerar imagem base64 " ++ name ++ ": " ++ str_exc e],
                inr None)
    end.
Proof. unfold rasterise. now destruct (to_image W fig). Qed.

Lemma generate_pdf_caught (W : World) (n_clicks : option Z)
    (jsonified_data : option DataFrame) (sel : Selection) (top_n : Z) :
  exists log out,
    generate_pdf W n_clicks jsonified_data sel top_n = (log, inr out)
    /\ forall rs, not_clicked n_clicks = false -> jsonified_data = Some rs ->
       rs <> [] ->
       match generate_pdf_try W (pdf_view rs sel) top_n with
       | (log0, inl e) =>
           log = app log0 ["Erro ao gerar PDF: " ++ str_exc e]
           /\ out = no_update
       | (log0, inr out0) => log = log0 /\ out = out0
       end.
Proof.
  unfold generate_pdf.
  destruct (not_clicked n_clicks) eqn:Hc.
  { exists [], no_update. split; [reflexivity | discriminate]. }
  destruct jsonified_data as [[|r rs]|].
  - exists [], no_update. split; [reflexivity|].
    intros rs _ [= <-] H. congruence.
  - cbn [empty].
    destruct (generate_pdf_try W (pdf_view (r :: rs) sel) top_n)
      as [log0 [e|out0]] eqn:Htry.
    + exists (app log0 ["Erro ao gerar PDF: " ++ str_exc e]), no_update.
      split; [reflexivity|].
      intros rs' _ [= <-] _. rewrite Htry. auto.
    + exists log0, out0. split; [reflexivity|].
      intros rs' _ [= <-] _. rewrite Htry. auto.
  - exists [], no_update. split; [reflexivity | discriminate].
Qed.

(** C10 (amended). No export attempt raises out of [generate_pdf] or
    changes the stored record set, the filter selections, the top-N choice
    or the upload status. A failure of the document assembly (the [try]
    block raises: the logo cannot be read or the PDF cannot be written) is
    caught at the boundary: it is printed as an export error and nothing is
    offered for download. A chart that cannot be rasterised is caught
    inside the report: the error is printed, the chart is replaced by an
    error paragraph, and the export goes on. *)
Theorem export_failure_leaves_session_intact
    (W : World) (s : Session) (n_clicks : option Z) :
  (exists log s',
     on_pdf_click W s n_clicks = (log, inr s')
     /\ stored_data s' = stored_data s
     /\ filtros s' = filtros s
     /\ top_n_usuarios s' = top_n_usuarios s
     /\ upload_status s' = upload_status s
     /\ render s' = render s
     /\ forall rs log0 e,
          not_clicked n_clicks = false ->
          stored_data s = Some rs -> rs <> [] ->
          generate_pdf_try W (pdf_view rs (filtros s)) (top_n_usuarios s)
          = (log0, inl e) ->
          log = app log0 ["Erro ao gerar PDF: " ++ str_exc e]
          /\ s' = s)
  /\ (forall name fig e,
        to_image W fig = inl e ->
        rasterise W name fig
        = (["Erro ao gerar imagem base64 " ++ name ++ ": " ++ str_exc e],
           inr None)
        /\ chart_img None = "<p>Erro.</p>").
Proof.
  split.
  - destruct (generate_pdf_caught W n_clicks (stored_data s) (filtros s)
                (top_n_usuarios s)) as (log & out & Hgen & Hfail).
    unfold on_pdf_click. rewrite Hgen. cbn [bind ret].
    eexists. eexists. split; [reflexivity|].
    repeat (split; [reflexivity|]).
    intros rs log0 e Hc Hs Hrs Htry.
    specialize (Hfail rs Hc Hs Hrs). rewrite Htry in Hfail.
    destruct Hfail as [-> ->]. split; [now rewrite app_nil_r|].
    now destruct s.
  - intros name fig e H. rewrite rasterise_caught, H. split; reflexivity.
Qed.

(* ================================================================== *)
(** * The aggregates *)

Lemma total_of_perm {K : Type} (l l' : list (K * nat)) :
  Permutation l l' -> total_of l = total_of l'.
Proof.
  intros H. unfold total_of.
  apply Permutation_list_sum. now apply Permutation_map.
Qed.

Lemma dropna_all {A : Type} (column : list (option A)) :
  Forall (fun c => c <> None) column ->
  List.length (dropna column) = List.length column.
Proof.
  induction 1 as [|[a|] column Hc _ IH]; simpl; congruence.
Qed.

Lemma value_counts_perm column :
  Permutation (tally Value_eq_dec (dropna column)) (value_counts column).
Proof. apply sort_by_perm. Qed.

Lemma value_counts_total column :
  total_of (value_counts column) = List.length (dropna column).
Proof.
  rewrite <- (total_of_perm _ _ (value_counts_perm column)).
  apply tally_total.
Qed.

Lemma value_counts_sorted column :
  StronglySorted (fun a b => by_count_desc a b = true) (value_counts column).
Proof.
  apply sort_by_sorted;
    [apply by_count_desc_total | apply by_count_desc_trans].
Qed.

Lemma value_counts_NoDup column : NoDup (map fst (value_counts column)).
Proof.
  eapply Permutation_NoDup;
    [apply Permutation_map, value_counts_perm | apply tally_NoDup].
Qed.

(** An entry of [value_counts] is a value of the column with the number
    of cells that hold it. *)
Lemma value_counts_In column v c :
  In (v, c) (value_counts column)
  <-> c = count_occ Value_eq_dec (dropna column) v /\ In v (dropna column).
Proof.
  rewrite <- tally_In. split; apply Permutation_in;
    [apply Permutation_sym|]; apply value_counts_perm.
Qed.

Lemma value_counts_length column :
  List.length (value_counts column)
  = List.length (nodup Value_eq_dec (dropna column)).
Proof.
  rewrite <- (length_map fst). apply Permutation_length.
  apply NoDup_Permutation;
    [apply value_counts_NoDup | apply NoDup_nodup |].
  intros v. rewrite nodup_In, in_map_iff. split.
  - intros ([v' c] & <- & Hin). now apply value_counts_In in Hin.
  - intros Hin. exists (v, count_occ Value_eq_dec (dropna column) v).
    split; [reflexivity | now apply value_counts_In].
Qed.

(** The largest [n] of counts already in descending order are the first
    [n]. *)
Lemma nlargest_value_counts n column :
  nlargest n (value_counts column) = firstn (Z.to_nat n) (value_counts column).
Proof.
  unfold nlargest. f_equal.
  apply (sort_by_fixed by_count_desc), value_counts_sorted.
Qed.

Lemma groupby_size_perm column :
  Permutation (tally string_dec column) (sort_values (groupby_size column)).
Proof.
  unfold sort_values, groupby_size.
  etransitivity; apply sort_by_perm.
Qed.

Lemma monthly_series_total column :
  total_of (sort_values (groupby_size column)) = List.length column.
Proof.
  rewrite <- (total_of_perm _ _ (groupby_size_perm column)).
  apply tally_total.
Qed.

Lemma StronglySorted_map {A B : Type} (f : A -> B) (R : B -> B -> Prop)
    (l : list A) :
  StronglySorted (fun a b => R (f a) (f b)) l -> StronglySorted R (map f l).
Proof.
  induction 1 as [|a l _ IH Ha]; simpl; constructor; [assumption|].
  rewrite Forall_forall in *. intros b Hb.
  apply in_map_iff in Hb. destruct Hb as (x & <- & Hx). auto.
Qed.

Lemma StronglySorted_strict (l : list string) :
  NoDup l -> StronglySorted (fun a b => String.leb a b = true) l ->
  StronglySorted (fun a b => String.compare a b = Lt) l.
Proof.
  intros Hnd Hs. induction Hs as [|a l _ IH Ha]; constructor.
  - apply IH. now inversion Hnd.
  - inversion Hnd as [|? ? Hnotin _]; subst.
    rewrite Forall_forall in *. intros b Hb.
    destruct (proj1 (string_leb_cases a b) (Ha b Hb)) as [->|H];
      [contradiction | exact H].
Qed.

(** The months of the series are strictly ascending as text. *)
Lemma monthly_series_ascending column :
  StronglySorted (fun a b => String.compare a b = Lt)
                 (map fst (sort_values (groupby_size column))).
Proof.
  apply StronglySorted_strict.
  - eapply Permutation_NoDup;
      [apply Permutation_map, groupby_size_perm | apply tally_NoDup].
  - apply StronglySorted_map.
    apply (sort_by_sorted by_key_asc);
      [apply by_key_asc_total | apply by_key_asc_trans].
Qed.

Lemma StronglySorted_firstn {A : Type} (R : A -> A -> Prop) (n : nat)
    (l : list A) :
  StronglySorted R l -> StronglySorted R (firstn n l).
Proof.
  intros H. revert n. induction H as [|a l _ IH Ha]; intros [|n]; simpl;
    try constructor; [apply IH|].
  rewrite Forall_forall in *. intros b Hb. apply Ha.
  rewrite <- (firstn_skipn n l). apply in_or_app. now left.
Qed.

Lemma StronglySorted_across {A : Type} (R : A -> A -> Prop) (n : nat)
    (l : list A) (a b : A) :
  StronglySorted R l -> In a (firstn n l) -> In b (skipn n l) -> R a b.
Proof.
  intros H. revert n. induction H as [|x l _ IH Hx]; intros [|n]; simpl;
    try tauto.
  intros [<-|Ha] Hb.
  - rewrite Forall_forall in Hx. apply Hx.
    rewrite <- (firstn_skipn n l). apply in_or_app. now right.
  - now apply (IH n).
Qed.

Lemma update_dashboard_rendered rs sel top_n :
  dashboard_view rs sel <> [] ->
  update_dashboard (Some rs) sel top_n
  = let dff := dashboard_view rs sel in
    let materia_counts := value_counts (map (fun r : Row => Materia r) dff) in
    let oficio_counts := value_counts (map (fun r : Row => Oficio r) dff) in
    let user_counts :=
      nlargest top_n (value_counts (map (fun r : Row => Usuario r) dff)) in
    let evolucao := sort_values (groupby_size (map AnoMes dff)) in
    mkOutputs
      (CardTotal "Total PAJs Instaurados" (List.length dff))
      (Pie "Distribuição por Matéria"
           (map fst materia_counts) (map snd materia_counts))
      (Pie "Distribuição por Ofício"
           (map fst oficio_counts) (map snd oficio_counts))
      (Bar ("TOP " ++ str_int top_n ++ " Usuários por Nº de PAJs")
           (map fst user_counts) (map snd user_counts))
      (Line "Evolução Mensal de PAJs" (map fst evolucao) (map snd evolucao))
      (DataTable ["Usuário"; "Quantidade PAJs"]
         (nlargest 10 (value_counts (map (fun r : Row => Usuario r) dff)))).
Proof.
  intros Hv. unfold update_dashboard.
  destruct rs as [|r rs].
  - exfalso. apply Hv. now rewrite dashboard_view_filter.
  - cbn [empty]. destruct (dashboard_view (r :: rs) sel); [congruence|].
    reflexivity.
Qed.

(** One record, with a blank Matéria cell: the card counts it, the Matéria
    breakdown does not. *)
Lemma blank_category_is_not_counted :
  dashboard_view Samples.blank_materia no_selection = Samples.blank_materia
  /\ out_total_pajs (update_dashboard (Some Samples.blank_materia) no_selection 10)
     = CardTotal "Total PAJs Instaurados" 1
  /\ out_grafico_materia (update_dashboard (Some Samples.blank_materia) no_selection 10)
     = Pie "Distribuição por Matéria" [] []
  /\ figure_total
       (out_grafico_materia
          (update_dashboard (Some Samples.blank_materia) no_selection 10))
     <> 1.
Proof. repeat split; try reflexivity. discriminate. Qed.

(** C6 (amended). For every non-empty view, the counts of the monthly
    series sum to the total the card shows, the number of records of the
    view; the Matéria counts and the Ofício counts sum to the number of
    records whose Matéria, respectively Ofício, cell is not blank, which is
    that total when no such cell is blank. *)
Theorem breakdowns_sum_to_counted_records
    (rs : DataFrame) (sel : Selection) (top_n : Z) :
  dashboard_view rs sel <> [] ->
  let view := dashboard_view rs sel in
  let out := update_dashboard (Some rs) sel top_n in
  out_total_pajs out = CardTotal "Total PAJs Instaurados" (List.length view)
  /\ figure_total (out_grafico_evolucao out) = List.length view
  /\ figure_total (out_grafico_materia out)
     = List.length (dropna (map (fun r : Row => Materia r) view))
  /\ figure_total (out_grafico_oficio out)
     = List.length (dropna (map (fun r : Row => Oficio r) view))
  /\ (Forall (fun r : Row => Materia r <> None) view ->
      figure_total (out_grafico_materia out) = List.length view)
  /\ (Forall (fun r : Row => Oficio r <> None) view ->
      figure_total (out_grafico_oficio out) = List.length view).
Proof.
  intros Hv view out. unfold out.
  rewrite (update_dashboard_rendered rs sel top_n Hv). cbn zeta. fold view.
  cbn [out_total_pajs out_grafico_evolucao out_grafico_materia
       out_grafico_oficio figure_total].
  pose proof (monthly_series_total (map AnoMes view)) as Hm.
  pose proof (value_counts_total (map (fun r : Row => Materia r) view)) as Hma.
  pose proof (value_counts_total (map (fun r : Row => Oficio r) view)) as Hof.
  unfold total_of in Hm, Hma, Hof. rewrite length_map in Hm.
  repeat split; try assumption.
  - intros Hall. rewrite Hma, dropna_all, length_map; [reflexivity|].
    apply Forall_map. exact Hall.
  - intros Hall. rewrite Hof, dropna_all, length_map; [reflexivity|].
    apply Forall_map. exact Hall.
Qed.

Lemma breakdowns_sum_to_counted_records_witness :
  dashboard_view Samples.three_records Samples.february <> []
  /\ figure_total (out_grafico_evolucao
       (update_dashboard (Some Samples.three_records) Samples.february 10)) = 2
  /\ figure_total (out_grafico_materia
       (update_dashboard (Some Samples.three_records) Samples.february 10)) = 2.
Proof.
  assert (Hv : dashboard_view Samples.three_records Samples.february <> [])
    by discriminate.
  split; [exact Hv|].
  destruct (breakdowns_sum_to_counted_records Samples.three_records
              Samples.february 10 Hv) as (_ & Hm & Hma & _).
  split; [exact Hm | exact Hma].
Defined.

Lemma firstn_NoDup {A : Type} (n : nat) (l : list A) :
  NoDup l -> NoDup (firstn n l).
Proof.
  intros H. revert n. induction H as [|a l Ha _ IH]; intros [|n]; simpl;
    try constructor; [|apply IH].
  intros Hin. apply Ha. rewrite <- (firstn_skipn n l).
  apply in_or_app. now left.
Qed.

Lemma StronglySorted_weaken {A : Type} (R R' : A -> A -> Prop) (l : list A) :
  (forall a b, R a b -> R' a b) -> StronglySorted R l -> StronglySorted R' l.
Proof.
  intros HR. induction 1 as [|a l _ IH Ha]; constructor; [assumption|].
  eapply Forall_impl; [apply HR | exact Ha].
Qed.

(** C7. The table of a rendered dashboard is the same for every top-N of
    the chart, and the report tabulates the same rows. The rows are the
    first ten entries of the user counts of the view, computed from the
    view and not from the chart: ten rows, or one per user when the view
    has fewer than ten users; each row a distinct user with the number of
    records of the view; counts in descending order; and a user of the view
    left out of the table has no more records than any user listed. *)
Theorem top10_table_is_fixed_top10
    (rs : DataFrame) (sel : Selection) (top_n top_n' : Z) :
  dashboard_view rs sel <> [] ->
  let view := dashboard_view rs sel in
  let users := dropna (map (fun r : Row => Usuario r) view) in
  exists rows,
    out_tabela_top_usuarios (update_dashboard (Some rs) sel top_n)
    = DataTable ["Usuário"; "Quantidade PAJs"] rows
    /\ out_tabela_top_usuarios (update_dashboard (Some rs) sel top_n')
       = DataTable ["Usuário"; "Quantidade PAJs"] rows
    /\ top10_users_stats (report_charts view top_n) = rows
    /\ rows = firstn 10 (value_counts (map (fun r : Row => Usuario r) view))
    /\ List.length rows
       = Nat.min 10 (List.length (nodup Value_eq_dec users))
    /\ NoDup (map fst rows)
    /\ (forall u c, In (u, c) rows ->
          c = count_occ Value_eq_dec users u /\ 0 < c)
    /\ StronglySorted (fun a b => snd b <= snd a) rows
    /\ (forall u, In u users -> ~ In u (map fst rows) ->
          List.length rows = 10
          /\ forall row, In row rows ->
               count_occ Value_eq_dec users u <= snd row).
Proof.
  intros Hv view users.
  set (column := map (fun r : Row => Usuario r) view).
  exists (nlargest 10 (value_counts column)).
  rewrite !(update_dashboard_rendered rs _ _ Hv). cbn zeta. fold view column.
  cbn [out_tabela_top_usuarios report_charts top10_users_stats].
  split; [reflexivity|]. split; [reflexivity|]. split; [reflexivity|].
  rewrite (nlargest_value_counts 10 column).
  change (Z.to_nat 10) with 10%nat.
  split; [reflexivity|].
  split; [now rewrite length_firstn, value_counts_length|].
  split.
  { rewrite <- firstn_map. apply firstn_NoDup, value_counts_NoDup. }
  split.
  { intros u c Hin.
    assert (Hvc : In (u, c) (value_counts column)).
    { rewrite <- (firstn_skipn 10 (value_counts column)).
      apply in_or_app. now left. }
    apply value_counts_In in Hvc. destruct Hvc as [-> Hu].
    split; [reflexivity|]. now apply (count_occ_In Value_eq_dec). }
  split.
  { apply StronglySorted_firstn.
    eapply StronglySorted_weaken; [|apply value_counts_sorted].
    intros a b H. unfold by_count_desc in H. now apply Nat.leb_le. }
  intros u Hu Hout.
  assert (Hvc : In (u, count_occ Value_eq_dec users u) (value_counts column))
    by now apply value_counts_In.
  rewrite <- (firstn_skipn 10 (value_counts column)) in Hvc.
  apply in_app_or in Hvc. destruct Hvc as [Hin|Hin].
  { exfalso. apply Hout. change u with (fst (u, count_occ Value_eq_dec users u)).
    now apply in_map. }
  split.
  - rewrite length_firstn. apply Nat.min_l.
    destruct (Nat.le_gt_cases 10 (List.length (value_counts column)));
      [assumption|].
    rewrite skipn_all2 in Hin by lia. destruct Hin.
  - intros row Hrow.
    pose proof (StronglySorted_across _ 10 _ row _
                  (value_counts_sorted column) Hrow Hin) as H.
    unfold by_count_desc in H. now apply Nat.leb_le in H.
Qed.

Lemma top10_table_is_fixed_top10_witness :
  dashboard_view Samples.three_records no_selection <> []
  /\ exists rows,
       out_tabela_top_usuarios
         (update_dashboard (Some Samples.three_records) no_selection 10)
       = DataTable ["Usuário"; "Quantidade PAJs"] rows
       /\ out_tabela_top_usuarios
            (update_dashboard (Some Samples.three_records) no_selection 50)
          = DataTable ["Usuário"; "Quantidade PAJs"] rows
       /\ List.length rows = 2.
Proof.
  assert (Hv : dashboard_view Samples.three_records no_selection <> [])
    by discriminate.
  split; [exact Hv|].
  destruct (top10_table_is_fixed_top10 Samples.three_records no_selection
              10 50 Hv) as (rows & H10 & H50 & _ & _ & Hlen & _).
  exists rows. split; [exact H10|]. split; [exact H50|].
  rewrite Hlen. reflexivity.
Defined.



(* ================================================================== *)
(** * The scenarios of the specification *)

(** Three records dated 2024-01, 2024-02, 2024-02 and the range
    2024-02-01 to 2024-02-28: two records, one month with count 2. *)
Example february_scenario :
  List.length (dashboard_view Samples.three_records Samples.february) = 2
  /\ out_grafico_evolucao
       (update_dashboard (Some Samples.three_records) Samples.february 10)
     = Line "Evolução Mensal de PAJs" ["2024-02"] [2].
Proof. split; reflexivity. Qed.

(** A selected user that no record has: the view is empty and every output
    is a placeholder. *)
Example absent_user_scenario :
  dashboard_view Samples.three_records Samples.only_carla = []
  /\ update_dashboard (Some Samples.three_records) Samples.only_carla 10
     = empty_outputs "Total PAJs: 0" "Nenhum dado corresponde aos filtros"
                     "Nenhum dado corresponde aos filtros.".
Proof. split; reflexivity. Qed.

(** An upload of the sample sheet replaces the store by its two dated
    rows and reports success. *)
Example upload_scenario :
  exists s',
    on_upload Samples.working_world Samples.sample_session
              (Some "data:base64") "dados.xlsx" = ([], inr s')
    /\ option_map (map AnoMes) (stored_data s') = Some ["2024-01"; "2024-02"]
    /\ upload_status s'
       = StatusDiv ("Arquivo " ++ quoted "dados.xlsx" ++ " carregado com sucesso.")
                   "text-success".
Proof. eexists. repeat split; reflexivity. Qed.

(* ================================================================== *)
(** * More on the loader and the upload *)

Import Controls Behaviour.

(** [parse_contents], case by case. *)
Lemma parse_contents_cases (W : World) (contents filename : string) :
  parse_contents W contents filename
  = if contains "xls" filename then
      match read_excel_upload W contents with
      | inl e => ([upload_error_line filename e], inr None)
      | inr sheet =>
          if empty (missing_columns (rename (header sheet))) then
            ([], inr (Some (parsed_rows W sheet)))
          else
            ([upload_error_line filename
                (ValueError ("Colunas ausentes no arquivo carregado: "
                   ++ String.concat ", "
                        (missing_columns (rename (header sheet)))))],
             inr None)
      end
    else
      ([upload_error_line filename
          (ValueError "Formato de arquivo não suportado. Use .xlsx ou .xls")],
       inr None).
Proof.
  unfold parse_contents, parse_contents_try.
  destruct (contains "xls" filename); [|reflexivity].
  destruct (read_excel_upload W contents) as [e|sheet]; [reflexivity|].
  cbn [lift bind].
  destruct (missing_columns (rename (header sheet))); reflexivity.
Qed.

(** [load_data], case by case. *)
Lemma load_data_cases (W : World) (file_path : string) :
  load_data W file_path
  = match read_excel_path W file_path with
    | inl (FileNotFoundError _) =>
        (["Erro: Arquivo inicial não encontrado em " ++ file_path],
         inr empty_frame)
    | inl (ValueError ve) =>
        (["Erro de valor ao carregar dados: " ++ ve], inr empty_frame)
    | inl (OtherError msg) =>
        (["Erro inesperado ao carregar dados de " ++ file_path ++ ": " ++ msg],
         inr empty_frame)
    | inr sheet =>
        if empty (missing_columns (rename (header sheet))) then
          ([], inr (parsed_rows W sheet))
        else
          (["Erro de valor ao carregar dados: Colunas ausentes no arquivo: "
            ++ String.concat ", " (missing_columns (rename (header sheet)))],
           inr empty_frame)
    end.
Proof.
  unfold load_data, load_data_try.
  destruct (read_excel_path W file_path) as [[msg|msg|msg]|sheet];
    try reflexivity.
  cbn [lift bind].
  destruct (missing_columns (rename (header sheet))); reflexivity.
Qed.

Lemma parsed_rows_well_dated (W : World) (sheet : Sheet) :
  Forall well_dated (parsed_rows W sheet).
Proof.
  destruct (loaded_rows W (rename (header sheet)) (body sheet)) as (_ & _ & H).
  exact H.
Qed.

Lemma parse_contents_well_dated (W : World) (contents filename : string)
    (df : DataFrame) :
  output (parse_contents W contents filename) = inr (Some df) ->
  Forall well_dated df.
Proof.
  rewrite parse_contents_cases.
  destruct (contains "xls" filename); [|discriminate].
  destruct (read_excel_upload W contents) as [e|sheet]; [discriminate|].
  destruct (empty (missing_columns (rename (header sheet)))); [|discriminate].
  intros [= <-]. apply parsed_rows_well_dated.
Qed.

Lemma load_data_well_dated (W : World) (file_path : string) (df : DataFrame) :
  output (load_data W file_path) = inr df -> Forall well_dated df.
Proof.
  rewrite load_data_cases.
  destruct (read_excel_path W file_path) as [[msg|msg|msg]|sheet];
    try (intros [= <-]; constructor).
  destruct (empty (missing_columns (rename (header sheet))));
    intros [= <-]; [apply parsed_rows_well_dated | constructor].
Qed.

(** X1. Every row that [parse_contents] or [load_data] returns has a date,
    and its Ano, Mês and AnoMês are the year, the month and the YYYY-MM key
    of that date. *)
Theorem loaded_rows_carry_their_derived_fields
    (W : World) (contents filename file_path : string) (df df' : DataFrame) :
  output (parse_contents W contents filename) = inr (Some df) ->
  output (load_data W file_path) = inr df' ->
  Forall well_dated df /\ Forall well_dated df'.
Proof.
  intros Hup Hpath. split.
  - eapply parse_contents_well_dated; eassumption.
  - eapply load_data_well_dated; eassumption.
Qed.

Lemma loaded_rows_carry_their_derived_fields_witness :
  exists df,
    output (parse_contents Samples.working_world "data:base64" "dados.xlsx")
    = inr (Some df)
    /\ map AnoMes df = ["2024-01"; "2024-02"]
    /\ Forall well_dated df.
Proof.
  eexists. split; [reflexivity|]. split; [reflexivity|].
  apply (loaded_rows_carry_their_derived_fields Samples.working_world
           "data:base64" "dados.xlsx" INITIAL_DATA_PATH _ _ eq_refl eq_refl).
Defined.


(** X3. When the initial file reads as a sheet that lacks a required
    column, [load_data] prints the value error that lists the missing
    columns and returns the empty frame, and the session starts with
    nothing stored. *)
Theorem load_data_missing_column
    (W : World) (sheet : Sheet) (sel : Selection) :
  read_excel_path W INITIAL_DATA_PATH = inr sheet ->
  missing_columns (rename (header sheet)) <> [] ->
  load_data W INITIAL_DATA_PATH
  = (["Erro de valor ao carregar dados: Colunas ausentes no arquivo: "
      ++ String.concat ", " (missing_columns (rename (header sheet)))],
     inr empty_frame)
  /\ exists s, output (initial_session W sel) = inr s
               /\ stored_data s = None.
Proof.
  intros Hread Hmiss. unfold initial_session.
  rewrite load_data_cases, Hread.
  destruct (missing_columns (rename (header sheet))) eqn:Hm; [congruence|].
  split; [reflexivity|]. eexists. split; reflexivity.
Qed.

Lemma load_data_missing_column_witness :
  load_data Cases.library_world INITIAL_DATA_PATH
  = (["Erro de valor ao carregar dados: Colunas ausentes no arquivo: Matéria"],
     inr empty_frame).
Proof.
  apply (load_data_missing_column Cases.library_world
           Samples.no_materia_sheet no_selection eq_refl).
  discriminate.
Defined.

Lemma rename_column_idempotent col :
  rename_column COLUMN_MAPPING (rename_column COLUMN_MAPPING col)
  = rename_column COLUMN_MAPPING col.
Proof.
  unfold COLUMN_MAPPING. cbn [rename_column].
  destruct (String.eqb col "Oficio") eqn:H1; [reflexivity|].
  destruct (String.eqb col "Data da instauração") eqn:H2; [reflexivity|].
  destruct (String.eqb col "Materia") eqn:H3; [reflexivity|].
  now rewrite H1, H2, H3.
Qed.

Lemma rename_idempotent columns : rename (rename columns) = rename columns.
Proof.
  unfold rename. rewrite map_map. apply map_ext. intros col.
  apply rename_column_idempotent.
Qed.

(** X4. The synonym renaming is idempotent, and a sheet loads the same
    whether its header spells the columns by their synonyms or by their
    canonical names: same printed lines, same result. *)
Theorem synonyms_load_like_canonical_names
    (W : World) (contents contents' filename : string)
    (columns : list string) (rows : list (list Cell)) :
  read_excel_upload W contents = inr (mkSheet columns rows) ->
  read_excel_upload W contents' = inr (mkSheet (rename columns) rows) ->
  rename (rename columns) = rename columns
  /\ parse_contents W contents filename = parse_contents W contents' filename.
Proof.
  intros H H'. split; [apply rename_idempotent|].
  rewrite !parse_contents_cases, H, H'. unfold parsed_rows.
  cbn [header body]. now rewrite rename_idempotent.
Qed.

Lemma synonyms_load_like_canonical_names_witness :
  header Samples.good_sheet <> header Cases.canonical_sheet
  /\ parse_contents Cases.library_world "synonyms" "dados.xlsx"
     = parse_contents Cases.library_world "canonical" "dados.xlsx".
Proof.
  split; [discriminate|].
  apply (synonyms_load_like_canonical_names Cases.library_world
           "synonyms" "canonical" "dados.xlsx"
           Samples.synonym_header (body Samples.good_sheet));
    reflexivity.
Defined.







Lemma parse_contents_from_sheet (W : World) (contents filename : string)
    (df : DataFrame) :
  output (parse_contents W contents filename) = inr (Some df) ->
  exists sheet, read_excel_upload W contents = inr sheet
                /\ df = parsed_rows W sheet.
Proof.
  rewrite parse_contents_cases.
  destruct (contains "xls" filename); [|discriminate].
  destruct (read_excel_upload W contents) as [e|sheet]; [discriminate|].
  destruct (empty (missing_columns (rename (header sheet)))); [|discriminate].
  intros [= <-]. now exists sheet.
Qed.

Lemma load_data_from_sheet (W : World) (file_path : string) (df : DataFrame) :
  output (load_data W file_path) = inr df -> df <> [] ->
  exists sheet, read_excel_path W file_path = inr sheet
                /\ df = parsed_rows W sheet.
Proof.
  rewrite load_data_cases.
  destruct (read_excel_path W file_path) as [[msg|msg|msg]|sheet];
    try (intros [= <-] H; now contradiction H).
  destruct (empty (missing_columns (rename (header sheet))));
    intros [= <-] H; [now exists sheet | now contradiction H].
Qed.

(** The store of a reachable session holds the rows some sheet parsed to. *)
Lemma reachable_store (W : World) (s : Session) :
  Reachable W s ->
  forall rs, stored_data s = Some rs ->
  rs <> [] /\ exists sheet, rs = parsed_rows W sheet.
Proof.
  induction 1 as [sel s Hs | s s' contents filename _ IH Hs
                  | s sel top_n _ IH | s s' n_clicks _ IH Hs].
  - unfold initial_session, output in Hs.
    destruct (load_data W INITIAL_DATA_PATH) as [log [e|df]] eqn:Hload;
      cbn in Hs; [discriminate|].
    inversion Hs; subst; clear Hs. cbn.
    destruct df as [|r df]; [discriminate|].
    intros rs [= <-]. split; [discriminate|].
    assert (Hout : output (load_data W INITIAL_DATA_PATH) = inr (r :: df))
      by (unfold output; now rewrite Hload).
    destruct (load_data_from_sheet W INITIAL_DATA_PATH (r :: df) Hout)
      as (sheet & _ & Hsheet); [discriminate|].
    now exists sheet.
  - unfold on_upload, update_output, output in Hs.
    destruct contents as [contents|].
    + destruct (parse_contents W contents filename) as [log [e|[[|r df]|]]]
        eqn:Hparse; cbn in Hs; inversion Hs; subst; cbn; try assumption.
      intros rs [= <-]. split; [discriminate|].
      assert (Hout : output (parse_contents W contents filename)
                     = inr (Some (r :: df)))
        by (unfold output; now rewrite Hparse).
      destruct (parse_contents_from_sheet W contents filename (r :: df) Hout)
        as (sheet & _ & Hsheet).
      now exists sheet.
    + cbn in Hs. inversion Hs; subst. assumption.
  - assumption.
  - unfold on_pdf_click, output in Hs.
    destruct (generate_pdf W n_clicks (stored_data s) (filtros s)
                (top_n_usuarios s)) as [log [e|u]];
      cbn in Hs; inversion Hs; subst. assumption.
Qed.

(** X7. In every session the application can reach, the store is unset or
    holds a frame that is not empty and whose every row has a date together
    with the year, month and year-month key of that date. *)
Theorem stored_frame_invariant (W : World) (s : Session) (rs : DataFrame) :
  Reachable W s ->
  stored_data s = Some rs ->
  rs <> [] /\ Forall well_dated rs.
Proof.
  intros Hreach Hs.
  destruct (reachable_store W s Hreach rs Hs) as (Hne & sheet & ->).
  split; [exact Hne | apply parsed_rows_well_dated].
Qed.

Lemma stored_frame_invariant_witness :
  exists s rs,
    Reachable Samples.working_world s
    /\ stored_data s = Some rs
    /\ List.length rs = 2
    /\ Forall well_dated rs.
Proof.
  assert (Hreach : Reachable Samples.working_world
                     (mkSession (Some (parsed_rows Samples.working_world
                                         Samples.good_sheet))
                        StatusEmpty no_selection 10 None)).
  { eapply (reach_start _ no_selection). reflexivity. }
  eexists. eexists. split; [exact Hreach|]. split; [reflexivity|].
  split; [reflexivity|].
  apply (stored_frame_invariant Samples.working_world _ _ Hreach eq_refl).
Defined.

(* ================================================================== *)
(** * More on the filter pass *)

Lemma lex_not_gt_trans (x y z : Z) (c1 c2 c3 : comparison) :
  lex (x ?= y)%Z c1 <> Gt -> lex (y ?= z)%Z c2 <> Gt ->
  (c1 <> Gt -> c2 <> Gt -> c3 <> Gt) ->
  lex (x ?= z)%Z c3 <> Gt.
Proof.
  destruct (Z.compare_spec x y), (Z.compare_spec y z), (Z.compare_spec x z);
    simpl; intros Ha Hb Hc; try (exfalso; lia); try discriminate; auto.
Qed.

Lemma Z_compare_not_gt_trans (x y z : Z) :
  (x ?= y)%Z <> Gt -> (y ?= z)%Z <> Gt -> (x ?= z)%Z <> Gt.
Proof.
  destruct (Z.compare_spec x y), (Z.compare_spec y z), (Z.compare_spec x z);
    intros Ha Hb; try (exfalso; lia); try discriminate; auto.
Qed.

Lemma ts_le_trans (a b c : Timestamp) : ts_le a b -> ts_le b c -> ts_le a c.
Proof.
  unfold ts_le, ts_compare. intros H1 H2.
  repeat (eapply lex_not_gt_trans; [exact H1 | exact H2 |];
          clear H1 H2; intros H1 H2).
  eapply Z_compare_not_gt_trans; eassumption.
Qed.

Lemma view_In rs sel r :
  In r (dashboard_view rs sel) <-> In r rs /\ meets sel r = true.
Proof. rewrite dashboard_view_filter. apply filter_In. Qed.

Lemma meets_parts sel r :
  meets sel r = true ->
  allowed_b (materias_selecionadas sel) (Materia r) = true
  /\ allowed_b (oficios_selecionados sel) (Oficio r) = true
  /\ allowed_b (usuarios_selecionados sel) (Usuario r) = true
  /\ in_range_b (start_date sel) (end_date sel) (Data_da_Instauracao r) = true.
Proof. unfold meets. rewrite !andb_true_iff. tauto. Qed.

Lemma stale_refuses selected column c :
  stale selected column -> In c column -> allowed_b selected c = false.
Proof.
  intros (v & vs & -> & Hno) Hin. cbn [allowed_b].
  destruct (isin c (v :: vs)) eqn:His; [|reflexivity].
  apply isin_spec in His. destruct His as (x & -> & Hx).
  exfalso. exact (Hno x Hx Hin).
Qed.

(** X8. A multi-select that is set and names no value present in its
    column of the record set leaves no record: the view is empty, and the
    dashboard of a loaded record set shows the placeholders that no data
    matches the filters. *)
Theorem stale_selection_empties_the_view
    (rs : DataFrame) (sel : Selection) (top_n : Z) :
  rs <> [] ->
  stale (materias_selecionadas sel) (map (fun r : Row => Materia r) rs)
  \/ stale (oficios_selecionados sel) (map (fun r : Row => Oficio r) rs)
  \/ stale (usuarios_selecionados sel) (map (fun r : Row => Usuario r) rs) ->
  dashboard_view rs sel = []
  /\ update_dashboard (Some rs) sel top_n = no_match_outputs.
Proof.
  intros Hrs Hstale.
  assert (Hv : dashboard_view rs sel = []).
  { rewrite dashboard_view_filter. apply filter_nil_iff. intros r Hr.
    destruct (meets sel r) eqn:Hm; [|reflexivity].
    apply meets_parts in Hm. destruct Hm as (Hma & Hof & Hus & _).
    destruct Hstale as [H|[H|H]].
    - rewrite (stale_refuses _ _ (Materia r) H) in Hma; [discriminate|].
      now apply (in_map (fun r : Row => Materia r)).
    - rewrite (stale_refuses _ _ (Oficio r) H) in Hof; [discriminate|].
      now apply (in_map (fun r : Row => Oficio r)).
    - rewrite (stale_refuses _ _ (Usuario r) H) in Hus; [discriminate|].
      now apply (in_map (fun r : Row => Usuario r)). }
  split; [exact Hv|].
  unfold update_dashboard. destruct rs; [congruence|].
  cbn [empty]. now rewrite Hv.
Qed.

Lemma stale_selection_empties_the_view_witness :
  dashboard_view Samples.three_records Samples.only_carla = []
  /\ update_dashboard (Some Samples.three_records) Samples.only_carla 10
     = no_match_outputs.
Proof.
  apply (stale_selection_empties_the_view Samples.three_records
           Samples.only_carla 10).
  - discriminate.
  - right. right. exists (Text "carla"), []. split; [reflexivity|].
    intros x [<-|[]] [H|[H|[H|[]]]]; discriminate.
Defined.

(** X9. A multi-select that is set never lets a record with a blank cell
    in its column through. When it names every value of the column and the
    other controls are unset, the view is the record set without the
    records whose cell is blank, not the whole record set. *)
Theorem selecting_every_value_hides_blank_cells
    (rs : DataFrame) (selected : option (list Value)) :
  selects_all selected (map (fun r : Row => Materia r) rs) ->
  dashboard_view rs (mkSelection selected None None None None)
  = filter (fun r : Row => is_some (Materia r)) rs
  /\ forall sel r,
       materias_selecionadas sel = selected ->
       In r (dashboard_view rs sel) -> Materia r <> None.
Proof.
  intros (v & vs & -> & Hall). split.
  - rewrite dashboard_view_filter. apply filter_ext_in. intros r Hr.
    unfold meets. cbn [materias_selecionadas oficios_selecionados
      usuarios_selecionados start_date end_date allowed_b in_range_b].
    rewrite !andb_true_r.
    destruct (Materia r) as [x|] eqn:Hm; [|reflexivity].
    apply isin_spec. exists x. split; [reflexivity|].
    apply Hall. rewrite <- Hm. now apply (in_map (fun r : Row => Materia r)).
  - intros sel r Hsel Hin. apply view_In in Hin. destruct Hin as [_ Hm].
    apply meets_parts in Hm. destruct Hm as (Hma & _).
    rewrite Hsel in Hma. cbn [allowed_b] in Hma.
    apply isin_spec in Hma. destruct Hma as (x & -> & _). discriminate.
Qed.

Lemma selecting_every_value_hides_blank_cells_witness :
  dashboard_view Samples.blank_materia Cases.only_civel = []
  /\ dashboard_view Samples.blank_materia no_selection = Samples.blank_materia.
Proof.
  split; [|reflexivity].
  destruct (selecting_every_value_hides_blank_cells Samples.blank_materia
              (Some [Text "Cível"])) as [H _].
  - exists (Text "Cível"), []. split; [reflexivity|].
    intros x [H|[]]. discriminate.
  - exact H.
Defined.

(** X10. A date range whose start is later than its end matches nothing:
    the view is empty whatever the record set and the other controls. *)
Theorem inverted_date_range_matches_nothing
    (rs : DataFrame) (sel : Selection) (s e : Timestamp) :
  start_date sel = Some s ->
  end_date sel = Some e ->
  ts_compare s e = Gt ->
  dashboard_view rs sel = [].
Proof.
  intros Hs He Hgt. rewrite dashboard_view_filter.
  apply filter_nil_iff. intros r _.
  destruct (meets sel r) eqn:Hm; [|reflexivity].
  apply meets_parts in Hm. destruct Hm as (_ & _ & _ & Hd).
  rewrite Hs, He in Hd. apply in_range_b_spec in Hd.
  destruct Hd as (t & _ & H1 & H2).
  exfalso. exact (ts_le_trans _ _ _ H1 H2 Hgt).
Qed.

Lemma inverted_date_range_matches_nothing_witness :
  dashboard_view Samples.three_records Cases.inverted_range = [].
Proof.
  apply (inverted_date_range_matches_nothing Samples.three_records
           Cases.inverted_range (Samples.on_day 2024 3 1)
           (Samples.on_day 2024 2 1)); reflexivity.
Defined.

Lemma le_midnight (t e : Timestamp) :
  same_day t e -> at_midnight e -> clock_not_negative t ->
  (ts_leb t e = true <-> at_midnight t).
Proof.
  intros (Hy & Hm & Hd) (Hh & Hmi & Hs & Hn) (H1 & H2 & H3 & H4).
  unfold ts_leb, ts_compare, at_midnight.
  rewrite Hy, Hm, Hd, Hh, Hmi, Hs, Hn, !Z.compare_refl. cbn [lex].
  destruct (Z.compare_spec (hour t) 0), (Z.compare_spec (minute t) 0),
    (Z.compare_spec (second t) 0), (Z.compare_spec (nanosecond t) 0);
    cbn [lex];
    (split; intros Hgoal;
     [ try discriminate Hgoal; try (exfalso; lia); repeat split; assumption
     | destruct Hgoal as (? & ? & ? & ?); try reflexivity; exfalso; lia ]).
Qed.

(** X11. The end of the date range is compared as a timestamp. When the
    end is the midnight of a day, a record of that day passes only if its
    own timestamp is that midnight: a record with a time of day on the end
    date is left out of the view. *)
Theorem end_date_excludes_later_that_day
    (rs : DataFrame) (sel : Selection) (r : Row) (t e : Timestamp) :
  end_date sel = Some e ->
  Data_da_Instauracao r = Some t ->
  same_day t e -> at_midnight e -> clock_not_negative t ->
  (In r (dashboard_view rs sel) -> at_midnight t)
  /\ (le_ts (Data_da_Instauracao r) e = true <-> at_midnight t).
Proof.
  intros He Ht Hday Hmid Hclock.
  assert (Hle : le_ts (Data_da_Instauracao r) e = true <-> at_midnight t).
  { rewrite Ht. cbn [le_ts]. now apply le_midnight. }
  split; [|exact Hle].
  intros Hin. apply view_In in Hin. destruct Hin as [_ Hm].
  apply meets_parts in Hm. destruct Hm as (_ & _ & _ & Hd).
  rewrite He in Hd. apply Hle.
  destruct (start_date sel); cbn [in_range_b] in Hd;
    [now apply andb_true_iff in Hd | exact Hd].
Qed.

Lemma end_date_excludes_later_that_day_witness :
  dashboard_view [Cases.afternoon_record] Cases.until_february_28 = []
  /\ ~ In Cases.afternoon_record
         (dashboard_view [Cases.afternoon_record] Cases.until_february_28).
Proof.
  split; [reflexivity|]. intros Hin.
  destruct (end_date_excludes_later_that_day [Cases.afternoon_record]
              Cases.until_february_28 Cases.afternoon_record
              (mkTimestamp 2024 2 28 15 30 0 0) (Samples.on_day 2024 2 28))
    as [H _].
  - reflexivity.
  - reflexivity.
  - repeat split.
  - repeat split.
  - unfold clock_not_negative. simpl. lia.
  - destruct (H Hin) as (Hh & _). discriminate.
Defined.

Lemma meets_split sel r :
  meets sel r = meets (categories_only sel) r && meets (dates_only sel) r.
Proof.
  unfold meets, categories_only, dates_only.
  cbn [materias_selecionadas oficios_selecionados usuarios_selecionados
       start_date end_date allowed_b in_range_b].
  now rewrite !andb_true_r.
Qed.

(** X12. The constraints compose: filtering a view again by the selection
    that made it changes nothing, and the view is the same whether the
    multi-selects are applied before the date range or after it. *)
Theorem filters_compose (rs : DataFrame) (sel : Selection) :
  dashboard_view (dashboard_view rs sel) sel = dashboard_view rs sel
  /\ dashboard_view rs sel
     = dashboard_view (dashboard_view rs (categories_only sel)) (dates_only sel)
  /\ dashboard_view rs sel
     = dashboard_view (dashboard_view rs (dates_only sel)) (categories_only sel).
Proof.
  rewrite !dashboard_view_filter, !filter_twice. repeat split.
  - apply filter_ext. intros r. now destruct (meets sel r).
  - apply filter_ext. intros r. apply meets_split.
  - apply filter_ext. intros r. rewrite meets_split. apply andb_comm.
Qed.

(* ================================================================== *)
(** * More on the dashboard *)

Lemma combine_fst_snd {A B : Type} (l : list (A * B)) :
  combine (map fst l) (map snd l) = l.
Proof. induction l as [|[a b] l IH]; simpl; congruence. Qed.

Lemma empty_false {A : Type} (l : list A) : l <> [] -> empty l = false.
Proof. destruct l; [congruence | reflexivity]. Qed.

Lemma view_of_nil sel : dashboard_view [] sel = [].
Proof. now rewrite dashboard_view_filter. Qed.

(** X13. The dashboard is in one of three states that its outputs tell
    apart: the placeholders for no data when nothing is stored, the
    placeholders for no match when a record set is stored and the view is
    empty, and the rendered card, charts and table otherwise. *)
Theorem dashboard_states (data : option DataFrame) (sel : Selection) (top_n : Z) :
  (update_dashboard data sel top_n = no_data_outputs
   <-> data = None \/ data = Some [])
  /\ (update_dashboard data sel top_n = no_match_outputs
      <-> exists rs, data = Some rs /\ rs <> [] /\ dashboard_view rs sel = [])
  /\ (dashboard_charts (update_dashboard data sel top_n) <> None
      <-> exists rs, data = Some rs /\ dashboard_view rs sel <> [])
  /\ no_data_outputs <> no_match_outputs.
Proof.
  split; [|split; [|split]]; [| | |discriminate].
  - destruct data as [[|r rs]|]; cbn [update_dashboard empty].
    + split; auto.
    + destruct (dashboard_view (r :: rs) sel) eqn:Hv; cbn [empty];
        (split; [discriminate | intros [H|H]; discriminate]).
    + split; auto.
  - destruct data as [[|r rs]|]; cbn [update_dashboard empty].
    + split; [discriminate | intros (rs & [= <-] & H & _); congruence].
    + destruct (dashboard_view (r :: rs) sel) eqn:Hv; cbn [empty].
      * split; [|reflexivity]. intros _. exists (r :: rs).
        split; [reflexivity|]. split; [discriminate | exact Hv].
      * split; [discriminate|].
        intros (rs' & [= <-] & _ & H). congruence.
    + split; [discriminate | intros (rs & H & _); discriminate].
  - destruct data as [[|r rs]|]; cbn [update_dashboard empty].
    + split; [intros H; now contradiction H|].
      intros (rs & [= <-] & H). now rewrite view_of_nil in H.
    + destruct (dashboard_view (r :: rs) sel) eqn:Hv; cbn [empty].
      * split; [intros H; now contradiction H|].
        intros (rs' & [= <-] & H). congruence.
      * split; [|discriminate]. intros _. exists (r :: rs).
        split; [reflexivity|]. rewrite Hv. discriminate.
    + split; [intros H; now contradiction H|].
      intros (rs & H & _). discriminate.
Qed.

(** X14. In a rendered dashboard the user chart has as many bars as there
    are users in the view, up to the chosen top-N and none when the top-N
    is not positive; and when the top-N is at least ten, the first ten bars
    of the chart are the rows of the table. *)
Theorem table_is_the_head_of_the_chart
    (rs : DataFrame) (sel : Selection) (top_n : Z) :
  dashboard_view rs sel <> [] ->
  let out := update_dashboard (Some rs) sel top_n in
  let users := dropna (map (fun r : Row => Usuario r) (dashboard_view rs sel)) in
  List.length (bars (out_grafico_usuarios out))
  = Nat.min (Z.to_nat top_n) (List.length (nodup Value_eq_dec users))
  /\ ((10 <= top_n)%Z ->
      out_tabela_top_usuarios out
      = DataTable ["Usuário"; "Quantidade PAJs"]
                  (firstn 10 (bars (out_grafico_usuarios out)))).
Proof.
  intros Hv out users. unfold out.
  rewrite (update_dashboard_rendered rs sel top_n Hv). cbn zeta.
  cbn [out_grafico_usuarios out_tabela_top_usuarios bars].
  rewrite combine_fst_snd, !nlargest_value_counts. split.
  - now rewrite length_firstn, value_counts_length.
  - intros Hn. rewrite firstn_firstn.
    change (Z.to_nat 10) with 10%nat.
    replace (Nat.min 10 (Z.to_nat top_n)) with 10%nat by lia.
    reflexivity.
Qed.

Lemma table_is_the_head_of_the_chart_witness :
  List.length (bars (out_grafico_usuarios
     (update_dashboard (Some Cases.twelve_users) no_selection 20))) = 12
  /\ out_tabela_top_usuarios
       (update_dashboard (Some Cases.twelve_users) no_selection 20)
     = DataTable ["Usuário"; "Quantidade PAJs"]
         (firstn 10 (bars (out_grafico_usuarios
            (update_dashboard (Some Cases.twelve_users) no_selection 20)))).
Proof.
  assert (Hv : dashboard_view Cases.twelve_users no_selection <> [])
    by discriminate.
  destruct (table_is_the_head_of_the_chart Cases.twelve_users no_selection 20 Hv)
    as [Hlen Htab].
  split; [rewrite Hlen; reflexivity | apply Htab; lia].
Defined.

Lemma count_occ_isin (f : Row -> Cell) (view : DataFrame) (v : Value) :
  count_occ Value_eq_dec (dropna (map f view)) v
  = List.length (filter (fun r : Row => isin (f r) [v]) view).
Proof.
  induction view as [|r view IH]; simpl; [reflexivity|].
  destruct (f r) as [x|]; simpl; [|exact IH].
  unfold value_eqb. destruct (Value_eq_dec x v) as [->|Hne]; simpl.
  - destruct (Value_eq_dec v v); [now rewrite IH | congruence].
  - exact IH.
Qed.

Lemma only_materia view v :
  dashboard_view view (mkSelection (Some [v]) None None None None)
  = filter (fun r : Row => isin (Materia r) [v]) view.
Proof. reflexivity. Qed.

Lemma only_oficio view v :
  dashboard_view view (mkSelection None (Some [v]) None None None)
  = filter (fun r : Row => isin (Oficio r) [v]) view.
Proof. reflexivity. Qed.

Lemma slices_of_column (f : Row -> Cell) (view : DataFrame) (v : Value) (c : nat) :
  In (v, c) (value_counts (map f view))
  <-> c = List.length (filter (fun r : Row => isin (f r) [v]) view) /\ 0 < c.
Proof.
  rewrite value_counts_In, <- count_occ_isin.
  rewrite (count_occ_In Value_eq_dec). split.
  - intros [-> H]. split; [reflexivity | exact H].
  - intros [-> H]. split; [reflexivity | exact H].
Qed.

(** X15. In a rendered dashboard each slice of the Matéria pie, and of
    the Ofício pie, is a value with the number of records the view would
    keep if that value alone were selected; no slice is empty, no value has
    two slices, and the slices come in descending order of count. *)
Theorem pie_slices_count_the_view
    (rs : DataFrame) (sel : Selection) (top_n : Z) :
  dashboard_view rs sel <> [] ->
  let view := dashboard_view rs sel in
  let out := update_dashboard (Some rs) sel top_n in
  (forall v c,
     In (v, c) (bars (out_grafico_materia out))
     <-> c = List.length
               (dashboard_view view (mkSelection (Some [v]) None None None None))
         /\ 0 < c)
  /\ (forall v c,
        In (v, c) (bars (out_grafico_oficio out))
        <-> c = List.length
                  (dashboard_view view (mkSelection None (Some [v]) None None None))
            /\ 0 < c)
  /\ NoDup (map fst (bars (out_grafico_materia out)))
  /\ NoDup (map fst (bars (out_grafico_oficio out)))
  /\ StronglySorted (fun a b => snd b <= snd a) (bars (out_grafico_materia out))
  /\ StronglySorted (fun a b => snd b <= snd a) (bars (out_grafico_oficio out)).
Proof.
  intros Hv view out. unfold out.
  rewrite (update_dashboard_rendered rs sel top_n Hv). cbn zeta. fold view.
  cbn [out_grafico_materia out_grafico_oficio bars].
  rewrite !combine_fst_snd.
  assert (Hsorted : forall column,
            StronglySorted (fun a b : Value * nat => snd b <= snd a)
                           (value_counts column)).
  { intros column. eapply StronglySorted_weaken; [|apply value_counts_sorted].
    intros a b H. unfold by_count_desc in H. now apply Nat.leb_le. }
  split; [intros v c; rewrite only_materia; apply slices_of_column|].
  split; [intros v c; rewrite only_oficio; apply slices_of_column|].
  split; [apply value_counts_NoDup|]. split; [apply value_counts_NoDup|].
  split; apply Hsorted.
Qed.

Lemma pie_slices_count_the_view_witness :
  In (Text "Cível", 2)
     (bars (out_grafico_materia
        (update_dashboard (Some Samples.three_records) no_selection 10))).
Proof.
  assert (Hv : dashboard_view Samples.three_records no_selection <> [])
    by discriminate.
  destruct (pie_slices_count_the_view Samples.three_records no_selection 10 Hv)
    as (H & _).
  apply H. split; [reflexivity | cbn; lia].
Defined.

Lemma monthly_series_In column k c :
  In (k, c) (sort_values (groupby_size column))
  <-> c = count_occ string_dec column k /\ In k column.
Proof.
  rewrite <- tally_In. split; apply Permutation_in;
    [apply Permutation_sym|]; apply groupby_size_perm.
Qed.

Lemma count_occ_month (view : DataFrame) (k : string) :
  count_occ string_dec (map AnoMes view) k
  = List.length (filter (fun r : Row => String.eqb (AnoMes r) k) view).
Proof.
  induction view as [|r view IH]; simpl; [reflexivity|].
  destruct (string_dec (AnoMes r) k) as [->|Hne].
  - rewrite String.eqb_refl. simpl. now rewrite IH.
  - apply String.eqb_neq in Hne. now rewrite Hne.
Qed.

(** X16. In a rendered dashboard the monthly series has one point for each
    year-month key that occurs in the view, with the number of records of
    the view that carry this key. *)
Theorem monthly_points_count_the_view
    (rs : DataFrame) (sel : Selection) (top_n : Z) :
  dashboard_view rs sel <> [] ->
  let view := dashboard_view rs sel in
  let out := update_dashboard (Some rs) sel top_n in
  (forall k c,
     In (k, c) (points (out_grafico_evolucao out))
     <-> c = List.length (filter (fun r : Row => String.eqb (AnoMes r) k) view)
         /\ 0 < c)
  /\ NoDup (map fst (points (out_grafico_evolucao out)))
  /\ (forall r, In r view ->
        In (AnoMes r) (map fst (points (out_grafico_evolucao out)))).
Proof.
  intros Hv view out. unfold out.
  rewrite (update_dashboard_rendered rs sel top_n Hv). cbn zeta. fold view.
  cbn [out_grafico_evolucao points]. rewrite combine_fst_snd.
  assert (Hin : forall k c,
            In (k, c) (sort_values (groupby_size (map AnoMes view)))
            <-> c = List.length
                      (filter (fun r : Row => String.eqb (AnoMes r) k) view)
                /\ 0 < c).
  { intros k c. rewrite monthly_series_In, <- count_occ_month.
    rewrite (count_occ_In string_dec). split; intros [-> H]; auto. }
  split; [exact Hin|]. split.
  - eapply Permutation_NoDup;
      [apply Permutation_map, groupby_size_perm | apply tally_NoDup].
  - intros r Hr. apply in_map_iff.
    exists (AnoMes r, count_occ string_dec (map AnoMes view) (AnoMes r)).
    split; [reflexivity|]. apply monthly_series_In.
    split; [reflexivity | now apply in_map].
Qed.

Lemma monthly_points_count_the_view_witness :
  points (out_grafico_evolucao
            (update_dashboard (Some Samples.three_records) no_selection 10))
  = [("2024-01", 1); ("2024-02", 2)]
  /\ In ("2024-02", 2)
        (points (out_grafico_evolucao
           (update_dashboard (Some Samples.three_records) no_selection 10))).
Proof.
  assert (Hv : dashboard_view Samples.three_records no_selection <> [])
    by discriminate.
  destruct (monthly_points_count_the_view Samples.three_records no_selection
              10 Hv) as (H & _).
  split; [reflexivity|]. apply H. split; [reflexivity | cbn; lia].
Defined.

(* ================================================================== *)
(** * The months of the store follow the calendar *)

Lemma in_bounds_b_spec t : in_bounds_b t = true -> in_bounds t.
Proof.
  unfold in_bounds_b, in_bounds. rewrite !andb_true_iff, !Z.leb_le. tauto.
Qed.

Lemma parsed_rows_dates (W : World) (sheet : Sheet) (r : Row) :
  In r (parsed_rows W sheet) ->
  exists c t, to_datetime W c = Some t
              /\ Data_da_Instauracao r = Some t
              /\ AnoMes r = year_month_key t.
Proof.
  unfold parsed_rows, dropna_date, convert_dates. intros Hr.
  apply in_map_iff in Hr. destruct Hr as (e & <- & He).
  apply filter_In in He. destruct He as [He Hsome].
  apply in_map_iff in He. destruct He as (cells & <- & _).
  cbn in Hsome |- *.
  destruct (to_datetime W (cell_of (rename (header sheet)) cells DATE_COLUMN))
    as [t|] eqn:Ht; [|discriminate].
  exists (cell_of (rename (header sheet)) cells DATE_COLUMN), t. auto.
Qed.

(** X17. When the date parser yields timestamps within the bounds of
    pandas, the year-month keys of any two records of a reachable store
    compare as text the way the (year, month) of their dates compare: the
    order of the monthly series is the order of the calendar. *)
Theorem stored_months_follow_the_calendar
    (W : World) (s : Session) (rs : DataFrame) (r1 r2 : Row) :
  Reachable W s ->
  (forall c t, to_datetime W c = Some t -> in_bounds t) ->
  stored_data s = Some rs ->
  In r1 rs -> In r2 rs ->
  exists t1 t2,
    Data_da_Instauracao r1 = Some t1 /\ Data_da_Instauracao r2 = Some t2
    /\ String.compare (AnoMes r1) (AnoMes r2) = compare_year_month t1 t2.
Proof.
  intros Hreach Hbounds Hs H1 H2.
  destruct (reachable_store W s Hreach rs Hs) as (_ & sheet & ->).
  destruct (parsed_rows_dates W sheet r1 H1) as (c1 & t1 & Hc1 & Hd1 & Hk1).
  destruct (parsed_rows_dates W sheet r2 H2) as (c2 & t2 & Hc2 & Hd2 & Hk2).
  exists t1, t2. split; [exact Hd1|]. split; [exact Hd2|].
  destruct (Hbounds c1 t1 Hc1) as [Hy1 Hm1].
  destruct (Hbounds c2 t2 Hc2) as [Hy2 Hm2].
  rewrite Hk1, Hk2. apply year_month_key_compare; lia.
Qed.

Lemma stored_months_follow_the_calendar_witness :
  exists (s : Session) (r1 r2 : Row) (t1 t2 : Timestamp),
    Reachable Cases.bounded_world s
    /\ Data_da_Instauracao r1 = Some t1 /\ Data_da_Instauracao r2 = Some t2
    /\ AnoMes r1 = "2024-01" /\ AnoMes r2 = "2024-02"
    /\ String.compare (AnoMes r1) (AnoMes r2) = compare_year_month t1 t2.
Proof.
  assert (Hreach : Reachable Cases.bounded_world
                     (mkSession (Some (parsed_rows Cases.bounded_world
                                         Samples.good_sheet))
                        StatusEmpty no_selection 10 None)).
  { eapply (reach_start _ no_selection). reflexivity. }
  assert (Hb : forall c t, to_datetime Cases.bounded_world c = Some t ->
                           in_bounds t).
  { intros [[s|n|t']|] t; cbn; try discriminate.
    destruct (in_bounds_b t') eqn:Hin; [|discriminate].
    intros [= <-]. now apply in_bounds_b_spec. }
  set (r1 := derive (entry_of Cases.bounded_world (rename Samples.synonym_header)
                       (Samples.sheet_row
                          (Some (Date (Samples.on_day 2024 1 15))) "ana"))).
  set (r2 := derive (entry_of Cases.bounded_world (rename Samples.synonym_header)
                       (Samples.sheet_row
                          (Some (Date (Samples.on_day 2024 2 20))) "ana"))).
  destruct (stored_months_follow_the_calendar Cases.bounded_world _ _ r1 r2
              Hreach Hb eq_refl)
    as (t1 & t2 & Hd1 & Hd2 & Hcmp).
  - vm_compute. left. reflexivity.
  - vm_compute. right. left. reflexivity.
  - exists (mkSession (Some (parsed_rows Cases.bounded_world Samples.good_sheet))
                      StatusEmpty no_selection 10 None), r1, r2, t1, t2.
    split; [exact Hreach|]. split; [exact Hd1|]. split; [exact Hd2|].
    split; [reflexivity|]. split; [reflexivity | exact Hcmp].
Defined.

(* ================================================================== *)
(** * The order of the rows *)

Lemma filter_perm {A : Type} (f : A -> bool) (l l' : list A) :
  Permutation l l' -> Permutation (filter f l) (filter f l').
Proof.
  induction 1 as [|x l l' _ IH|x y l|l l' l'' _ IH1 _ IH2]; simpl.
  - constructor.
  - destruct (f x); [now constructor | assumption].
  - destruct (f x), (f y); try reflexivity. apply perm_swap.
  - etransitivity; eassumption.
Qed.

Lemma dropna_perm {A : Type} (l l' : list (option A)) :
  Permutation l l' -> Permutation (dropna l) (dropna l').
Proof.
  induction 1 as [|x l l' _ IH|x y l|l l' l'' _ IH1 _ IH2]; simpl.
  - constructor.
  - destruct x; [now constructor | assumption].
  - destruct x, y; try reflexivity. apply perm_swap.
  - etransitivity; eassumption.
Qed.

Lemma NoDup_keys {A B : Type} (l : list (A * B)) :
  NoDup (map fst l) -> NoDup l.
Proof. apply NoDup_map_inv. Qed.

Lemma value_counts_of_perm (column column' : list Cell) :
  Permutation column column' ->
  Permutation (value_counts column) (value_counts column').
Proof.
  intros Hp. apply NoDup_Permutation;
    try (apply NoDup_keys, value_counts_NoDup).
  intros [v c]. rewrite !value_counts_In.
  pose proof (dropna_perm _ _ Hp) as Hd.
  rewrite (proj1 (Permutation_count_occ Value_eq_dec _ _) Hd v).
  split; intros [-> Hin]; (split; [reflexivity|]).
  - eapply Permutation_in; eassumption.
  - eapply Permutation_in; [apply Permutation_sym|]; eassumption.
Qed.

Lemma monthly_series_of_perm (column column' : list string) :
  Permutation column column' ->
  Permutation (sort_values (groupby_size column))
              (sort_values (groupby_size column')).
Proof.
  intros Hp. apply NoDup_Permutation.
  - apply NoDup_keys. eapply Permutation_NoDup;
      [apply Permutation_map, groupby_size_perm | apply tally_NoDup].
  - apply NoDup_keys. eapply Permutation_NoDup;
      [apply Permutation_map, groupby_size_perm | apply tally_NoDup].
  - intros [k c]. rewrite !monthly_series_In.
    rewrite (proj1 (Permutation_count_occ string_dec _ _) Hp k).
    split; intros [-> Hin]; (split; [reflexivity|]).
    + eapply Permutation_in; eassumption.
    + eapply Permutation_in; [apply Permutation_sym|]; eassumption.
Qed.

(** Two lists sorted by an antisymmetric relation that hold the same
    elements are the same list. *)
Lemma sorted_perm_eq {A : Type} (R : A -> A -> Prop)
    (R_antisym : forall a b, R a b -> R b a -> a = b) (l : list A) :
  forall l', Permutation l l' ->
  StronglySorted R l -> StronglySorted R l' -> l = l'.
Proof.
  induction l as [|a l IH]; intros l' Hp Hs Hs'.
  - symmetry. now apply Permutation_nil.
  - destruct l' as [|b l'].
    + apply Permutation_sym, Permutation_nil in Hp. discriminate.
    + inversion Hs as [|? ? Hl Ha]; subst.
      inversion Hs' as [|? ? Hl' Hb]; subst.
      rewrite Forall_forall in Ha, Hb.
      assert (Hab : a = b).
      { assert (Hin : In a (b :: l'))
          by (eapply Permutation_in; [exact Hp | now left]).
        assert (Hin' : In b (a :: l))
          by (eapply Permutation_in; [apply Permutation_sym; exact Hp | now left]).
        destruct Hin as [Heq|Hin]; [now symmetry|].
        destruct Hin' as [Heq|Hin']; [assumption|].
        apply R_antisym; [now apply Ha | now apply Hb]. }
      subst b. f_equal. apply IH; try assumption.
      now apply Permutation_cons_inv in Hp.
Qed.

Lemma StronglySorted_unmap {A B : Type} (f : A -> B) (R : B -> B -> Prop)
    (l : list A) :
  StronglySorted R (map f l) -> StronglySorted (fun a b => R (f a) (f b)) l.
Proof.
  induction l as [|a l IH]; simpl; intros H; [constructor|].
  inversion H as [|? ? Hl Ha]; subst. constructor; [auto|].
  rewrite Forall_forall in *. intros b Hb. apply Ha. now apply in_map.
Qed.

Lemma monthly_series_equal (column column' : list string) :
  Permutation column column' ->
  sort_values (groupby_size column) = sort_values (groupby_size column').
Proof.
  intros Hp.
  apply (sorted_perm_eq
           (fun a b : string * nat => String.compare (fst a) (fst b) = Lt)).
  - intros a b Hab Hba. exfalso.
    pose proof (string_compare_lt_trans _ _ _ Hab Hba) as H.
    now rewrite string_compare_refl in H.
  - now apply monthly_series_of_perm.
  - apply (StronglySorted_unmap fst (fun a b => String.compare a b = Lt)),
      monthly_series_ascending.
  - apply (StronglySorted_unmap fst (fun a b => String.compare a b = Lt)),
      monthly_series_ascending.
Qed.

Lemma counts_equal (column column' : list Cell) :
  Permutation column column' ->
  map snd (value_counts column) = map snd (value_counts column').
Proof.
  intros Hp.
  apply (sorted_perm_eq (fun a b : nat => b <= a)).
  - intros a b H1 H2. lia.
  - apply Permutation_map. now apply value_counts_of_perm.
  - apply StronglySorted_map.
    eapply StronglySorted_weaken; [|apply value_counts_sorted].
    intros a b H. unfold by_count_desc in H. now apply Nat.leb_le.
  - apply StronglySorted_map.
    eapply StronglySorted_weaken; [|apply value_counts_sorted].
    intros a b H. unfold by_count_desc in H. now apply Nat.leb_le.
Qed.

Lemma view_perm rs rs' sel :
  Permutation rs rs' ->
  Permutation (dashboard_view rs sel) (dashboard_view rs' sel).
Proof. rewrite !dashboard_view_filter. apply filter_perm. Qed.

Lemma perm_nonempty {A : Type} (l l' : list A) :
  Permutation l l' -> l <> [] -> l' <> [].
Proof.
  intros Hp Hne ->. apply Hne. apply Permutation_nil.
  now apply Permutation_sym.
Qed.

(** X18. The order of the records changes no count. For two record sets
    that hold the same records in different orders, the view holds the same
    records; the total and the monthly series are the same; the Matéria and
    the Ofício pies have the same slices; and the user chart and the table
    show the same counts, bar by bar and row by row (which of several users
    with equal counts is named may differ). *)
Theorem row_order_changes_no_count
    (rs rs' : DataFrame) (sel : Selection) (top_n : Z) :
  Permutation rs rs' ->
  let out := update_dashboard (Some rs) sel top_n in
  let out' := update_dashboard (Some rs') sel top_n in
  Permutation (dashboard_view rs sel) (dashboard_view rs' sel)
  /\ out_total_pajs out = out_total_pajs out'
  /\ out_grafico_evolucao out = out_grafico_evolucao out'
  /\ Permutation (bars (out_grafico_materia out)) (bars (out_grafico_materia out'))
  /\ Permutation (bars (out_grafico_oficio out)) (bars (out_grafico_oficio out'))
  /\ map snd (bars (out_grafico_usuarios out))
     = map snd (bars (out_grafico_usuarios out'))
  /\ match out_tabela_top_usuarios out, out_tabela_top_usuarios out' with
     | DataTable _ rows, DataTable _ rows' => map snd rows = map snd rows'
     | TableText text, TableText text' => text = text'
     | _, _ => False
     end.
Proof.
  intros Hp out out'.
  pose proof (view_perm rs rs' sel Hp) as Hv.
  split; [exact Hv|].
  destruct (dashboard_view rs sel) as [|r view] eqn:Hview.
  - apply Permutation_nil in Hv.
    assert (Hout : out = out').
    { unfold out, out', update_dashboard.
      destruct rs as [|r0 rs0].
      - apply Permutation_nil in Hp. now subst.
      - destruct rs' as [|r1 rs1];
          [apply Permutation_sym, Permutation_nil in Hp; discriminate|].
        cbn [empty]. now rewrite Hview, Hv. }
    rewrite <- Hout. repeat split; try reflexivity.
    now destruct (out_tabela_top_usuarios out).
  - assert (Hne : dashboard_view rs sel <> []) by (rewrite Hview; discriminate).
    assert (Hne' : dashboard_view rs' sel <> []).
    { eapply perm_nonempty; [|exact Hne]. now rewrite Hview. }
    rewrite <- Hview in Hv. clear Hview.
    unfold out, out'.
    rewrite (update_dashboard_rendered rs sel top_n Hne).
    rewrite (update_dashboard_rendered rs' sel top_n Hne'). cbn zeta.
    cbn [out_total_pajs out_grafico_evolucao out_grafico_materia
         out_grafico_oficio out_grafico_usuarios out_tabela_top_usuarios bars].
    rewrite !combine_fst_snd, !nlargest_value_counts.
    pose proof (Permutation_map (fun r : Row => Materia r) Hv) as Hma.
    pose proof (Permutation_map (fun r : Row => Oficio r) Hv) as Hof.
    pose proof (Permutation_map (fun r : Row => Usuario r) Hv) as Hus.
    pose proof (Permutation_map AnoMes Hv) as Hmo.
    split; [now rewrite (Permutation_length Hv)|].
    split; [now rewrite (monthly_series_equal _ _ Hmo)|].
    split; [now apply value_counts_of_perm|].
    split; [now apply value_counts_of_perm|].
    rewrite <- !firstn_map, (counts_equal _ _ Hus). split; reflexivity.
Qed.

Lemma row_order_changes_no_count_witness :
  Permutation Samples.three_records Cases.three_records_shuffled
  /\ Samples.three_records <> Cases.three_records_shuffled
  /\ out_grafico_evolucao
       (update_dashboard (Some Samples.three_records) no_selection 10)
     = out_grafico_evolucao
         (update_dashboard (Some Cases.three_records_shuffled) no_selection 10).
Proof.
  assert (Hp : Permutation Samples.three_records Cases.three_records_shuffled).
  { cbn. apply Permutation_sym.
    eapply perm_trans; [apply perm_swap|]. apply perm_skip, perm_swap. }
  split; [exact Hp|]. split; [discriminate|].
  destruct (row_order_changes_no_count Samples.three_records
              Cases.three_records_shuffled no_selection 10 Hp)
    as (_ & _ & H & _).
  exact H.
Defined.

(* ================================================================== *)
(** * More on the report and the export *)

Lemma rasterise_cases (W : World) (name : string) (fig : Figure) :
  rasterise W name fig
  = (match to_image W fig with
     | inl e => ["Erro ao gerar imagem base64 " ++ name ++ ": " ++ str_exc e]
     | inr _ => []
     end,
     inr (chart_image W fig)).
Proof. unfold rasterise, chart_image. now destruct (to_image W fig). Qed.

(** [render_report], computed: the lines of the charts that fail, and
    then the page or the error of the logo. *)
Lemma render_report_cases (W : World) (c : ReportCharts) (top_n : Z) :
  render_report W c top_n
  = (raster_error_lines W c,
     match read_logo W with
     | inl e => inl e
     | inr logo =>
         inr (report_html (b64encode W logo) (strftime_report (now W)) c top_n
                (chart_image W (fig_materia c)) (chart_image W (fig_oficio c))
                (chart_image W (fig_usuarios c)) (chart_image W (fig_evolucao c))
                (to_html W (top10_users_stats c)))
     end).
Proof.
  unfold render_report, raster_error_lines, charts_in_order.
  rewrite !rasterise_cases. cbn [bind flat_map fst snd].
  destruct (to_image W (fig_materia c)), (to_image W (fig_oficio c)),
    (to_image W (fig_usuarios c)), (to_image W (fig_evolucao c)),
    (read_logo W); reflexivity.
Qed.

(** X19. Building the report raises only when the view is not empty and
    the logo cannot be read, and then with the error of the logo. A chart
    that cannot be rasterised never makes it raise: it leaves one printed
    line, in the order Matéria, Ofício, users, monthly series, so that at
    most four lines are printed. *)
Theorem report_raises_only_for_the_logo
    (W : World) (dff : DataFrame) (top_n : Z) :
  (forall e,
     output (generate_report_html_base64 W dff top_n) = inl e
     <-> dff <> [] /\ read_logo W = inl e)
  /\ fst (generate_report_html_base64 W dff top_n)
     = (if empty dff then []
        else raster_error_lines W (report_charts dff top_n))
  /\ List.length (fst (generate_report_html_base64 W dff top_n)) <= 4.
Proof.
  unfold generate_report_html_base64.
  destruct dff as [|r dff]; cbn [empty].
  - split; [|split; [reflexivity | cbn; lia]].
    intros e. split; [discriminate | intros [H _]; congruence].
  - rewrite render_report_cases. cbn [fst output snd]. split; [|split].
    + intros e. destruct (read_logo W) as [e'|logo].
      * split; [intros [= ->]; split; [discriminate | reflexivity]
               | intros [_ [= ->]]; reflexivity].
      * split; [discriminate | intros [_ H]; discriminate].
    + reflexivity.
    + unfold raster_error_lines, charts_in_order. cbn [flat_map fst snd].
      destruct (to_image W (fig_materia _)), (to_image W (fig_oficio _)),
        (to_image W (fig_usuarios _)), (to_image W (fig_evolucao _));
        cbn; lia.
Qed.

Lemma generate_pdf_cases (W : World) (n_clicks : option Z)
    (data : option DataFrame) (sel : Selection) (top_n : Z) :
  generate_pdf W n_clicks data sel top_n
  = if not_clicked n_clicks then ret no_update
    else match data with
         | None | Some [] => ret no_update
         | Some rs =>
             match generate_report_html_base64 W (pdf_view rs sel) top_n with
             | (log, inl e) =>
                 (app log ["Erro ao gerar PDF: " ++ str_exc e], inr no_update)
             | (log, inr html) =>
                 match write_pdf W html with
                 | inl e =>
                     (app log ["Erro ao gerar PDF: " ++ str_exc e], inr no_update)
                 | inr pdf_bytes =>
                     (log, inr (set (send_bytes pdf_bytes (export_name (now W)))))
                 end
             end
         end.
Proof.
  unfold generate_pdf. destruct (not_clicked n_clicks); [reflexivity|].
  destruct data as [[|r rs]|]; try reflexivity.
  cbn [empty]. unfold generate_pdf_try, export_name.
  destruct (generate_report_html_base64 W (pdf_view (r :: rs) sel) top_n)
    as [log [e|html]]; [reflexivity|].
  cbn [bind lift try_except].
  destruct (write_pdf W html) as [e|pdf_bytes]; cbn;
    now rewrite ?app_nil_r.
Qed.

(** X20. [generate_pdf] offers a file exactly when the button was clicked,
    a record set is stored, the report is built and the PDF is written from
    it; the file then holds the bytes written and is named after the time
    of the export. In every other case it offers nothing. *)
Theorem download_is_offered_exactly_when
    (W : World) (n_clicks : option Z) (data : option DataFrame)
    (sel : Selection) (top_n : Z) (d : Download) :
  output (generate_pdf W n_clicks data sel top_n) = inr (set d)
  <-> not_clicked n_clicks = false
      /\ exists rs html,
           data = Some rs /\ rs <> []
           /\ output (generate_report_html_base64 W (pdf_view rs sel) top_n)
              = inr html
           /\ write_pdf W html = inr (content d)
           /\ filename d = export_name (now W).
Proof.
  rewrite generate_pdf_cases.
  destruct (not_clicked n_clicks).
  { split; [discriminate | intros [H _]; discriminate]. }
  destruct data as [[|r rs]|].
  - split; [discriminate|]. intros (_ & rs & html & [= <-] & H & _). congruence.
  - destruct (generate_report_html_base64 W (pdf_view (r :: rs) sel) top_n)
      as [log [e|html]] eqn:Hrep.
    + split; [discriminate|].
      intros (_ & rs' & html & [= <-] & _ & H & _).
      rewrite Hrep in H. discriminate.
    + destruct (write_pdf W html) as [e|pdf_bytes] eqn:Hpdf.
      * split; [discriminate|].
        intros (_ & rs' & html' & [= <-] & _ & H & Hw & _).
        rewrite Hrep in H. cbn in H. inversion H; subst. congruence.
      * cbn [output snd]. split.
        -- intros [= <-]. split; [reflexivity|].
           exists (r :: rs), html. rewrite Hrep.
           repeat split; try reflexivity; [discriminate | exact Hpdf].
        -- intros (_ & rs' & html' & [= <-] & _ & H & Hw & Hname).
           rewrite Hrep in H. cbn in H. inversion H; subst html'.
           rewrite Hpdf in Hw. inversion Hw. destruct d as [c f].
           cbn in *. now subst.
  - split; [discriminate|]. intros (_ & rs & html & H & _). discriminate.
Qed.

Lemma lex_eq_r (c : comparison) : lex c Eq = c.
Proof. now destruct c. Qed.

Lemma append_assoc (a b c : string) : (a ++ b) ++ c = a ++ (b ++ c).
Proof. induction a as [|x a IH]; simpl; congruence. Qed.

Lemma compare_same_prefix (p a b : string) :
  String.compare (p ++ a) (p ++ b) = String.compare a b.
Proof.
  rewrite compare_append by reflexivity.
  now rewrite string_compare_refl.
Qed.

Lemma compare_zfill_then (w : nat) (x y : Z) (a b : string) :
  (0 <= x < 10 ^ Z.of_nat w)%Z -> (0 <= y < 10 ^ Z.of_nat w)%Z ->
  String.compare (zfill w x ++ a) (zfill w y ++ b)
  = lex (x ?= y)%Z (String.compare a b).
Proof.
  intros Hx Hy. rewrite compare_append by now rewrite !zfill_length.
  now rewrite zfill_compare.
Qed.

Lemma export_name_compare (t1 t2 : Timestamp) :
  is_datetime t1 -> is_datetime t2 ->
  String.compare (export_name t1) (export_name t2) = compare_to_second t1 t2.
Proof.
  intros (Hy1 & Hm1 & Hd1 & Hh1 & Hmi1 & Hs1) (Hy2 & Hm2 & Hd2 & Hh2 & Hmi2 & Hs2).
  unfold export_name, strftime_file, compare_to_second.
  rewrite compare_same_prefix, !append_assoc.
  rewrite (compare_zfill_then 4) by (simpl; lia).
  rewrite (compare_zfill_then 2) by (simpl; lia).
  rewrite (compare_zfill_then 2) by (simpl; lia).
  rewrite (compare_same_prefix "_").
  rewrite (compare_zfill_then 2) by (simpl; lia).
  rewrite (compare_zfill_then 2) by (simpl; lia).
  rewrite (compare_zfill_then 2) by (simpl; lia).
  now rewrite string_compare_refl, lex_eq_r.
Qed.

Lemma export_name_length (t : Timestamp) : String.length (export_name t) = 37.
Proof.
  unfold export_name, strftime_file.
  rewrite !length_append, !zfill_length. reflexivity.
Qed.

(** X21. The file an export offers has a name of 37 characters, and the
    names of two exports compare as text the way their times compare, down
    to the second: the downloads sort by name in the order they were made. *)
Theorem export_names_sort_by_time
    (W W' : World) (n_clicks n_clicks' : option Z)
    (data data' : option DataFrame) (sel sel' : Selection) (top_n top_n' : Z)
    (d d' : Download) :
  is_datetime (now W) -> is_datetime (now W') ->
  output (generate_pdf W n_clicks data sel top_n) = inr (set d) ->
  output (generate_pdf W' n_clicks' data' sel' top_n') = inr (set d') ->
  String.length (filename d) = 37
  /\ String.compare (filename d) (filename d')
     = compare_to_second (now W) (now W').
Proof.
  intros Ht Ht' Hd Hd'.
  assert (Hname : forall V n dt sl tn x,
            output (generate_pdf V n dt sl tn) = inr (set x) ->
            filename x = export_name (now V)).
  { intros V n dt sl tn x. rewrite generate_pdf_cases.
    destruct (not_clicked n); [discriminate|].
    destruct dt as [[|r rs]|]; try discriminate.
    destruct (generate_report_html_base64 V (pdf_view (r :: rs) sl) tn)
      as [log [e|html]]; [discriminate|].
    destruct (write_pdf V html); [discriminate|].
    intros [= <-]. reflexivity. }
  rewrite (Hname _ _ _ _ _ _ Hd), (Hname _ _ _ _ _ _ Hd').
  split; [apply export_name_length | now apply export_name_compare].
Qed.

Lemma export_names_sort_by_time_witness :
  exists d d',
    output (generate_pdf Samples.working_world (Some 1%Z)
              (Some Samples.three_records) Samples.february 20) = inr (set d)
    /\ output (generate_pdf Cases.a_second_later (Some 2%Z)
                 (Some Samples.three_records) no_selection 10) = inr (set d')
    /\ filename d = "relatorio_dpu_sis_20250309_140507.pdf"
    /\ filename d' = "relatorio_dpu_sis_20250309_140508.pdf"
    /\ String.compare (filename d) (filename d') = Lt.
Proof.
  eexists. eexists.
  split; [reflexivity|]. split; [reflexivity|].
  split; [reflexivity|]. split; [reflexivity|].
  refine (proj2 (export_names_sort_by_time Samples.working_world
                   Cases.a_second_later (Some 1%Z) (Some 2%Z)
                   (Some Samples.three_records) (Some Samples.three_records)
                   Samples.february no_selection 20 10 _ _ _ _ eq_refl eq_refl)).
  - unfold is_datetime. simpl. lia.
  - unfold is_datetime. simpl. lia.
Defined.

(* ================================================================== *)
(** * The filter options *)

Lemma unique_In (column : list Cell) (c : Cell) :
  In c (unique column) <-> In c column.
Proof.
  induction column as [|x column IH]; simpl; [tauto|].
  split.
  - intros [->|H]; [now left|].
    apply in_remove in H. right. apply IH, H.
  - intros [->|H]; [now left|].
    destruct (Cell_eq_dec c x) as [->|Hne]; [now left|].
    right. apply in_in_remove; [assumption | now apply IH].
Qed.

Lemma remove_NoDup (x : Cell) (l : list Cell) :
  NoDup l -> NoDup (remove Cell_eq_dec x l).
Proof.
  induction 1 as [|a l Ha _ IH]; simpl; [constructor|].
  destruct (Cell_eq_dec x a); [assumption|].
  constructor; [|assumption].
  intros Hin. apply in_remove in Hin. now apply Ha.
Qed.

Lemma unique_NoDup (column : list Cell) : NoDup (unique column).
Proof.
  induction column as [|x column IH]; simpl; constructor.
  - apply remove_In.
  - now apply remove_NoDup.
Qed.

Lemma texts_of (cells : list Cell) :
  Forall text_cell cells -> exists names, cells = map as_text names.
Proof.
  induction 1 as [|c cells [s ->] _ (names & ->)].
  - now exists [].
  - now exists (s :: names).
Qed.

Lemma dropna_texts (names : list string) :
  dropna (map as_text names) = map Text names.
Proof. induction names; simpl; congruence. Qed.

Lemma no_blank_text (names : list string) :
  existsb is_blank (map as_text names) = false.
Proof. induction names; simpl; auto. Qed.

Lemma homogeneous_texts (names : list string) :
  homogeneous (map Text names) = true.
Proof.
  destruct names as [|s names]; simpl; [reflexivity|].
  induction names; simpl; auto.
Qed.

Lemma not_after_text (a b : string) :
  not_after (Text a) (Text b) = String.leb a b.
Proof.
  unfold not_after, value_ltb, String.ltb, String.leb.
  rewrite (String.compare_antisym a b).
  now destruct (String.compare b a).
Qed.

Lemma insert_by_map {A B : Type} (f : A -> B) (before : A -> A -> bool)
    (before' : B -> B -> bool) (x : A) (l : list A) :
  (forall a b, before' (f a) (f b) = before a b) ->
  insert_by before' (f x) (map f l) = map f (insert_by before x l).
Proof.
  intros H. induction l as [|y l IH]; simpl; [reflexivity|].
  rewrite H. destruct (before x y); simpl; congruence.
Qed.

Lemma sort_by_map {A B : Type} (f : A -> B) (before : A -> A -> bool)
    (before' : B -> B -> bool) (l : list A) :
  (forall a b, before' (f a) (f b) = before a b) ->
  sort_by before' (map f l) = map f (sort_by before l).
Proof.
  intros H. induction l as [|x l IH]; simpl; [reflexivity|].
  rewrite IH. now apply insert_by_map.
Qed.

(** [sorted] on strings. *)
Lemma sorted_texts (nan_order : list Cell -> list Cell) (names : list string) :
  sorted nan_order (map as_text names)
  = inr (map as_text (sort_by String.leb names)).
Proof.
  destruct names as [|a [|b names]]; try reflexivity.
  unfold sorted.
  change (map as_text (a :: b :: names))
    with (as_text a :: as_text b :: map as_text names).
  cbv iota beta.
  change (as_text a :: as_text b :: map as_text names)
    with (map as_text (a :: b :: names)).
  cbv zeta. rewrite dropna_texts, homogeneous_texts, no_blank_text.
  cbn [negb map]. f_equal.
  change (Text a :: Text b :: map Text names) with (map Text (a :: b :: names)).
  rewrite (sort_by_map Text String.leb not_after) by apply not_after_text.
  now rewrite map_map.
Qed.

Lemma options_of_texts (nan_order : list Cell -> list Cell) (column : list Cell) :
  Forall text_cell column ->
  exists names,
    sorted nan_order (unique column) = inr (map as_text names)
    /\ StronglySorted (fun a b => String.compare a b = Lt) names
    /\ forall s, In s names <-> In (as_text s) column.
Proof.
  intros Htext.
  assert (Hu : Forall text_cell (unique column)).
  { rewrite Forall_forall in *. intros c Hc. apply Htext. now apply unique_In. }
  destruct (texts_of _ Hu) as (raw & Hraw).
  exists (sort_by String.leb raw).
  rewrite Hraw, sorted_texts. split; [reflexivity|].
  assert (Hperm : Permutation raw (sort_by String.leb raw))
    by apply sort_by_perm.
  split.
  - apply StronglySorted_strict.
    + eapply Permutation_NoDup; [exact Hperm|].
      apply (NoDup_map_inv as_text). rewrite <- Hraw. apply unique_NoDup.
    + apply (sort_by_sorted String.leb);
        [apply String.leb_total | apply string_leb_trans].
  - intros s. rewrite <- unique_In, Hraw. split.
    + intros Hin. apply in_map.
      eapply Permutation_in; [apply Permutation_sym; exact Hperm | exact Hin].
    + intros Hin. apply in_map_iff in Hin.
      destruct Hin as (s' & [= ->] & Hin).
      eapply Permutation_in; [exact Hperm | exact Hin].
Qed.

Lemma series_min_some (column : list (option Timestamp)) :
  Forall (fun d => d <> None) column -> column <> [] ->
  exists t, series_min column = Some t /\ series_max column <> None.
Proof.
  intros Hall Hne. unfold series_min, series_max.
  destruct column as [|[t|] column]; [congruence| |].
  - simpl. eexists. split; [reflexivity | discriminate].
  - inversion Hall; subst. congruence.
Qed.

(** X22. For a stored record set whose Matéria, Ofício and Usuário cells
    all hold strings and whose dates are all there, each dropdown is
    offered the strings of its column, each once, in strictly ascending
    order, with the label of an option equal to its value. *)
Theorem options_are_the_sorted_values
    (nan_order : list Cell -> list Cell)
    (date_of_nat : Exception + option CalendarDate) (df : DataFrame) :
  df <> [] ->
  Forall (fun r : Row => text_cell (Materia r) /\ text_cell (Oficio r)
                         /\ text_cell (Usuario r)) df ->
  Forall (fun r : Row => Data_da_Instauracao r <> None) df ->
  exists opts,
    update_filter_options nan_order date_of_nat (Some df) = inr opts
    /\ offers (options_materia opts) (map (fun r : Row => Materia r) df)
    /\ offers (options_oficio opts) (map (fun r : Row => Oficio r) df)
    /\ offers (options_usuario opts) (map (fun r : Row => Usuario r) df).
Proof.
  intros Hne Htext Hdates.
  assert (Hcol : forall f : Row -> Cell,
            (forall r, In r df -> text_cell (f r)) ->
            Forall text_cell (map f df)).
  { intros f Hf. apply Forall_forall. intros c Hc.
    apply in_map_iff in Hc. destruct Hc as (r & <- & Hr). now apply Hf. }
  rewrite Forall_forall in Htext.
  destruct (options_of_texts nan_order (map (fun r : Row => Materia r) df))
    as (ma & Hma & Hma_sorted & Hma_in);
    [apply Hcol; intros r Hr; apply (Htext r Hr)|].
  destruct (options_of_texts nan_order (map (fun r : Row => Oficio r) df))
    as (ofi & Hof & Hof_sorted & Hof_in);
    [apply Hcol; intros r Hr; apply (Htext r Hr)|].
  destruct (options_of_texts nan_order (map (fun r : Row => Usuario r) df))
    as (us & Hus & Hus_sorted & Hus_in);
    [apply Hcol; intros r Hr; apply (Htext r Hr)|].
  destruct (series_min_some (map (fun r : Row => Data_da_Instauracao r) df))
    as (tmin & Hmin & Hmax).
  { apply Forall_forall. intros d Hd. apply in_map_iff in Hd.
    destruct Hd as (r & <- & Hr). rewrite Forall_forall in Hdates.
    now apply Hdates. }
  { intros H. apply map_eq_nil in H. congruence. }
  destruct (series_max (map (fun r : Row => Data_da_Instauracao r) df))
    as [tmax|] eqn:Hmax'; [|congruence].
  unfold update_filter_options. rewrite (empty_false df Hne).
  rewrite Hma, Hof, Hus, Hmin, Hmax'. cbn [and_then date_of_result].
  eexists. split; [reflexivity|].
  cbn [options_materia options_oficio options_usuario]. rewrite !map_map.
  split; [|split].
  - exists ma. auto.
  - exists ofi. auto.
  - exists us. auto.
Qed.

Lemma options_are_the_sorted_values_witness :
  exists opts,
    update_filter_options Cases.keep_order Cases.nat_is_no_date
      (Some Samples.three_records) = inr opts
    /\ map value (options_usuario opts) = [as_text "ana"; as_text "bruno"]
    /\ offers (options_usuario opts)
              (map (fun r : Row => Usuario r) Samples.three_records).
Proof.
  destruct (options_are_the_sorted_values Cases.keep_order Cases.nat_is_no_date
              Samples.three_records) as (opts & Hopts & _ & _ & Hus).
  - discriminate.
  - repeat constructor; eexists; reflexivity.
  - repeat constructor; discriminate.
  - exists opts. split; [exact Hopts|]. split; [|exact Hus].
    cbv in Hopts. inversion Hopts. reflexivity.
Defined.

Lemma sorted_error (nan_order : list Cell -> list Cell) (cells : list Cell)
    (e : Exception) :
  sorted nan_order cells = inl e -> e = OtherError NOT_SUPPORTED.
Proof.
  unfold sorted. destruct cells as [|a [|b cells]]; try discriminate.
  cbv zeta.
  destruct (negb (homogeneous (dropna (a :: b :: cells))));
    [now intros [= <-]|].
  destruct (dropna (a :: b :: cells)) as [|[s|n|t] values]; try discriminate;
    destruct (existsb is_blank (a :: b :: cells)); try discriminate.
  now intros [= <-].
Qed.

Lemma dropna_In {A : Type} (column : list (option A)) (v : A) :
  In v (dropna column) <-> In (Some v) column.
Proof.
  induction column as [|[x|] column IH]; simpl.
  - tauto.
  - rewrite IH. split; intros [H|H]; auto; left; congruence.
  - rewrite IH. split; [auto | intros [H|H]; [discriminate | assumption]].
Qed.

Lemma sorted_blank_and_text (nan_order : list Cell -> list Cell)
    (column : list Cell) :
  blank_and_text column ->
  sorted nan_order (unique column) = inl (OtherError NOT_SUPPORTED).
Proof.
  intros (Hblank & s & Htext).
  apply unique_In in Hblank. apply unique_In in Htext.
  unfold sorted.
  destruct (unique column) as [|a [|b cells]] eqn:Hu.
  - destruct Hblank.
  - destruct Hblank as [->|[]]. destruct Htext as [H|[]]. discriminate.
  - cbv zeta.
    destruct (homogeneous (dropna (a :: b :: cells))) eqn:Hhom;
      [|reflexivity].
    cbn [negb].
    assert (Hin : In (Text s) (dropna (a :: b :: cells)))
      by now apply dropna_In.
    assert (Hb : existsb is_blank (a :: b :: cells) = true).
    { apply existsb_exists. exists None. split; [exact Hblank | reflexivity]. }
    destruct (dropna (a :: b :: cells)) as [|v values]; [destruct Hin|].
    assert (Hv : exists s', v = Text s').
    { destruct Hin as [->|Hin]; [now exists s|].
      cbn [homogeneous] in Hhom. rewrite forallb_forall in Hhom.
      specialize (Hhom _ Hin). destruct v; try discriminate. eauto. }
    destruct Hv as (s' & ->). now rewrite Hb.
Qed.

(** X23. When a column of the stored record set holds both a blank cell
    and a string, be it Matéria, Ofício or Usuário, [update_filter_options]
    raises the TypeError of comparing the two, and nothing catches it: the
    dropdowns and the date bounds are not refreshed. *)
Theorem blank_cell_breaks_the_options
    (nan_order : list Cell -> list Cell)
    (date_of_nat : Exception + option CalendarDate) (df : DataFrame) :
  blank_and_text (map (fun r : Row => Materia r) df)
  \/ blank_and_text (map (fun r : Row => Oficio r) df)
  \/ blank_and_text (map (fun r : Row => Usuario r) df) ->
  update_filter_options nan_order date_of_nat (Some df)
  = inl (OtherError NOT_SUPPORTED).
Proof.
  intros H.
  assert (Hne : df <> []).
  { intros ->. destruct H as [[[] _]|[[[] _]|[[] _]]]. }
  unfold update_filter_options. rewrite (empty_false df Hne).
  destruct (sorted nan_order (unique (map (fun r : Row => Materia r) df)))
    as [e|materias] eqn:Hma.
  { apply sorted_error in Hma. now subst. }
  destruct H as [H|H];
    [rewrite (sorted_blank_and_text nan_order _ H) in Hma; discriminate|].
  cbn [and_then].
  destruct (sorted nan_order (unique (map (fun r : Row => Oficio r) df)))
    as [e|oficios] eqn:Hof.
  { apply sorted_error in Hof. now subst. }
  destruct H as [H|H];
    [rewrite (sorted_blank_and_text nan_order _ H) in Hof; discriminate|].
  cbn [and_then].
  now rewrite (sorted_blank_and_text nan_order _ H).
Qed.

Lemma blank_cell_breaks_the_options_witness :
  update_filter_options Cases.keep_order Cases.nat_is_no_date
    (Some Cases.with_blank_user) = inl (OtherError NOT_SUPPORTED)
  /\ dashboard_charts
       (update_dashboard (Some Cases.with_blank_user) no_selection 10) <> None.
Proof.
  split; [|discriminate].
  apply (blank_cell_breaks_the_options Cases.keep_order Cases.nat_is_no_date
           Cases.with_blank_user).
  right. right. split.
  - cbn. tauto.
  - exists "ana". cbn. tauto.
Defined.

Lemma lex_opp (c1 c2 : comparison) :
  CompOpp (lex c1 c2) = lex (CompOpp c1) (CompOpp c2).
Proof. now destruct c1. Qed.

Lemma ts_compare_antisym (a b : Timestamp) :
  ts_compare b a = CompOpp (ts_compare a b).
Proof.
  unfold ts_compare. rewrite !lex_opp, <- !Z.compare_antisym. reflexivity.
Qed.

Lemma ts_le_refl (t : Timestamp) : ts_le t t.
Proof.
  unfold ts_le, ts_compare. rewrite !Z.compare_refl. discriminate.
Qed.

Lemma ts_leb_false (a b : Timestamp) : ts_leb a b = false -> ts_le b a.
Proof.
  unfold ts_leb, ts_le. rewrite (ts_compare_antisym a b).
  destruct (ts_compare a b); simpl; congruence.
Qed.

Lemma earlier_le (a b : Timestamp) :
  ts_le (earlier a b) a /\ ts_le (earlier a b) b
  /\ (earlier a b = a \/ earlier a b = b).
Proof.
  unfold earlier. destruct (ts_leb a b) eqn:H.
  - split; [apply ts_le_refl|]. split; [now apply ts_leb_spec | now left].
  - split; [now apply ts_leb_false|]. split; [apply ts_le_refl | now right].
Qed.

Lemma later_le (a b : Timestamp) :
  ts_le a (later a b) /\ ts_le b (later a b)
  /\ (later a b = a \/ later a b = b).
Proof.
  unfold later. destruct (ts_leb a b) eqn:H.
  - split; [now apply ts_leb_spec|]. split; [apply ts_le_refl | now right].
  - split; [apply ts_le_refl|]. split; [now apply ts_leb_false | now left].
Qed.

Lemma fold_earlier (l : list Timestamp) : forall t,
  In (fold_left earlier l t) (t :: l)
  /\ forall x, In x (t :: l) -> ts_le (fold_left earlier l t) x.
Proof.
  induction l as [|a l IH]; intros t; cbn [fold_left].
  - split; [now left|]. intros x [<-|[]]. apply ts_le_refl.
  - destruct (IH (earlier t a)) as [Hin Hle].
    destruct (earlier_le t a) as (Ht & Ha & Hcase).
    split.
    + destruct Hin as [Heq|Hin]; [|right; now right].
      rewrite <- Heq. destruct Hcase as [-> | ->]; [now left | right; now left].
    + intros x Hx.
      assert (Hm : ts_le (fold_left earlier l (earlier t a)) (earlier t a))
        by (apply Hle; now left).
      destruct Hx as [<-|[<-|Hx]].
      * eapply ts_le_trans; eassumption.
      * eapply ts_le_trans; eassumption.
      * apply Hle. now right.
Qed.

Lemma fold_later (l : list Timestamp) : forall t,
  In (fold_left later l t) (t :: l)
  /\ forall x, In x (t :: l) -> ts_le x (fold_left later l t).
Proof.
  induction l as [|a l IH]; intros t; cbn [fold_left].
  - split; [now left|]. intros x [<-|[]]. apply ts_le_refl.
  - destruct (IH (later t a)) as [Hin Hle].
    destruct (later_le t a) as (Ht & Ha & Hcase).
    split.
    + destruct Hin as [Heq|Hin]; [|right; now right].
      rewrite <- Heq. destruct Hcase as [-> | ->]; [now left | right; now left].
    + intros x Hx.
      assert (Hm : ts_le (later t a) (fold_left later l (later t a)))
        by (apply Hle; now left).
      destruct Hx as [<-|[<-|Hx]].
      * eapply ts_le_trans; eassumption.
      * eapply ts_le_trans; eassumption.
      * apply Hle. now right.
Qed.

Lemma series_min_least (column : list (option Timestamp)) (m : Timestamp) :
  series_min column = Some m ->
  In (Some m) column /\ forall t, In (Some t) column -> ts_le m t.
Proof.
  unfold series_min. setoid_rewrite <- dropna_In.
  destruct (dropna column) as [|t l]; [discriminate|].
  intros [= <-]. apply fold_earlier.
Qed.

Lemma series_max_greatest (column : list (option Timestamp)) (m : Timestamp) :
  series_max column = Some m ->
  In (Some m) column /\ forall t, In (Some t) column -> ts_le t m.
Proof.
  unfold series_max. setoid_rewrite <- dropna_In.
  destruct (dropna column) as [|t l]; [discriminate|].
  intros [= <-]. apply fold_later.
Qed.

(** X24. In a reachable session, when [update_filter_options] returns,
    the date picker is bounded by the dates of two records of the store,
    the earliest and the latest: the timestamp of every stored record lies
    between them, and the picker opens on the month of the earliest. *)
Theorem date_bounds_cover_the_store
    (W : World) (s : Session) (rs : DataFrame)
    (nan_order : list Cell -> list Cell)
    (date_of_nat : Exception + option CalendarDate) (opts : FilterOptions) :
  Reachable W s ->
  stored_data s = Some rs ->
  update_filter_options nan_order date_of_nat (Some rs) = inr opts ->
  exists tmin tmax,
    In (Some tmin) (map (fun r : Row => Data_da_Instauracao r) rs)
    /\ In (Some tmax) (map (fun r : Row => Data_da_Instauracao r) rs)
    /\ min_date_allowed opts = Some (date_of tmin)
    /\ max_date_allowed opts = Some (date_of tmax)
    /\ initial_visible_month opts = min_date_allowed opts
    /\ forall r t, In r rs -> Data_da_Instauracao r = Some t ->
         ts_le tmin t /\ ts_le t tmax.
Proof.
  intros Hreach Hs Hopts.
  destruct (reachable_store W s Hreach rs Hs) as (Hne & sheet & Hrows).
  assert (Hdates : Forall (fun d : option Timestamp => d <> None)
                          (map (fun r : Row => Data_da_Instauracao r) rs)).
  { apply Forall_forall. intros d Hd. apply in_map_iff in Hd.
    destruct Hd as (r & <- & Hr).
    pose proof (parsed_rows_well_dated W sheet) as Hw.
    rewrite <- Hrows, Forall_forall in Hw.
    destruct (Hw r Hr) as (t & -> & _). discriminate. }
  destruct (series_min_some _ Hdates) as (tmin & Hmin & Hmax).
  { intros H. apply map_eq_nil in H. congruence. }
  destruct (series_max (map (fun r : Row => Data_da_Instauracao r) rs))
    as [tmax|] eqn:Hmax'; [|congruence].
  unfold update_filter_options in Hopts.
  rewrite (empty_false rs Hne), Hmin, Hmax' in Hopts.
  destruct (sorted nan_order (unique (map (fun r : Row => Materia r) rs)));
    [discriminate|].
  destruct (sorted nan_order (unique (map (fun r : Row => Oficio r) rs)));
    [discriminate|].
  destruct (sorted nan_order (unique (map (fun r : Row => Usuario r) rs)));
    [discriminate|].
  cbn [and_then date_of_result] in Hopts. inversion Hopts; subst opts.
  destruct (series_min_least _ _ Hmin) as [Hin_min Hleast].
  destruct (series_max_greatest _ _ Hmax') as [Hin_max Hgreatest].
  exists tmin, tmax. repeat (split; [assumption || reflexivity|]).
  intros r t Hr Ht.
  assert (Hin : In (Some t) (map (fun r : Row => Data_da_Instauracao r) rs)).
  { rewrite <- Ht. now apply (in_map (fun r : Row => Data_da_Instauracao r)). }
  split; [now apply Hleast | now apply Hgreatest].
Qed.

Lemma date_bounds_cover_the_store_witness :
  exists s rs opts,
    Reachable Samples.working_world s
    /\ stored_data s = Some rs
    /\ update_filter_options Cases.keep_order Cases.nat_is_no_date (Some rs)
       = inr opts
    /\ min_date_allowed opts = Some (mkDate 2024 1 15)
    /\ max_date_allowed opts = Some (mkDate 2024 2 20)
    /\ exists tmin tmax,
         min_date_allowed opts = Some (date_of tmin)
         /\ max_date_allowed opts = Some (date_of tmax)
         /\ forall r t, In r rs -> Data_da_Instauracao r = Some t ->
              ts_le tmin t /\ ts_le t tmax.
Proof.
  assert (Hreach : Reachable Samples.working_world
                     (mkSession (Some (parsed_rows Samples.working_world
                                         Samples.good_sheet))
                        StatusEmpty no_selection 10 None)).
  { eapply (reach_start _ no_selection). reflexivity. }
  eexists. eexists. eexists.
  split; [exact Hreach|]. split; [reflexivity|].
  split; [reflexivity|]. split; [reflexivity|]. split; [reflexivity|].
  destruct (date_bounds_cover_the_store Samples.working_world _ _
              Cases.keep_order Cases.nat_is_no_date _ Hreach eq_refl eq_refl)
    as (tmin & tmax & _ & _ & Hmin & Hmax & _ & Hall).
  exists tmin, tmax. split; [exact Hmin|]. split; [exact Hmax | exact Hall].
Defined.

(* ================================================================== *)
(** * The start of the application *)

